(** * Sportradar XML to DataFrames: a shallow embedding

    Embedding of [src/crear_dataframes.py] and [src/ETL/crear_dataframes.py]:
    the extractors that walk an ElementTree document, the batch driver and
    the pandas table builders; and of [src/ETL/extraccion_de_datos.py]: the
    downloader with its retries.  The properties proved of them follow.

    Python is modelled with explicit effects: an exception is a value of
    [exn], a call that may raise returns a [result], a block that mutates a
    local list or writes to the logger is a state-and-exception computation
    [ST], and a [try ... except] is a handler that receives the state as it
    was when the exception was raised (mutations are not rolled back). *)

From Stdlib Require Import List String Ascii Bool Arith ZArith Lia.
From Stdlib Require Import DecimalString.
Import ListNotations.
Open Scope string_scope.

(* ================================================================= *)
(** ** Python prelude: exceptions, dictionaries, logging *)

Module Py.

Inductive exn : Type :=
| AttributeError (msg : string)
| KeyError (key : string)
| ParseError (msg : string)
| ValueError (msg : string)
| TypeError (msg : string)
| RuntimeError (msg : string).

(** [str(e)] as it is interpolated in the log messages. *)
Definition exn_str (e : exn) : string :=
  match e with
  | AttributeError m | ParseError m | ValueError m
  | TypeError m | RuntimeError m => m
  | KeyError k => "'" ++ k ++ "'"
  end.

Inductive result (A : Type) : Type :=
| Ok (a : A)
| Raise (e : exn).
Arguments Ok {A} a.
Arguments Raise {A} e.

Definition rbind {A B} (m : result A) (k : A -> result B) : result B :=
  match m with
  | Ok a => k a
  | Raise e => Raise e
  end.

(** State and exception: the state survives a raise. *)
Definition ST (S A : Type) : Type := S -> result A * S.

Definition ret {S A} (a : A) : ST S A := fun s => (Ok a, s).

Definition bind {S A B} (m : ST S A) (k : A -> ST S B) : ST S B :=
  fun s => match m s with
           | (Ok a, s') => k a s'
           | (Raise e, s') => (Raise e, s')
           end.

Definition lift {S A} (r : result A) : ST S A := fun s => (r, s).

Definition modify {S} (f : S -> S) : ST S unit := fun s => (Ok tt, f s).

(** [try: body  except Exception as e: handler e]. *)
Definition try_except {S A} (body : ST S A) (handler : exn -> ST S A)
  : ST S A :=
  fun s => match body s with
           | (Ok a, s') => (Ok a, s')
           | (Raise e, s') => handler e s'
           end.

Declare Scope py_scope.
Delimit Scope py_scope with py.
Notation "x <- m ;; k" := (rbind m (fun x => k))
  (at level 61, m at next level, right associativity) : py_scope.
Notation "x <-- m ;; k" := (bind m (fun x => k))
  (at level 61, m at next level, right associativity) : py_scope.
Notation "m ;;; k" := (bind m (fun _ => k))
  (at level 61, right associativity) : py_scope.
Open Scope py_scope.

(** [for x in xs: body x]; [rfold] and [fold_ST] are the loops that
    reassign a local on each turn. *)
Fixpoint for_each {S A} (xs : list A) (body : A -> ST S unit) : ST S unit :=
  match xs with
  | [] => ret tt
  | x :: rest => body x ;;; for_each rest body
  end.

Fixpoint rfold {A B} (f : B -> A -> result B) (xs : list A) (b : B)
  : result B :=
  match xs with
  | [] => Ok b
  | x :: rest => b' <- f b x ;; rfold f rest b'
  end.

Fixpoint fold_ST {S A B} (f : B -> A -> ST S B) (xs : list A) (b : B)
  : ST S B :=
  match xs with
  | [] => ret b
  | x :: rest => b' <-- f b x ;; fold_ST f rest b'
  end.

(** A Python value of the records: a string or [None]. *)
Definition pyval : Type := option string.

Definition py_str (v : pyval) : string :=
  match v with Some s => s | None => "None" end.

(** [v == s] for a string literal [s]. *)
Definition val_eqb (v : pyval) (s : string) : bool :=
  match v with Some s' => String.eqb s' s | None => false end.

(** A dict with string keys, in insertion order. *)
Definition dict (V : Type) : Type := list (string * V).
Definition pydict : Type := dict pyval.

Fixpoint dict_get {V} (d : dict V) (k : string) : option V :=
  match d with
  | [] => None
  | (k', v) :: rest => if String.eqb k' k then Some v else dict_get rest k
  end.

(** [d[k] = v]: an existing key keeps its position, a new one goes last. *)
Fixpoint dict_set {V} (d : dict V) (k : string) (v : V) : dict V :=
  match d with
  | [] => [(k, v)]
  | (k', v') :: rest =>
      if String.eqb k' k then (k', v) :: rest
      else (k', v') :: dict_set rest k v
  end.

Definition keys {V} (d : dict V) : list string := map fst d.

Definition has_key {V} (d : dict V) (k : string) : bool :=
  match dict_get d k with Some _ => true | None => false end.

(** [d[k]] as an expression. *)
Definition dict_getitem {V} (d : dict V) (k : string) : result V :=
  match dict_get d k with
  | Some v => Ok v
  | None => Raise (KeyError k)
  end.

(** The dict that holds the given items, later bindings winning. *)
Definition dict_of_items {V} (items : list (string * V)) : dict V :=
  fold_left (fun d kv => dict_set d (fst kv) (snd kv)) items [].

Inductive level : Type := INFO | WARNING | ERROR.

Definition level_eqb (a b : level) : bool :=
  match a, b with
  | INFO, INFO | WARNING, WARNING | ERROR, ERROR => true
  | _, _ => false
  end.

Definition log : Type := list (level * string).

Definition logger_info (msg : string) : ST log unit :=
  modify (fun lg => (lg ++ [(INFO, msg)])%list).
Definition logger_warning (msg : string) : ST log unit :=
  modify (fun lg => (lg ++ [(WARNING, msg)])%list).
Definition logger_error (msg : string) : ST log unit :=
  modify (fun lg => (lg ++ [(ERROR, msg)])%list).

Definition errors_of (lg : log) : list string :=
  map snd (filter (fun r => level_eqb (fst r) ERROR) lg).

(** [str(n)] for a length. *)
Definition str_of_nat (n : nat) : string :=
  NilZero.string_of_uint (Nat.to_uint n).

End Py.
Import Py.
Open Scope py_scope.

(* ================================================================= *)
(** ** xml.etree.ElementTree *)

Module ET.

(** The fragment of ElementPath the scripts use: [.//t] selects the
    descendants with tag [t], a following [/t] the children with tag [t]. *)
Inductive step : Type :=
| Descendant (tag : string)
| Child (tag : string).
Definition path : Type := list step.

(** What the scripts call on a node.  Any of the calls may raise. *)
Class ElementAPI (node : Type) : Type := {
  find : node -> path -> result (option node);
  findall : node -> path -> result (list node);
  get : node -> string -> result pyval;
  attrib_items : node -> result (list (string * string))
}.

(** [o.find(p)] where [o] may be [None]. *)
Definition find_on {node} `{ElementAPI node} (o : option node) (p : path)
  : result (option node) :=
  match o with
  | Some n => find n p
  | None => Raise (AttributeError "'NoneType' object has no attribute 'find'")
  end.

(** [o.get(k) if o is not None else None]. *)
Definition get_if_present {node} `{ElementAPI node} (o : option node)
  (k : string) : result pyval :=
  match o with
  | Some n => get n k
  | None => Ok None
  end.

(** An element as the parser builds it: tag in Clark notation, attribute
    dict, children in document order. *)
#[warnings="-register-all"]
Inductive Element : Type :=
| Elem (tag : string) (attrs : list (string * string))
       (children : list Element).

Definition tag (e : Element) : string :=
  match e with Elem t _ _ => t end.
Definition attrib (e : Element) : dict string :=
  match e with Elem _ a _ => dict_of_items a end.
Definition children (e : Element) : list Element :=
  match e with Elem _ _ c => c end.

(** [e.iter()]: the element and its descendants in document order. *)
Fixpoint iter (e : Element) : list Element :=
  match e with
  | Elem _ _ cs => e :: flat_map iter cs
  end.

Definition descendants (e : Element) : list Element :=
  flat_map iter (children e).

Definition has_tag (t : string) (e : Element) : bool :=
  String.eqb (tag e) t.

Definition select (ctx : list Element) (s : step) : list Element :=
  match s with
  | Descendant t => flat_map (fun e => filter (has_tag t) (descendants e)) ctx
  | Child t => flat_map (fun e => filter (has_tag t) (children e)) ctx
  end.

Definition Element_findall (e : Element) (p : path) : list Element :=
  fold_left select p [e].

Definition Element_find (e : Element) (p : path) : option Element :=
  hd_error (Element_findall e p).

Definition Element_get (e : Element) (k : string) : pyval :=
  dict_get (attrib e) k.

#[export] Instance Element_API : ElementAPI Element := {
  find e p := Ok (Element_find e p);
  findall e p := Ok (Element_findall e p);
  get e k := Ok (Element_get e k);
  attrib_items e := Ok (attrib e)
}.

(** A file on disk; [contents] is what [ET.parse(path).getroot()] gives:
    [ParseError] for malformed markup, the root otherwise. *)
Record xml_file (node : Type) : Type := {
  file_name : string;
  contents : result node
}.
Arguments file_name {node} _.
Arguments contents {node} _.

Definition parse {node} (f : xml_file node) : result node := contents f.

End ET.
Import ET.

(** [NAMESPACE = {'ns': ...}]: [ns:x] is the tag [{uri}x]. *)
Definition NAMESPACE_ns : string :=
  "http://schemas.sportradar.com/sportsapi/soccer-extended/v4".
Definition ns (name : string) : string := "{" ++ NAMESPACE_ns ++ "}" ++ name.

(** ['.//ns:statistics/ns:totals/ns:competitors/ns:competitor']. *)
Definition totals_competitors : path :=
  [Descendant (ns "statistics"); Child (ns "totals");
   Child (ns "competitors"); Child (ns "competitor")].

(** The passthrough loop [for key, value in elem.attrib.items(): stats[key] = value]. *)
Definition copy_attributes (stats : pydict) (items : list (string * string))
  : pydict :=
  fold_left (fun d kv => dict_set d (fst kv) (Some (snd kv))) items stats.

(** [if statistics_elem is not None: for key, value in ...]. *)
Definition passthrough {node} `{ElementAPI node} (stats : pydict)
  (statistics_elem : option node) : result pydict :=
  match statistics_elem with
  | Some s => items <- attrib_items s ;; Ok (copy_attributes stats items)
  | None => Ok stats
  end.

(* ================================================================= *)
(** ** pandas: DataFrame of records and the conversions the scripts call *)

Module Pandas.

(** The scalar types of pandas and what its two conversions depend on are
    taken as given.

    [parse_numeric s] is the number [to_numeric] reads in the text [s] on
    its own, [None] when the text is not a number.  [to_numeric] gives a
    column one dtype (int64 when every cell is an integer, float64 as soon
    as one cell is missing or fractional): [column_cast values x] is the
    value [x] takes in the dtype of a column whose cells read as [values].

    [to_datetime] reads a column in one way (one format, one time zone),
    which it infers from the texts of the column: [infer_reading texts] is
    that way of reading, and [parse_datetime rd s] what the text [s] gives
    under it: an instant, [None] for a text that stands for a missing
    instant, or the exception it raises.

    The last two fields convert between int64 nanoseconds and numbers. *)
Class Dtypes : Type := {
  number : Type;
  timestamp : Type;
  parse_numeric : string -> option number;
  column_cast : list (option number) -> number -> number;
  reading : Type;
  infer_reading : list (option string) -> reading;
  parse_datetime : reading -> string -> result (option timestamp);
  number_of_timestamp : timestamp -> number;
  timestamp_of_number : number -> timestamp
}.

Section Frames.
Context {D : Dtypes}.

(** A cell; [Null] stands for [None], [NaN] and [NaT] alike. *)
Inductive cell : Type :=
| Null
| Str (s : string)
| Num (x : number)
| Bool (b : bool)
| Time (t : timestamp).

Definition Series : Type := list cell.

(** Columns in order, each of [nrows] cells. *)
Record DataFrame : Type := {
  nrows : nat;
  data : dict Series
}.

Definition columns (df : DataFrame) : list string := keys (data df).

(** [pd.DataFrame()]. *)
Definition empty_frame : DataFrame := {| nrows := 0; data := [] |}.

Definition add_column (cols : list string) (k : string) : list string :=
  if existsb (String.eqb k) cols then cols else (cols ++ [k])%list.

(** The union of the records' keys, in first-seen order. *)
Definition union_keys (records : list pydict) : list string :=
  fold_left (fun cols r => fold_left add_column (keys r) cols) records [].

(** The cell of record [r] under column [c]: a missing key and a [None]
    value both read as null. *)
Definition raw_cell (r : pydict) (c : string) : cell :=
  match dict_get r c with
  | Some (Some s) => Str s
  | _ => Null
  end.

(** [pd.DataFrame(records)]. *)
Definition DataFrame_of (records : list pydict) : DataFrame :=
  {| nrows := List.length records;
     data := map (fun c => (c, map (fun r => raw_cell r c) records))
               (union_keys records) |}.

(** [df[col]]. *)
Definition getitem (df : DataFrame) (col : string) : result Series :=
  dict_getitem (data df) col.

(** [df[col] = s]. *)
Definition setitem (df : DataFrame) (col : string) (s : Series)
  : DataFrame :=
  {| nrows := nrows df; data := dict_set (data df) col s |}.

(** [df.shape] as it prints. *)
Definition shape_str (df : DataFrame) : string :=
  "(" ++ str_of_nat (nrows df) ++ ", "
      ++ str_of_nat (List.length (columns df)) ++ ")".

Fixpoint insert_sorted (k : string) (l : list string) : list string :=
  match l with
  | [] => [k]
  | x :: rest =>
      if String.leb k x then k :: l else x :: insert_sorted k rest
  end.

Definition sort_names (l : list string) : list string :=
  fold_right insert_sorted [] l.

(** [index.difference(other)]: the labels not in [other], sorted. *)
Definition difference (index other : list string) : list string :=
  sort_names
    (filter (fun c => negb (existsb (String.eqb c) other)) index).

(** The text of a cell, [None] for a cell that holds no text. *)
Definition cell_text (c : cell) : option string :=
  match c with
  | Str s => Some s
  | _ => None
  end.

(** What a cell reads as on its own. *)
Definition numeric_value (c : cell) : option number :=
  match c with
  | Str s => parse_numeric s
  | Num x => Some x
  | Time t => Some (number_of_timestamp t)
  | _ => None
  end.

(** One cell of [to_numeric] with [errors='coerce'], in a column whose
    cells read as [values].  The builders apply it to raw texts and nulls:
    a text that parses becomes its number in the dtype of the column, any
    other text becomes null.  Numbers and booleans are kept as they are
    and an instant becomes its nanosecond count. *)
Definition to_numeric_cell (values : list (option number)) (c : cell)
  : cell :=
  match c with
  | Str s =>
      match parse_numeric s with
      | Some x => Num (column_cast values x)
      | None => Null
      end
  | Time t => Num (number_of_timestamp t)
  | other => other
  end.

(** [pd.to_numeric(s, errors='coerce')]: every cell is converted in the
    one dtype of the column; no cell makes the call raise. *)
Definition to_numeric_coerce (s : Series) : Series :=
  map (to_numeric_cell (map numeric_value s)) s.

(** One cell of [to_datetime] under the reading [rd] of its column: a null
    stays null, a text gives what the reading makes of it or raises. *)
Definition to_datetime_cell (rd : reading) (c : cell) : result cell :=
  match c with
  | Null => Ok Null
  | Str s =>
      t <- parse_datetime rd s ;;
      Ok (match t with Some t => Time t | None => Null end)
  | Num x => Ok (Time (timestamp_of_number x))
  | Bool _ =>
      Raise (TypeError "<class 'bool'> is not convertible to datetime")
  | Time t => Ok (Time t)
  end.

Fixpoint to_datetime_cells (rd : reading) (s : Series) : result Series :=
  match s with
  | [] => Ok []
  | c :: rest =>
      c' <- to_datetime_cell rd c ;;
      rest' <- to_datetime_cells rd rest ;;
      Ok (c' :: rest')
  end.

(** [pd.to_datetime(s)], with its default [errors='raise']: the column is
    read in the one way inferred from its texts, and the first cell that
    does not convert under it raises. *)
Definition to_datetime (s : Series) : result Series :=
  to_datetime_cells (infer_reading (map cell_text s)) s.

(** [s == lit] for a string literal. *)
Definition eq_str (s : Series) (lit : string) : Series :=
  map (fun c => match c with
                | Str x => Bool (String.eqb x lit)
                | _ => Bool false
                end) s.

(** [df[col] = pd.to_numeric(df[col], errors='coerce')]. *)
Definition numeric_column (df : DataFrame) (col : string)
  : result DataFrame :=
  s <- getitem df col ;;
  Ok (setitem df col (to_numeric_coerce s)).

(** [for col in df.columns.difference(non_numeric): ...]. *)
Definition numeric_columns (df : DataFrame) (non_numeric : list string)
  : result DataFrame :=
  rfold numeric_column (difference (columns df) non_numeric) df.

End Frames.
End Pandas.
Import Pandas.

(* ================================================================= *)
(** ** src/crear_dataframes.py: extractors and batch driver *)

Module CrearDataframes.
Section Extract.
Context {node : Type} `{ElementAPI node}.

(** The four locals the competitor loop of [parse_event_info] assigns. *)
Record sides : Type := {
  home_team : pyval; home_id : pyval;
  away_team : pyval; away_id : pyval
}.

Definition assign_side (s : sides) (comp : node) : result sides :=
  q <- get comp "qualifier" ;;
  if val_eqb q "home" then
    name <- get comp "name" ;;
    id <- get comp "id" ;;
    Ok {| home_team := name; home_id := id;
          away_team := away_team s; away_id := away_id s |}
  else
    q' <- get comp "qualifier" ;;
    if val_eqb q' "away" then
      name <- get comp "name" ;;
      id <- get comp "id" ;;
      Ok {| home_team := home_team s; home_id := home_id s;
            away_team := name; away_id := id |}
    else Ok s.

(** The body of the [try] of [parse_event_info]. *)
Definition parse_event_info_body (root : node) : result (option pydict) :=
  sport_event <- find root [Descendant (ns "sport_event")] ;;
  sport_event_status <- find root [Descendant (ns "sport_event_status")] ;;
  match sport_event, sport_event_status with
  | Some sport_event, Some sport_event_status =>
      event_id <- get sport_event "id" ;;
      start_time <- get sport_event "start_time" ;;
      context <- find sport_event [Descendant (ns "sport_event_context")] ;;
      sport <- find_on context [Descendant (ns "sport")] ;;
      category <- find_on context [Descendant (ns "category")] ;;
      competition <- find_on context [Descendant (ns "competition")] ;;
      season <- find_on context [Descendant (ns "season")] ;;
      round_elem <- find_on context [Descendant (ns "round")] ;;
      competitors <- findall sport_event [Descendant (ns "competitor")] ;;
      teams <- rfold assign_side competitors
                 {| home_team := None; home_id := None;
                    away_team := None; away_id := None |} ;;
      venue <- find sport_event [Descendant (ns "venue")] ;;
      conditions <- find sport_event
                      [Descendant (ns "sport_event_conditions")] ;;
      attendance <-
        match conditions with
        | Some conditions =>
            att_elem <- find conditions [Descendant (ns "attendance")] ;;
            match att_elem with
            | Some att_elem => get att_elem "count"
            | None => Ok None
            end
        | None => Ok None
        end ;;
      status <- get sport_event_status "status" ;;
      match_status <- get sport_event_status "match_status" ;;
      home_score <- get sport_event_status "home_score" ;;
      away_score <- get sport_event_status "away_score" ;;
      sport_name <- get_if_present sport "name" ;;
      category_name <- get_if_present category "name" ;;
      competition_name <- get_if_present competition "name" ;;
      competition_id <- get_if_present competition "id" ;;
      season_name <- get_if_present season "name" ;;
      season_id <- get_if_present season "id" ;;
      round_number <- get_if_present round_elem "number" ;;
      venue_name <- get_if_present venue "name" ;;
      venue_city <- get_if_present venue "city_name" ;;
      venue_capacity <- get_if_present venue "capacity" ;;
      Ok (Some
        [("event_id", event_id);
         ("start_time", start_time);
         ("sport_name", sport_name);
         ("category_name", category_name);
         ("competition_name", competition_name);
         ("competition_id", competition_id);
         ("season_name", season_name);
         ("season_id", season_id);
         ("round_number", round_number);
         ("home_team", home_team teams);
         ("home_team_id", home_id teams);
         ("away_team", away_team teams);
         ("away_team_id", away_id teams);
         ("venue_name", venue_name);
         ("venue_city", venue_city);
         ("venue_capacity", venue_capacity);
         ("attendance", attendance);
         ("status", status);
         ("match_status", match_status);
         ("home_score", home_score);
         ("away_score", away_score)])
  | _, _ => Ok None
  end.

Definition parse_event_info (root : node) : ST log (option pydict) :=
  try_except (lift (parse_event_info_body root))
    (fun e =>
       logger_error ("Error parseando información del evento: "
                     ++ exn_str e) ;;;
       ret None).

(** The dict [stats] of one competitor, passthrough included. *)
Definition team_record (event_id : pyval) (comp : node) : result pydict :=
  team_id <- get comp "id" ;;
  team_name <- get comp "name" ;;
  team_qualifier <- get comp "qualifier" ;;
  statistics_elem <- find comp [Descendant (ns "statistics")] ;;
  passthrough
    [("event_id", event_id);
     ("team_id", team_id);
     ("team_name", team_name);
     ("team_qualifier", team_qualifier)]
    statistics_elem.

(** The body of the [try] of [parse_team_statistics]; the state is the
    local list [team_stats]. *)
Definition parse_team_statistics_body (root : node) (event_id : pyval)
  : ST (list pydict) unit :=
  competitors <-- lift (findall root totals_competitors) ;;
  for_each competitors (fun comp =>
    stats <-- lift (team_record event_id comp) ;;
    modify (fun team_stats => team_stats ++ [stats])%list).

Definition parse_team_statistics (root : node) (event_id : pyval)
  : ST log (list pydict) :=
  fun lg =>
    match parse_team_statistics_body root event_id [] with
    | (Ok _, team_stats) => (Ok team_stats, lg)
    | (Raise e, team_stats) =>
        (logger_error ("Error parseando estadísticas de equipos para "
                       ++ py_str event_id ++ ": " ++ exn_str e) ;;;
         ret team_stats) lg
    end.

Definition player_record (event_id team_id team_name team_qualifier : pyval)
  (player : node) : result pydict :=
  player_id <- get player "id" ;;
  player_name <- get player "name" ;;
  starter <- get player "starter" ;;
  statistics_elem <- find player [Descendant (ns "statistics")] ;;
  passthrough
    [("event_id", event_id);
     ("team_id", team_id);
     ("team_name", team_name);
     ("team_qualifier", team_qualifier);
     ("player_id", player_id);
     ("player_name", player_name);
     ("starter", starter)]
    statistics_elem.

(** The body of the outer loop: the players of one competitor. *)
Definition competitor_players (event_id : pyval) (comp : node)
  : ST (list pydict) unit :=
  team_id <-- lift (get comp "id") ;;
  team_name <-- lift (get comp "name") ;;
  team_qualifier <-- lift (get comp "qualifier") ;;
  players <-- lift (findall comp
                      [Descendant (ns "players"); Child (ns "player")]) ;;
  for_each players (fun player =>
    stats <-- lift (player_record event_id team_id team_name
                      team_qualifier player) ;;
    modify (fun player_stats => player_stats ++ [stats])%list).

Definition parse_player_statistics_body (root : node) (event_id : pyval)
  : ST (list pydict) unit :=
  competitors <-- lift (findall root totals_competitors) ;;
  for_each competitors (competitor_players event_id).

Definition parse_player_statistics (root : node) (event_id : pyval)
  : ST log (list pydict) :=
  fun lg =>
    match parse_player_statistics_body root event_id [] with
    | (Ok _, player_stats) => (Ok player_stats, lg)
    | (Raise e, player_stats) =>
        (logger_error ("Error parseando estadísticas de jugadores para "
                       ++ py_str event_id ++ ": " ++ exn_str e) ;;;
         ret player_stats) lg
    end.

Definition extraction : Type :=
  (option pydict * list pydict * list pydict)%type.

Definition process_xml_file (xml_path : xml_file node) : ST log extraction :=
  try_except
    (root <-- lift (ET.parse xml_path) ;;
     event_info <-- parse_event_info root ;;
     match event_info with
     | None => ret (None, [], [])
     | Some info =>
         event_id <-- lift (dict_getitem info "event_id") ;;
         team_stats <-- parse_team_statistics root event_id ;;
         player_stats <-- parse_player_statistics root event_id ;;
         ret (Some info, team_stats, player_stats)
     end)
    (fun e =>
       match e with
       | ParseError _ =>
           logger_error ("Error parseando XML " ++ file_name xml_path
                         ++ ": " ++ exn_str e) ;;;
           ret (None, [], [])
       | _ =>
           logger_error ("Error procesando " ++ file_name xml_path
                         ++ ": " ++ exn_str e) ;;;
           ret (None, [], [])
       end).

(** [if event_info:] on an optional dict. *)
Definition truthy (event_info : option pydict) : bool :=
  match event_info with
  | Some (_ :: _) => true
  | _ => false
  end.

Definition corpus : Type :=
  (list pydict * list pydict * list pydict)%type.

Definition accumulate (acc : corpus) (xml_file : xml_file node)
  : ST log corpus :=
  let '(events_data, teams_data, players_data) := acc in
  r <-- process_xml_file xml_file ;;
  let '(event_info, team_stats, player_stats) := r in
  if truthy event_info then
    ret (events_data ++ match event_info with
                        | Some info => [info] | None => [] end,
         teams_data ++ team_stats,
         players_data ++ player_stats)%list
  else ret acc.

(** [xml_files] is what [GAMES_FOLDER.glob("*.xml")] lists. *)
Definition process_all_games (xml_files : list (xml_file node))
  : ST log corpus :=
  match xml_files with
  | [] =>
      logger_warning "No se encontraron archivos XML en games" ;;;
      ret ([], [], [])
  | _ =>
      logger_info ("Procesando " ++ str_of_nat (List.length xml_files)
                   ++ " archivos XML...") ;;;
      r <-- fold_ST accumulate xml_files ([], [], []) ;;
      let '(events_data, teams_data, players_data) := r in
      logger_info "Procesamiento completado:" ;;;
      logger_info ("  - " ++ str_of_nat (List.length events_data)
                   ++ " eventos procesados") ;;;
      logger_info ("  - " ++ str_of_nat (List.length teams_data)
                   ++ " registros de estadísticas de equipos") ;;;
      logger_info ("  - " ++ str_of_nat (List.length players_data)
                   ++ " registros de estadísticas de jugadores") ;;;
      ret r
  end.

End Extract.

Section Tables.
Context {D : Dtypes}.

(** [df['start_time'] = pd.to_datetime(df['start_time'])]. *)
Definition datetime_column (df : DataFrame) (col : string)
  : result DataFrame :=
  s <- getitem df col ;;
  s' <- to_datetime s ;;
  Ok (setitem df col s').

(** The [if events_data:] block of [create_dataframes]. *)
Definition events_table (events_data : list pydict) : ST log DataFrame :=
  df_events <-- lift (
    df <- datetime_column (DataFrame_of events_data) "start_time" ;;
    df <- numeric_column df "home_score" ;;
    df <- numeric_column df "away_score" ;;
    df <- numeric_column df "attendance" ;;
    df <- numeric_column df "venue_capacity" ;;
    numeric_column df "round_number") ;;
  logger_info ("  ✓ DataFrame de eventos: " ++ shape_str df_events) ;;;
  ret df_events.

Definition team_non_numeric : list string :=
  ["event_id"; "team_id"; "team_name"; "team_qualifier"].

(** The [if teams_data:] block. *)
Definition teams_table (teams_data : list pydict) : ST log DataFrame :=
  df_teams <-- lift (numeric_columns (DataFrame_of teams_data)
                       team_non_numeric) ;;
  logger_info ("  ✓ DataFrame de estadísticas de equipos: "
               ++ shape_str df_teams) ;;;
  ret df_teams.

Definition player_non_numeric : list string :=
  ["event_id"; "team_id"; "team_name"; "team_qualifier";
   "player_id"; "player_name"; "starter"].

(** [df['starter'] = df['starter'] == 'true']. *)
Definition starter_column (df : DataFrame) : result DataFrame :=
  s <- getitem df "starter" ;;
  Ok (setitem df "starter" (eq_str s "true")).

(** The [if players_data:] block. *)
Definition players_table (players_data : list pydict)
  : ST log DataFrame :=
  df_players <-- lift (
    df <- numeric_columns (DataFrame_of players_data) player_non_numeric ;;
    starter_column df) ;;
  logger_info ("  ✓ DataFrame de estadísticas de jugadores: "
               ++ shape_str df_players) ;;;
  ret df_players.

Definition create_dataframes
  (events_data teams_data players_data : list pydict)
  : ST log (dict DataFrame) :=
  logger_info "Creando DataFrames..." ;;;
  dataframes <--
    match events_data with
    | [] => ret []
    | _ => df_events <-- events_table events_data ;;
           ret (dict_set [] "events" df_events)
    end ;;
  dataframes <--
    match teams_data with
    | [] => ret dataframes
    | _ => df_teams <-- teams_table teams_data ;;
           ret (dict_set dataframes "team_statistics" df_teams)
    end ;;
  match players_data with
  | [] => ret dataframes
  | _ => df_players <-- players_table players_data ;;
         ret (dict_set dataframes "player_statistics" df_players)
  end.

End Tables.

End CrearDataframes.

(* ================================================================= *)
(** ** src/ETL/crear_dataframes.py: extractors *)

Module ETL.
Section Extract.
Context {node : Type} `{ElementAPI node}.

Definition team_record (event_id event_status match_status
                        home_score away_score : pyval) (comp : node)
  : result pydict :=
  qualifier <- get comp "qualifier" ;;
  team_id <- get comp "id" ;;
  team_name <- get comp "name" ;;
  statistics_elem <- find comp [Descendant (ns "statistics")] ;;
  passthrough
    [("event_id", event_id);
     ("team_id", team_id);
     ("team_name", team_name);
     ("team_qualifier", qualifier);
     ("event_status", event_status);
     ("match_status", match_status);
     ("score", if val_eqb qualifier "home" then home_score else away_score)]
    statistics_elem.

Definition parse_team_statistics_body (root : node) (event_id : pyval)
  : ST (list pydict) unit :=
  sport_event_status <-- lift (find root
                                 [Descendant (ns "sport_event_status")]) ;;
  event_status <-- lift (get_if_present sport_event_status "status") ;;
  match_status <-- lift (get_if_present sport_event_status "match_status") ;;
  home_score <-- lift (get_if_present sport_event_status "home_score") ;;
  away_score <-- lift (get_if_present sport_event_status "away_score") ;;
  competitors <-- lift (findall root totals_competitors) ;;
  for_each competitors (fun comp =>
    stats <-- lift (team_record event_id event_status match_status
                      home_score away_score comp) ;;
    modify (fun team_stats => team_stats ++ [stats])%list).

Definition parse_team_statistics (root : node) (event_id : pyval)
  : ST log (list pydict) :=
  fun lg =>
    match parse_team_statistics_body root event_id [] with
    | (Ok _, team_stats) => (Ok team_stats, lg)
    | (Raise e, team_stats) =>
        (logger_error ("Error parseando estadísticas de equipos para "
                       ++ py_str event_id ++ ": " ++ exn_str e) ;;;
         ret team_stats) lg
    end.

Definition player_record (event_id team_id team_name team_qualifier : pyval)
  (player : node) : result pydict :=
  player_id <- get player "id" ;;
  player_name <- get player "name" ;;
  starter <- get player "starter" ;;
  statistics_elem <- find player [Descendant (ns "statistics")] ;;
  passthrough
    [("event_id", event_id);
     ("team_id", team_id);
     ("team_name", team_name);
     ("team_qualifier", team_qualifier);
     ("player_id", player_id);
     ("player_name", player_name);
     ("starter", starter)]
    statistics_elem.

(** The body of the outer loop: the players of one competitor. *)
Definition competitor_players (event_id : pyval) (comp : node)
  : ST (list pydict) unit :=
  team_id <-- lift (get comp "id") ;;
  team_name <-- lift (get comp "name") ;;
  team_qualifier <-- lift (get comp "qualifier") ;;
  players <-- lift (findall comp
                      [Descendant (ns "players"); Child (ns "player")]) ;;
  for_each players (fun player =>
    stats <-- lift (player_record event_id team_id team_name
                      team_qualifier player) ;;
    modify (fun player_stats => player_stats ++ [stats])%list).

Definition parse_player_statistics_body (root : node) (event_id : pyval)
  : ST (list pydict) unit :=
  competitors <-- lift (findall root totals_competitors) ;;
  for_each competitors (competitor_players event_id).

Definition parse_player_statistics (root : node) (event_id : pyval)
  : ST log (list pydict) :=
  fun lg =>
    match parse_player_statistics_body root event_id [] with
    | (Ok _, player_stats) => (Ok player_stats, lg)
    | (Raise e, player_stats) =>
        (logger_error ("Error parseando estadísticas de jugadores para "
                       ++ py_str event_id ++ ": " ++ exn_str e) ;;;
         ret player_stats) lg
    end.

Definition extraction : Type := (list pydict * list pydict)%type.

Definition process_xml_file (xml_path : xml_file node) : ST log extraction :=
  try_except
    (root <-- lift (ET.parse xml_path) ;;
     sport_event <-- lift (find root [Descendant (ns "sport_event")]) ;;
     match sport_event with
     | None =>
         logger_warning ("No se encontró sport_event en "
                         ++ file_name xml_path) ;;;
         ret ([], [])
     | Some sport_event =>
         event_id <-- lift (get sport_event "id") ;;
         team_stats <-- parse_team_statistics root event_id ;;
         player_stats <-- parse_player_statistics root event_id ;;
         ret (team_stats, player_stats)
     end)
    (fun e =>
       match e with
       | ParseError _ =>
           logger_error ("Error parseando XML " ++ file_name xml_path
                         ++ ": " ++ exn_str e) ;;;
           ret ([], [])
       | _ =>
           logger_error ("Error procesando " ++ file_name xml_path
                         ++ ": " ++ exn_str e) ;;;
           ret ([], [])
       end).

Definition accumulate (acc : extraction) (xml_file : xml_file node)
  : ST log extraction :=
  let '(all_teams_data, all_players_data) := acc in
  r <-- process_xml_file xml_file ;;
  let '(team_stats, player_stats) := r in
  ret (all_teams_data ++ team_stats, all_players_data ++ player_stats)%list.

(** [xml_files] is what [GAMES_FOLDER.glob("*.xml")] lists. *)
Definition process_all_games (xml_files : list (xml_file node))
  : ST log extraction :=
  match xml_files with
  | [] =>
      logger_warning "No se encontraron archivos XML en ETL/games" ;;;
      ret ([], [])
  | _ =>
      logger_info ("Procesando " ++ str_of_nat (List.length xml_files)
                   ++ " archivos XML...") ;;;
      r <-- fold_ST accumulate xml_files ([], []) ;;
      let '(all_teams_data, all_players_data) := r in
      logger_info "Procesamiento completado:" ;;;
      logger_info ("  - " ++ str_of_nat (List.length xml_files)
                   ++ " archivos procesados") ;;;
      logger_info ("  - " ++ str_of_nat (List.length all_teams_data)
                   ++ " registros de estadísticas de equipos") ;;;
      logger_info ("  - " ++ str_of_nat (List.length all_players_data)
                   ++ " registros de estadísticas de jugadores") ;;;
      ret r
  end.

End Extract.

Section Tables.
Context {D : Dtypes}.

Definition team_non_numeric : list string :=
  ["event_id"; "team_id"; "team_name"; "team_qualifier";
   "event_status"; "match_status"].

Definition create_team_statistics_dataframe (teams_data : list pydict)
  : ST log DataFrame :=
  match teams_data with
  | [] =>
      logger_error "No hay datos de equipos para crear el DataFrame" ;;;
      ret empty_frame
  | _ =>
      logger_info "Creando DataFrame de estadísticas de equipos..." ;;;
      df_teams <-- lift (numeric_columns (DataFrame_of teams_data)
                           team_non_numeric) ;;
      logger_info ("  ✓ DataFrame creado: " ++ shape_str df_teams) ;;;
      logger_info ("  ✓ Columnas: "
                   ++ str_of_nat (List.length (columns df_teams))) ;;;
      ret df_teams
  end.

Definition player_non_numeric : list string :=
  ["event_id"; "team_id"; "team_name"; "team_qualifier";
   "player_id"; "player_name"; "starter"].

(** [if 'starter' in df.columns: df['starter'] = df['starter'] == 'true']. *)
Definition starter_column (df : DataFrame) : result DataFrame :=
  if existsb (String.eqb "starter") (columns df) then
    s <- getitem df "starter" ;;
    Ok (setitem df "starter" (eq_str s "true"))
  else Ok df.

Definition create_player_statistics_dataframe (players_data : list pydict)
  : ST log DataFrame :=
  match players_data with
  | [] =>
      logger_error "No hay datos de jugadores para crear el DataFrame" ;;;
      ret empty_frame
  | _ =>
      logger_info "Creando DataFrame de estadísticas de jugadores..." ;;;
      df_players <-- lift (
        df <- numeric_columns (DataFrame_of players_data)
                player_non_numeric ;;
        starter_column df) ;;
      logger_info ("  ✓ DataFrame creado: " ++ shape_str df_players) ;;;
      logger_info ("  ✓ Columnas: "
                   ++ str_of_nat (List.length (columns df_players))) ;;;
      ret df_players
  end.

End Tables.

End ETL.

(* ================================================================= *)
(** ** src/ETL/extraccion_de_datos.py: the downloader *)

Module Extraccion.

(** What [requests.get(url, timeout=...)] followed by
    [raise_for_status()] comes to: the text of the response, or a
    [RequestException] with its message. *)
Inductive outcome : Type :=
| Response (text : string)
| Failure (msg : string).

(** The world the downloader acts on.  [network n url] is the outcome of
    the request for [url] when [n] requests have been made before it; the
    other fields record, in order, the urls requested, the seconds slept,
    the files written (path and text) and the log lines. *)
Record world : Type := {
  network : nat -> string -> outcome;
  requested : list string;
  slept : list nat;
  written : list (string * string);
  logged : log
}.

(** What a call can raise: a [RequestException], or another exception. *)
Inductive raised : Type :=
| RequestException (msg : string)
| Other (e : exn).

Inductive answer (A : Type) : Type :=
| Returned (a : A)
| Raised (e : raised).
Arguments Returned {A} a.
Arguments Raised {A} e.

Definition Net (A : Type) : Type := world -> answer A * world.

Definition nret {A} (a : A) : Net A := fun w => (Returned a, w).

Definition nbind {A B} (m : Net A) (k : A -> Net B) : Net B :=
  fun w => match m w with
           | (Returned a, w') => k a w'
           | (Raised e, w') => (Raised e, w')
           end.

Definition throw {A} (e : raised) : Net A := fun w => (Raised e, w).

Notation "x <~ m ;; k" := (nbind m (fun x => k))
  (at level 61, m at next level, right associativity) : py_scope.
Notation "m ~;; k" := (nbind m (fun _ => k))
  (at level 61, right associativity) : py_scope.

Definition log_line (l : level) (msg : string) : Net unit :=
  fun w => (Returned tt,
            {| network := network w; requested := requested w;
               slept := slept w; written := written w;
               logged := (logged w ++ [(l, msg)])%list |}).

(** [time.sleep(seconds)]. *)
Definition sleep (seconds : nat) : Net unit :=
  fun w => (Returned tt,
            {| network := network w; requested := requested w;
               slept := (slept w ++ [seconds])%list; written := written w;
               logged := logged w |}).

(** [requests.get(url, timeout=REQUEST_TIMEOUT)] and
    [response.raise_for_status()], giving [response.text]. *)
Definition requests_get (url : string) : Net string :=
  fun w =>
    let w' := {| network := network w;
                 requested := (requested w ++ [url])%list;
                 slept := slept w; written := written w;
                 logged := logged w |} in
    match network w (List.length (requested w)) url with
    | Response text => (Returned text, w')
    | Failure msg => (Raised (RequestException msg), w')
    end.

(** [with open(filepath, 'w') as f: f.write(text)]; the write itself is
    taken to succeed. *)
Definition write_file (filepath text : string) : Net unit :=
  fun w => (Returned tt,
            {| network := network w; requested := requested w;
               slept := slept w;
               written := (written w ++ [(filepath, text)])%list;
               logged := logged w |}).

Definition API_KEY : string := "YOUR-SPORTRADAR-API-KEY".
Definition BASE_URL : string :=
  "https://api.sportradar.com/soccer-extended/production/v4/en".
Definition GAMES_FOLDER : string := "ETL/games".
Definition SLEEP_SECONDS : nat := 1.

(** The turns of the [for attempt in range(max_retries)] loop that are
    left. *)
Fixpoint download_attempts (url : string) (max_retries : Z)
  (attempts : list nat) : Net string :=
  match attempts with
  | [] => nret ""
  | attempt :: rest =>
      fun w =>
        match requests_get url w with
        | (Returned text, w') => (Returned text, w')
        | (Raised (RequestException e), w') =>
            if (Z.of_nat attempt <? max_retries - 1)%Z then
              (log_line WARNING
                 ("Intento " ++ str_of_nat (attempt + 1)
                  ++ " falló. Reintentando... Error: " ++ e) ~;;
               sleep 2 ~;;
               download_attempts url max_retries rest) w'
            else
              (log_line ERROR ("Error descargando " ++ url ++ ": " ++ e) ~;;
               throw (RequestException e)) w'
        | (Raised e, w') => (Raised e, w')
        end
  end.

Definition download_xml (url : string) (max_retries : Z) : Net string :=
  download_attempts url max_retries (seq 0 (Z.to_nat max_retries)).

Definition get_season_schedules (season_id : string) : Net string :=
  let url := BASE_URL ++ "/seasons/" ++ season_id
             ++ "/schedules.xml?api_key=" ++ API_KEY in
  log_line INFO ("Descargando schedules para temporada " ++ season_id
                 ++ "...") ~;;
  download_xml url 3.

(** The two locals of the competitor loop of
    [parse_events_from_schedule]. *)
Definition name_side (teams : pyval * pyval) (competitor : Element)
  : pyval * pyval :=
  let qualifier := Element_get competitor "qualifier" in
  let name := Element_get competitor "name" in
  if val_eqb qualifier "home" then (name, snd teams)
  else if val_eqb qualifier "away" then (fst teams, name)
  else teams.

(** The body of the schedule loop: the events list after one schedule
    node. *)
Definition schedule_event (events : list pydict) (schedule : Element)
  : list pydict :=
  match Element_find schedule [Descendant (ns "sport_event")] with
  | Some sport_event =>
      let event_id := Element_get sport_event "id" in
      let competitors :=
        Element_findall sport_event [Descendant (ns "competitor")] in
      let teams := fold_left name_side competitors
                     (Some "Unknown", Some "Unknown") in
      (events ++ [[("id", event_id); ("home", fst teams);
                   ("away", snd teams)]])%list
  | None => events
  end.

Section Parsing.
(** [ET.fromstring]: the root of the text, or the message of the
    [ParseError]. *)
Variable fromstring : string -> Element + string.

Definition parse_events_from_schedule (xml_content : string)
  : Net (list pydict) :=
  match fromstring xml_content with
  | inl root =>
      let events :=
        fold_left schedule_event
          (Element_findall root [Descendant (ns "schedule")]) [] in
      log_line INFO ("Encontrados " ++ str_of_nat (List.length events)
                     ++ " eventos en el schedule.") ~;;
      nret events
  | inr e =>
      log_line ERROR ("Error parseando XML: " ++ e) ~;;
      nret []
  end.

(** [event_id.replace(':', '_')]. *)
Fixpoint replace_colons (s : string) : string :=
  match s with
  | EmptyString => EmptyString
  | String c rest =>
      String (if Ascii.eqb c ":"%char then "_"%char else c)
        (replace_colons rest)
  end.

(** [GAMES_FOLDER / filename]: an absolute [filename] replaces the
    folder. *)
Definition in_games_folder (filename : string) : string :=
  match filename with
  | String "/"%char _ => filename
  | _ => GAMES_FOLDER ++ "/" ++ filename
  end.

Definition download_event_summary (event_id home_team away_team : pyval)
  : Net bool :=
  log_line INFO ("Descargando juego " ++ py_str event_id ++ ": "
                 ++ py_str home_team ++ " vs " ++ py_str away_team) ~;;
  let url := BASE_URL ++ "/sport_events/" ++ py_str event_id
             ++ "/summary.xml?api_key=" ++ API_KEY in
  fun w =>
    match (xml_content <~ download_xml url 3 ;;
           match event_id with
           | None =>
               throw (Other (AttributeError
                 "'NoneType' object has no attribute 'replace'"))
           | Some event_id =>
               let filename := replace_colons event_id ++ ".xml" in
               write_file (in_games_folder filename) xml_content ~;;
               log_line INFO ("✓ Guardado: " ++ filename) ~;;
               nret true
           end) w with
    | (Raised (RequestException e), w') =>
        (log_line ERROR ("✗ Error descargando " ++ py_str event_id
                         ++ ": " ++ e) ~;;
         nret false) w'
    | other => other
    end.

(** [event[k]] on the dicts of [parse_events_from_schedule]. *)
Definition event_field (event : pydict) (k : string) : Net pyval :=
  match dict_get event k with
  | Some v => nret v
  | None => throw (Other (KeyError k))
  end.

(** The [for idx, event in enumerate(events, 1)] loop of
    [process_season]; [successful_downloads] is the local it updates. *)
Fixpoint download_events (total : nat) (idx : nat) (events : list pydict)
  (successful_downloads : nat) : Net nat :=
  match events with
  | [] => nret successful_downloads
  | event :: rest =>
      log_line INFO ("[" ++ str_of_nat idx ++ "/" ++ str_of_nat total
                     ++ "] Procesando evento...") ~;;
      id <~ event_field event "id" ;;
      home <~ event_field event "home" ;;
      away <~ event_field event "away" ;;
      ok <~ download_event_summary id home away ;;
      let successful_downloads :=
        if ok then successful_downloads + 1 else successful_downloads in
      (if (idx <? total)%nat then sleep SLEEP_SECONDS else nret tt) ~;;
      download_events total (idx + 1) rest successful_downloads
  end.

Definition rule : string :=
  "============================================================".

Definition process_season (season_id : string) : Net nat :=
  log_line INFO (String "010" rule) ~;;
  log_line INFO ("Procesando temporada: " ++ season_id) ~;;
  log_line INFO (rule ++ String "010" "") ~;;
  fun w =>
    match get_season_schedules season_id w with
    | (Raised (RequestException _), w') =>
        (log_line ERROR ("No se pudo obtener el schedule de " ++ season_id
                         ++ ". Saltando temporada.") ~;;
         nret 0) w'
    | (Raised e, w') => (Raised e, w')
    | (Returned schedules_xml, w') =>
        (events <~ parse_events_from_schedule schedules_xml ;;
         match events with
         | [] =>
             log_line WARNING ("No se encontraron eventos para "
                               ++ season_id ++ ".") ~;;
             nret 0
         | _ =>
             successful_downloads <~
               download_events (List.length events) 1 events 0 ;;
             log_line INFO (String "010" ("Temporada " ++ season_id ++ ": "
                            ++ str_of_nat successful_downloads ++ "/"
                            ++ str_of_nat (List.length events)
                            ++ " eventos descargados."
                            ++ String "010" "")) ~;;
             nret successful_downloads
         end) w'
    end.

End Parsing.
End Extraccion.

(* ================================================================= *)
(** ** Specification vocabulary *)

Module Spec.

(** The values of the calls that completed before the first raise. *)
Fixpoint completed {A} (rs : list (result A)) : list A :=
  match rs with
  | Ok a :: rest => a :: completed rest
  | _ => []
  end.

(** How a loop over those calls ends. *)
Fixpoint outcome {A} (rs : list (result A)) : result unit :=
  match rs with
  | [] => Ok tt
  | Ok _ :: rest => outcome rest
  | Raise e :: _ => Raise e
  end.

(** The log after a handler that reports [msg e] when the outcome is a
    raise. *)
Definition logged (lg : log) (r : result unit) (msg : exn -> string)
  : log :=
  match r with
  | Ok _ => lg
  | Raise e => (lg ++ [(ERROR, msg e)])%list
  end.

(** What a guarded walk returns and logs, given the attempts at the
    competitors ([Raise] when the walk fails before the loop): the
    records completed before the first raise, and one error line when
    there was a raise. *)
Definition walk_result (attempts : result (list (result pydict)))
  (lg : log) (msg : exn -> string) : result (list pydict) * log :=
  match attempts with
  | Ok rs => (Ok (completed rs), logged lg (outcome rs) msg)
  | Raise e => (Ok [], logged lg (Raise e) msg)
  end.

Definition team_error (event_id : pyval) (e : exn) : string :=
  "Error parseando estadísticas de equipos para "
    ++ py_str event_id ++ ": " ++ exn_str e.

(** The statistics attribute bag of a competitor or player node: the
    attributes of the first statistics element below it, none when there
    is no such element. *)
Definition bag (n : Element) : dict string :=
  match Element_find n [Descendant (ns "statistics")] with
  | Some s => attrib s
  | None => []
  end.

(** An attribute of the event-level status node, [None] without one. *)
Definition status_attr (root : Element) (k : string) : pyval :=
  match Element_find root [Descendant (ns "sport_event_status")] with
  | Some st => Element_get st k
  | None => None
  end.

(** The competitors of the totals block and the players of one. *)
Definition competitors_of (root : Element) : list Element :=
  Element_findall root totals_competitors.
Definition players_of (comp : Element) : list Element :=
  Element_findall comp [Descendant (ns "players"); Child (ns "player")].

(** The fields [parse_event_info] always writes. *)
Definition event_fields : list string :=
  ["event_id"; "start_time"; "sport_name"; "category_name";
   "competition_name"; "competition_id"; "season_name"; "season_id";
   "round_number"; "home_team"; "home_team_id"; "away_team";
   "away_team_id"; "venue_name"; "venue_city"; "venue_capacity";
   "attendance"; "status"; "match_status"; "home_score"; "away_score"].

(** The three fields only the ETL team extractor writes. *)
Definition etl_extra_fields : list string :=
  ["event_status"; "match_status"; "score"].

(** A document usable for event purposes: event node, status node and,
    under the event node, the context node. *)
Definition has_event_nodes (root : Element) : bool :=
  match Element_find root [Descendant (ns "sport_event")],
        Element_find root [Descendant (ns "sport_event_status")] with
  | Some se, Some _ =>
      match Element_find se [Descendant (ns "sport_event_context")] with
      | Some _ => true
      | None => false
      end
  | _, _ => false
  end.

Definition usable (f : xml_file Element) : bool :=
  match contents f with
  | Ok root => has_event_nodes root
  | Raise _ => false
  end.

(** An attribute of a node that may be missing. *)
Definition attr_of (o : option Element) (k : string) : pyval :=
  match o with
  | Some n => Element_get n k
  | None => None
  end.

(** The last of the competitors whose qualifier is [q]. *)
Fixpoint last_with_qualifier (q : string) (comps : list Element)
  : option Element :=
  match comps with
  | [] => None
  | c :: rest =>
      match last_with_qualifier q rest with
      | Some c' => Some c'
      | None => if val_eqb (Element_get c "qualifier") q then Some c else None
      end
  end.

(** The attendance node of an event node: below its conditions node. *)
Definition attendance_of (sport_event : Element) : option Element :=
  match Element_find sport_event
          [Descendant (ns "sport_event_conditions")] with
  | Some conditions => Element_find conditions [Descendant (ns "attendance")]
  | None => None
  end.

(** Each competitor of the totals block paired with each of its players,
    in document order. *)
Definition competitor_player_pairs (root : Element)
  : list (Element * Element) :=
  flat_map (fun comp => map (pair comp) (players_of comp))
    (competitors_of root).

(** The fixed fields of a team record and of a player record of
    [src/crear_dataframes.py], in the order they are written. *)
Definition team_fixed_fields : list string :=
  ["event_id"; "team_id"; "team_name"; "team_qualifier"].
Definition player_fixed_fields : list string :=
  ["event_id"; "team_id"; "team_name"; "team_qualifier";
   "player_id"; "player_name"; "starter"].

(** The keys of a bag that are not among the given fields, in bag order. *)
Definition new_keys (fields : list string) (b : dict string) : list string :=
  filter (fun k => negb (existsb (String.eqb k) fields)) (keys b).

(** The value a record holds under [k]: the value of the bag when the bag
    has the key, the value of the fixed fields otherwise. *)
Definition bag_over (b : dict string) (fixed : pydict) (k : string)
  : option pyval :=
  match dict_get b k with
  | Some v => Some (Some v)
  | None => dict_get fixed k
  end.

(** The id attribute of the event node of a file, [None] when the file
    does not parse or has no event node. *)
Definition event_id_of (f : xml_file Element) : pyval :=
  match contents f with
  | Ok root => attr_of (Element_find root [Descendant (ns "sport_event")]) "id"
  | Raise _ => None
  end.

(** The event record of a document, from its event node, its status node
    and the context node of the event. *)
Definition event_record_of (se st ctx : Element) : pydict :=
  let competitors := Element_findall se [Descendant (ns "competitor")] in
  let venue := Element_find se [Descendant (ns "venue")] in
  [("event_id", Element_get se "id");
   ("start_time", Element_get se "start_time");
   ("sport_name",
    attr_of (Element_find ctx [Descendant (ns "sport")]) "name");
   ("category_name",
    attr_of (Element_find ctx [Descendant (ns "category")]) "name");
   ("competition_name",
    attr_of (Element_find ctx [Descendant (ns "competition")]) "name");
   ("competition_id",
    attr_of (Element_find ctx [Descendant (ns "competition")]) "id");
   ("season_name",
    attr_of (Element_find ctx [Descendant (ns "season")]) "name");
   ("season_id",
    attr_of (Element_find ctx [Descendant (ns "season")]) "id");
   ("round_number",
    attr_of (Element_find ctx [Descendant (ns "round")]) "number");
   ("home_team", attr_of (last_with_qualifier "home" competitors) "name");
   ("home_team_id", attr_of (last_with_qualifier "home" competitors) "id");
   ("away_team", attr_of (last_with_qualifier "away" competitors) "name");
   ("away_team_id", attr_of (last_with_qualifier "away" competitors) "id");
   ("venue_name", attr_of venue "name");
   ("venue_city", attr_of venue "city_name");
   ("venue_capacity", attr_of venue "capacity");
   ("attendance", attr_of (attendance_of se) "count");
   ("status", Element_get st "status");
   ("match_status", Element_get st "match_status");
   ("home_score", Element_get st "home_score");
   ("away_score", Element_get st "away_score")].

(** The event record of a file: none when the file does not parse or its
    document lacks the event node, the status node or the context node. *)
Definition file_event (f : xml_file Element) : option pydict :=
  match contents f with
  | Ok root =>
      match Element_find root [Descendant (ns "sport_event")],
            Element_find root [Descendant (ns "sport_event_status")] with
      | Some se, Some st =>
          match Element_find se [Descendant (ns "sport_event_context")] with
          | Some ctx => Some (event_record_of se st ctx)
          | None => None
          end
      | _, _ => None
      end
  | Raise _ => None
  end.

(** The competitors of the totals block of a file, and its competitors
    paired with their players, each with the event id of the file. *)
Definition file_competitors (f : xml_file Element)
  : list (pyval * Element) :=
  match contents f with
  | Ok root => map (pair (event_id_of f)) (competitors_of root)
  | Raise _ => []
  end.

Definition file_players (f : xml_file Element)
  : list (pyval * (Element * Element)) :=
  match contents f with
  | Ok root => map (pair (event_id_of f)) (competitor_player_pairs root)
  | Raise _ => []
  end.

(** The record [r] is the team record of competitor [comp] in the event
    [event_id]: every key of the competitor's statistics bag holds the
    value of the bag, every other key the fixed value. *)
Definition team_record_of (ic : pyval * Element) (r : pydict) : Prop :=
  forall k,
    dict_get r k
    = bag_over (bag (snd ic))
        [("event_id", fst ic);
         ("team_id", Element_get (snd ic) "id");
         ("team_name", Element_get (snd ic) "name");
         ("team_qualifier", Element_get (snd ic) "qualifier")] k.

(** The record [r] is the player record of a player of a competitor in
    the event [event_id]. *)
Definition player_record_of (ip : pyval * (Element * Element)) (r : pydict)
  : Prop :=
  forall k,
    dict_get r k
    = bag_over (bag (snd (snd ip)))
        [("event_id", fst ip);
         ("team_id", Element_get (fst (snd ip)) "id");
         ("team_name", Element_get (fst (snd ip)) "name");
         ("team_qualifier", Element_get (fst (snd ip)) "qualifier");
         ("player_id", Element_get (snd (snd ip)) "id");
         ("player_name", Element_get (snd (snd ip)) "name");
         ("starter", Element_get (snd (snd ip)) "starter")] k.

(** The tables [create_dataframes] has records for. *)
Definition built_tables (events teams players : list pydict) : list string :=
  (match events with [] => [] | _ => ["events"] end
   ++ match teams with [] => [] | _ => ["team_statistics"] end
   ++ match players with [] => [] | _ => ["player_statistics"] end)%list.

(** The raw [starter] of a record is exactly the string ["true"]. *)
Definition starter_is_true (r : pydict) : bool :=
  match dict_get r "starter" with
  | Some v => val_eqb v "true"
  | None => false
  end.

Section WithDtypes.
Context {D : Dtypes}.

(** The raw text of record [r] under [c]: [None] when the key is missing
    or holds [None]. *)
Definition raw_text (r : pydict) (c : string) : option string :=
  match dict_get r c with
  | Some (Some s) => Some s
  | _ => None
  end.

(** The way [to_datetime] reads the start_time column of the records. *)
Definition start_time_reading (events : list pydict) : reading :=
  infer_reading (map (fun r => raw_text r "start_time") events).

(** A raw [start_time] that converts in the column of [events]: missing,
    or a text that the reading of the column accepts. *)
Definition start_time_ok (events : list pydict) (r : pydict) : bool :=
  match raw_text r "start_time" with
  | Some s =>
      match parse_datetime (start_time_reading events) s with
      | Ok _ => true
      | Raise _ => false
      end
  | None => true
  end.

(** What the start_time of [r] becomes in the column of [events]. *)
Definition start_time_cell (events : list pydict) (r : pydict) : cell :=
  match raw_text r "start_time" with
  | Some s =>
      match parse_datetime (start_time_reading events) s with
      | Ok (Some t) => Time t
      | _ => Null
      end
  | None => Null
  end.

(** The event records are those of the event extractor, with its 21
    fields, and their start_time column converts. *)
Definition events_convert (events : list pydict) : Prop :=
  Forall (fun r => keys r = event_fields) events
  /\ forallb (start_time_ok events) events = true.

(** What the cells of column [c] read as, record by record. *)
Definition numeric_values (records : list pydict) (c : string)
  : list (option number) :=
  map (fun r => match raw_text r c with
                | Some s => parse_numeric s
                | None => None
                end) records.

(** Numeric coercion of the raw value of record [r] under [c], in the
    column of [records]: the number the text reads as, in the dtype of the
    column, and null when the text is not a number or there is none. *)
Definition numeric_cell (records : list pydict) (c : string) (r : pydict)
  : cell :=
  match raw_text r c with
  | Some s =>
      match parse_numeric s with
      | Some x => Num (column_cast (numeric_values records c) x)
      | None => Null
      end
  | None => Null
  end.

(** Every column outside the allowlist holds, row by row, the numeric
    coercion of the raw value. *)
Definition numeric_outside (non_numeric : list string)
  (records : list pydict) (df : DataFrame) : Prop :=
  forall c, In c (union_keys records) -> ~ In c non_numeric ->
    getitem df c = Ok (map (numeric_cell records c) records).

(** The starter column holds, row by row, whether the raw value is the
    string ["true"]. *)
Definition starter_exact (records : list pydict) (df : DataFrame) : Prop :=
  getitem df "starter" = Ok (map (fun r => Bool (starter_is_true r)) records).
(** The table has one row per record, one column per key that occurs in
    some record (in first-seen order), and every column has as many cells
    as there are records. *)
Definition table_of (records : list pydict) (df : DataFrame) : Prop :=
  nrows df = List.length records
  /\ columns df = union_keys records
  /\ (forall c, In c (columns df) <->
                exists r, In r records /\ has_key r c = true)
  /\ (forall c s, getitem df c = Ok s ->
                  List.length s = List.length records).

(** Every allowlisted column other than starter holds, row by row, the raw
    text of the record, null where the record has none. *)
Definition raw_inside (non_numeric : list string)
  (records : list pydict) (df : DataFrame) : Prop :=
  forall c, In c non_numeric -> c <> "starter" ->
    In c (union_keys records) ->
    getitem df c = Ok (map (fun r => raw_cell r c) records).
End WithDtypes.

(** The event fields [create_dataframes] converts to numbers. *)
Definition event_numeric_fields : list string :=
  ["home_score"; "away_score"; "attendance"; "venue_capacity";
   "round_number"].

End Spec.
Import Spec.

(* ================================================================= *)
(** ** Sample documents *)

Module Samples.

Definition E (name : string) (attrs : list (string * string))
  (cs : list Element) : Element := Elem (ns name) attrs cs.

Definition context_full : Element :=
  E "sport_event_context" []
    [E "sport" [("id", "sr:sport:1"); ("name", "Soccer")] [];
     E "category" [("id", "sr:category:32"); ("name", "Spain")] [];
     E "competition" [("id", "sr:competition:8"); ("name", "LaLiga")] [];
     E "season" [("id", "sr:season:106501"); ("name", "LaLiga 23/24")] [];
     E "round" [("number", "1")] []].

(** A context node with no sub-node at all. *)
Definition context_bare : Element := E "sport_event_context" [] [].

Definition event_competitors : Element :=
  E "competitors" []
    [E "competitor" [("id", "sr:competitor:2817"); ("name", "Barcelona");
                     ("qualifier", "home")] [];
     E "competitor" [("id", "sr:competitor:2829"); ("name", "Real Madrid");
                     ("qualifier", "away")] []].

Definition status_node : Element :=
  E "sport_event_status"
    [("status", "closed"); ("match_status", "ended");
     ("home_score", "2"); ("away_score", "1")] [].

Definition player (id name starter : string)
  (stats : list (string * string)) : Element :=
  E "player" [("id", id); ("name", name); ("starter", starter)]
    [E "statistics" stats []].

Definition totals (comps : list Element) : Element :=
  E "statistics" [] [E "totals" [] [E "competitors" [] comps]].

Definition home_totals : Element :=
  E "competitor" [("id", "sr:competitor:2817"); ("name", "Barcelona");
                  ("qualifier", "home")]
    [E "statistics" [("ball_possession", "55"); ("shots_total", "14")] [];
     E "players" []
       [player "sr:player:1" "Ter Stegen" "true" [("goals_scored", "0")];
        player "sr:player:2" "Pedri" "true" [("goals_scored", "1")];
        player "sr:player:3" "Fati" "false" [("goals_scored", "1")]]].

Definition away_totals : Element :=
  E "competitor" [("id", "sr:competitor:2829"); ("name", "Real Madrid");
                  ("qualifier", "away")]
    [E "statistics" [("ball_possession", "45"); ("shots_total", "9")] []].

(** A match document: event node with the given context nodes, status
    node, totals with the given competitors. *)
Definition match_doc (id : string) (context : list Element)
  (comps : list Element) : Element :=
  E "sport_event_summary" []
    [E "sport_event" [("id", id); ("start_time", "2023-08-12T19:00:00+00:00")]
       (context ++ [event_competitors]);
     status_node;
     totals comps].

Definition doc (id : string) : Element :=
  match_doc id [context_full] [home_totals; away_totals].

(** Event and status nodes present, no context node. *)
Definition doc_without_context : Element :=
  match_doc "sr:sport_event:7" [] [home_totals; away_totals].

(** Context node present, none of its sub-nodes. *)
Definition doc_bare_context : Element :=
  match_doc "sr:sport_event:8" [context_bare] [home_totals; away_totals].

(** A competitor whose qualifier is neither home nor away. *)
Definition neutral_totals : Element :=
  E "competitor" [("id", "sr:competitor:99"); ("name", "Guest XI");
                  ("qualifier", "neutral")]
    [E "statistics" [("ball_possession", "50")] []].

Definition doc_neutral : Element :=
  match_doc "sr:sport_event:9" [context_full] [neutral_totals].

(** Statistics bags that carry the names of fixed fields. *)
Definition clashing_player : Element :=
  player "sr:player:1" "Ter Stegen" "true"
    [("starter", "false"); ("goals_scored", "0")].

Definition clashing_totals : Element :=
  E "competitor" [("id", "sr:competitor:2817"); ("name", "Barcelona");
                  ("qualifier", "home")]
    [E "statistics" [("event_id", "shadow"); ("team_name", "Shadow FC");
                     ("shots_total", "14")] [];
     E "players" [] [clashing_player]].

Definition doc_clashing : Element :=
  match_doc "sr:sport_event:10" [context_full] [clashing_totals].

(** The event node, the totals block and the root of [doc id], by name. *)
Definition sample_event (id : string) : Element :=
  E "sport_event" [("id", id); ("start_time", "2023-08-12T19:00:00+00:00")]
    [context_full; event_competitors].

(** The event node of [doc_bare_context]. *)
Definition bare_event : Element :=
  E "sport_event" [("id", "sr:sport_event:8");
                   ("start_time", "2023-08-12T19:00:00+00:00")]
    [context_bare; event_competitors].

(** Event node present, no status node. *)
Definition doc_without_status : Element :=
  E "sport_event_summary" []
    [sample_event "sr:sport_event:11"; totals [home_totals; away_totals]].

(** No event node at all: only a status node and the totals block. *)
Definition doc_without_event : Element :=
  E "sport_event_summary" []
    [status_node; totals [home_totals; away_totals]].

Definition good_file (name id : string) : xml_file Element :=
  {| file_name := name; contents := Ok (doc id) |}.



(** Node objects of which the second competitor raises when searched:
    what a test double of [Element] would be. *)
Inductive mock : Type := MockRoot | MockHome | MockAway.

#[export] Instance mock_API : ElementAPI mock := {
  find n p :=
    match n with
    | MockAway => Raise (RuntimeError "broken node")
    | _ => Ok None
    end;
  findall n p :=
    match n with
    | MockRoot => Ok [MockHome; MockAway]
    | _ => Ok []
    end;
  get n k :=
    match n with
    | MockHome => Ok (Some ("home:" ++ k))
    | MockAway => Ok (Some ("away:" ++ k))
    | MockRoot => Ok None
    end;
  attrib_items n := Ok []
}.

(** Integers for numbers and instants.  [parse_numeric] reads a run of
    decimal digits; a column in which every cell is a number keeps the
    integers, a column with a null holds their float64
    ([sample_column_cast]); [parse_datetime] knows the kickoff of the sample
    match and nothing else, whatever the column. *)
Definition digit_of (c : ascii) : option Z :=
  let n := nat_of_ascii c in
  if andb (48 <=? n)%nat (n <=? 57)%nat then Some (Z.of_nat (n - 48))
  else None.

Fixpoint digits (s : string) (acc : Z) : option Z :=
  match s with
  | EmptyString => Some acc
  | String c rest =>
      match digit_of c with
      | Some d => digits rest (10 * acc + d)%Z
      | None => None
      end
  end.

Definition sample_parse_numeric (s : string) : option Z :=
  match s with
  | EmptyString => None
  | _ => digits s 0%Z
  end.

Definition sample_parse_datetime (s : string) : option Z :=
  if String.eqb s "2023-08-12T19:00:00+00:00"
  then Some 1691866800000000000%Z else None.

(** The float64 nearest to an integer, as an integer: 53 bits are kept
    and a tie goes to the even neighbour. *)
Definition float64_of_Z (z : Z) : Z :=
  let a := Z.abs z in
  let bits := (Z.log2 a + 1)%Z in
  if (bits <=? 53)%Z then z
  else
    let shift := (bits - 53)%Z in
    let q := Z.shiftr a shift in
    let r := Z.land a (Z.ones shift) in
    let half := Z.shiftl 1 (shift - 1) in
    let q' := if orb (half <? r)%Z (andb (r =? half)%Z (Z.odd q))
              then (q + 1)%Z else q in
    (Z.sgn z * Z.shiftl q' shift)%Z.

Definition sample_column_cast (values : list (option Z)) (x : Z) : Z :=
  if forallb (fun v => match v with Some _ => true | None => false end)
       values
  then x else float64_of_Z x.

Definition sample_to_datetime (rd : unit) (s : string)
  : result (option Z) :=
  match sample_parse_datetime s with
  | Some t => Ok (Some t)
  | None =>
      Raise (ValueError
        ("Unknown datetime string format, unable to parse: " ++ s))
  end.

Definition sample_dtypes : Dtypes := {|
  number := Z;
  timestamp := Z;
  parse_numeric := sample_parse_numeric;
  column_cast := sample_column_cast;
  reading := unit;
  infer_reading := fun _ => tt;
  parse_datetime := sample_to_datetime;
  number_of_timestamp := fun t => t;
  timestamp_of_number := fun x => x
|}.

(** An event record whose start_time is not a date. *)
Definition event_record (id : string) (start_time : pyval) : pydict :=
  [("event_id", Some id); ("start_time", start_time);
   ("sport_name", Some "Soccer"); ("category_name", Some "Spain");
   ("competition_name", Some "LaLiga");
   ("competition_id", Some "sr:competition:8");
   ("season_name", Some "LaLiga 23/24");
   ("season_id", Some "sr:season:106501");
   ("round_number", Some "1");
   ("home_team", Some "Barcelona");
   ("home_team_id", Some "sr:competitor:2817");
   ("away_team", Some "Real Madrid");
   ("away_team_id", Some "sr:competitor:2829");
   ("venue_name", None); ("venue_city", None); ("venue_capacity", None);
   ("attendance", None);
   ("status", Some "closed"); ("match_status", Some "ended");
   ("home_score", Some "2"); ("away_score", Some "1")].

(** The event record of one match whose start_time converts. *)
Definition sample_events : list pydict :=
  [event_record "sr:sport_event:1" (Some "2023-08-12T19:00:00+00:00")].

Definition player_row (id : string) (starter : pyval)
  (goals : string) : pydict :=
  [("event_id", Some "sr:sport_event:1");
   ("team_id", Some "sr:competitor:2817");
   ("team_name", Some "Barcelona");
   ("team_qualifier", Some "home");
   ("player_id", Some id);
   ("player_name", Some "N.N.");
   ("starter", starter);
   ("goals_scored", Some goals)].

Definition team_row (id qualifier possession : string) : pydict :=
  [("event_id", Some "sr:sport_event:1");
   ("team_id", Some id);
   ("team_name", Some "N.N.");
   ("team_qualifier", Some qualifier);
   ("ball_possession", Some possession)].

End Samples.

Import Samples.

(* ================================================================= *)
(** ** Vocabulary and sample worlds for the downloader *)

Module Schedule.
Import Extraccion.

(** The event nodes of a schedule document: for each schedule node, in
    document order, the first event node below it, if there is one. *)
Definition scheduled_events (root : Element) : list Element :=
  flat_map (fun schedule =>
              match Element_find schedule [Descendant (ns "sport_event")] with
              | Some sport_event => [sport_event]
              | None => []
              end)
           (Element_findall root [Descendant (ns "schedule")]).

(** The name of the last competitor below an event node whose qualifier is
    [q]; the text Unknown when there is none. *)
Definition side_name (q : string) (sport_event : Element) : pyval :=
  match last_with_qualifier q
          (Element_findall sport_event [Descendant (ns "competitor")]) with
  | Some c => Element_get c "name"
  | None => Some "Unknown"
  end.

(** The record of an event node of the schedule. *)
Definition schedule_record (sport_event : Element) : pydict :=
  [("id", Element_get sport_event "id");
   ("home", side_name "home" sport_event);
   ("away", side_name "away" sport_event)].

Definition summary_url (event_id : string) : string :=
  BASE_URL ++ "/sport_events/" ++ event_id ++ "/summary.xml?api_key="
  ++ API_KEY.

Definition schedules_url (season_id : string) : string :=
  BASE_URL ++ "/seasons/" ++ season_id ++ "/schedules.xml?api_key="
  ++ API_KEY.

(** The character does not occur in the text. *)
Fixpoint free_of (c : ascii) (s : string) : bool :=
  match s with
  | EmptyString => true
  | String c' rest => negb (Ascii.eqb c' c) && free_of c rest
  end.

(** The file a summary is saved to, and its text, when the request for
    [url] is answered with [body url]. *)
Definition summary_file (body : string -> string) (sport_event : Element)
  : string * string :=
  let id := py_str (Element_get sport_event "id") in
  ("ETL/games/" ++ replace_colons id ++ ".xml", body (summary_url id)).

(** The event node has an id, and the id has no slash. *)
Definition plain_id (sport_event : Element) : Prop :=
  exists id, Element_get sport_event "id" = Some id
             /\ free_of "/" id = true.

(** The world once [process_season] has logged its heading and
    [get_season_schedules] its info line. *)
Definition season_opened (season_id : string) (w : world) : world :=
  snd ((log_line INFO (String "010" rule) ~;;
        log_line INFO ("Procesando temporada: " ++ season_id) ~;;
        log_line INFO (rule ++ String "010" "") ~;;
        log_line INFO ("Descargando schedules para temporada " ++ season_id
                       ++ "...")) w).

(** The first two requests fail, the later ones are answered. *)
Definition flaky_world : world := {|
  network := fun n url =>
    match n with
    | 0 => Failure "timeout"
    | 1 => Failure "502 Bad Gateway"
    | _ => Response "<summary/>"
    end;
  requested := [];
  slept := [];
  written := [];
  logged := []
|}.

(** Every request fails. *)
Definition dead_world : world := {|
  network := fun n url => Failure "503 Service Unavailable";
  requested := [];
  slept := [];
  written := [];
  logged := []
|}.

(** Every request is answered. *)
Definition online_world : world := {|
  network := fun n url => Response "<schedule/>";
  requested := [];
  slept := [];
  written := [];
  logged := []
|}.

Definition schedule_competitor (q name : string) : Element :=
  Elem (ns "competitor") [("name", name); ("qualifier", q)] [].

(** A schedule with three schedule nodes: a full one, one without an event
    node, and one whose event has no competitors. *)
Definition schedule_doc : Element :=
  Elem (ns "season_schedule") []
    [Elem (ns "schedule") []
       [Elem (ns "sport_event") [("id", "sr:sport_event:1")]
          [Elem (ns "competitors") []
             [schedule_competitor "home" "Alpha";
              schedule_competitor "away" "Beta"]]];
     Elem (ns "schedule") [] [];
     Elem (ns "schedule") []
       [Elem (ns "sport_event") [("id", "sr:sport_event:2")] []]].

(** A parser that knows one text. *)
Definition sample_fromstring (s : string) : Element + string :=
  if String.eqb s "<schedule/>" then inl schedule_doc
  else inr "syntax error: line 1, column 0".

End Schedule.
Import Schedule.

(* ================================================================= *)
(** ** Dictionaries *)

Section DictFacts.
Context {V : Type}.
Implicit Types (d : dict V) (k : string) (v : V).

Lemma dict_get_set_same d k v : dict_get (dict_set d k v) k = Some v.
Proof.
  induction d as [|[k' v'] d IH]; simpl.
  - now rewrite String.eqb_refl.
  - destruct (String.eqb k' k) eqn:E; simpl; rewrite E; auto.
Qed.

Lemma dict_get_set_other d k k' v :
  k <> k' -> dict_get (dict_set d k v) k' = dict_get d k'.
Proof.
  intros Hne. induction d as [|[k0 v0] d IH]; simpl.
  - apply String.eqb_neq in Hne. now rewrite Hne.
  - destruct (String.eqb k0 k) eqn:E; simpl.
    + apply String.eqb_eq in E; subst k0.
      apply String.eqb_neq in Hne. now rewrite Hne.
    + now rewrite IH.
Qed.

Lemma dict_get_None d k : dict_get d k = None <-> ~ In k (keys d).
Proof.
  induction d as [|[k' v'] d IH]; simpl.
  - tauto.
  - destruct (String.eqb k' k) eqn:E.
    + apply String.eqb_eq in E. split; [discriminate | intros Hn; tauto].
    + apply String.eqb_neq in E. rewrite IH. tauto.
Qed.

Lemma dict_get_Some_In d k v : dict_get d k = Some v -> In k (keys d).
Proof.
  intros Hg. destruct (in_dec string_dec k (keys d)) as [|Hn]; auto.
  apply dict_get_None in Hn. congruence.
Qed.

Lemma In_keys_dict_get d k : In k (keys d) -> exists v, dict_get d k = Some v.
Proof.
  intros Hin. destruct (dict_get d k) eqn:E; eauto.
  apply dict_get_None in E. contradiction.
Qed.

Lemma keys_dict_set_in d k v : In k (keys d) -> keys (dict_set d k v) = keys d.
Proof.
  induction d as [|[k' v'] d IH]; simpl; [tauto|].
  intros Hin. destruct (String.eqb k' k) eqn:E; simpl; auto.
  apply String.eqb_neq in E. f_equal. apply IH. tauto.
Qed.

Lemma keys_dict_set_new d k v :
  ~ In k (keys d) -> keys (dict_set d k v) = (keys d ++ [k])%list.
Proof.
  induction d as [|[k' v'] d IH]; simpl; auto.
  intros Hn. destruct (String.eqb k' k) eqn:E; simpl.
  - apply String.eqb_eq in E. tauto.
  - f_equal. apply IH. tauto.
Qed.

Lemma In_keys_dict_set d k v k' :
  In k' (keys (dict_set d k v)) <-> In k' (keys d) \/ k' = k.
Proof.
  destruct (in_dec string_dec k (keys d)) as [Hin|Hn].
  - rewrite keys_dict_set_in by assumption.
    split; [tauto | intros [?| ->]; auto].
  - rewrite keys_dict_set_new by assumption. rewrite in_app_iff. simpl.
    split; [intros [|[|[]]]; auto | intros [|]; auto].
Qed.

Lemma NoDup_keys_dict_set d k v :
  NoDup (keys d) -> NoDup (keys (dict_set d k v)).
Proof.
  intros Hnd. destruct (in_dec string_dec k (keys d)) as [Hin|Hn].
  - now rewrite keys_dict_set_in.
  - rewrite keys_dict_set_new by assumption.
    apply NoDup_app; auto.
    + constructor; [simpl; tauto | constructor].
    + intros x Hx [<-|[]]. contradiction.
Qed.

End DictFacts.

(** The passthrough never loses a key, and a key of the bag ends with the
    value the bag gives it. *)
Lemma copy_attributes_cons (stats : pydict) k v items :
  copy_attributes stats ((k, v) :: items)
  = copy_attributes (dict_set stats k (Some v)) items.
Proof. reflexivity. Qed.

Lemma copy_attributes_keys (items : list (string * string)) (stats : pydict) k :
  In k (keys (copy_attributes stats items)) <->
  In k (keys stats) \/ In k (keys items).
Proof.
  revert stats.
  induction items as [|[k0 v0] items IH]; intros stats.
  - simpl. tauto.
  - rewrite copy_attributes_cons, IH, In_keys_dict_set. simpl.
    intuition auto.
Qed.

Lemma copy_attributes_other (items : list (string * string)) (stats : pydict) k :
  ~ In k (keys items) ->
  dict_get (copy_attributes stats items) k = dict_get stats k.
Proof.
  revert stats.
  induction items as [|[k0 v0] items IH]; intros stats Hn; auto.
  rewrite copy_attributes_cons, IH by (simpl in Hn; tauto).
  apply dict_get_set_other. intros ->. simpl in Hn. tauto.
Qed.

Lemma copy_attributes_bag (items : list (string * string)) (stats : pydict) k v :
  NoDup (keys items) -> dict_get items k = Some v ->
  dict_get (copy_attributes stats items) k = Some (Some v).
Proof.
  revert stats.
  induction items as [|[k0 v0] items IH]; intros stats Hnd Hg.
  - discriminate.
  - rewrite copy_attributes_cons.
    inversion Hnd as [|? ? Hnotin Hnd']; subst. simpl in Hg.
    destruct (String.eqb k0 k) eqn:E.
    + apply String.eqb_eq in E; subst k0. injection Hg as ->.
      rewrite copy_attributes_other by assumption.
      apply dict_get_set_same.
    + now apply IH.
Qed.

Lemma NoDup_keys_dict_of_items {V} (items : list (string * V)) :
  NoDup (keys (dict_of_items items)).
Proof.
  unfold dict_of_items.
  assert (G : forall d : dict V, NoDup (keys d) ->
            NoDup (keys (fold_left
                     (fun d kv => dict_set d (fst kv) (snd kv)) items d))).
  { induction items as [|kv items IH]; intros d Hd; simpl; auto.
    apply IH. now apply NoDup_keys_dict_set. }
  apply G. constructor.
Qed.

Lemma NoDup_keys_attrib (e : Element) : NoDup (keys (attrib e)).
Proof. destruct e; simpl. apply NoDup_keys_dict_of_items. Qed.

(* ================================================================= *)
(** ** Loops that append to a local list *)

Lemma for_each_collect {A B} (f : A -> result B) (xs : list A) (acc : list B) :
  for_each xs (fun x => s <-- lift (f x) ;; modify (fun l => l ++ [s])%list) acc
  = (outcome (map f xs), (acc ++ completed (map f xs))%list).
Proof.
  revert acc. induction xs as [|x xs IH]; intros acc; simpl.
  - unfold ret. now rewrite app_nil_r.
  - unfold bind at 1. unfold bind at 1. unfold lift, modify.
    destruct (f x) as [b|e]; simpl.
    + rewrite IH. now rewrite <- app_assoc.
    + now rewrite app_nil_r.
Qed.

Lemma completed_prefix {A} (rs : list (result A)) :
  exists n, map Ok (completed rs) = firstn n rs.
Proof.
  induction rs as [|[a|e] rs [n IH]].
  - exists 0. reflexivity.
  - exists (S n). simpl. now f_equal.
  - exists 0. reflexivity.
Qed.

Lemma outcome_ok_completed {A} (rs : list (result A)) :
  outcome rs = Ok tt -> map Ok (completed rs) = rs.
Proof.
  induction rs as [|[a|e] rs IH]; simpl; intros Ho; auto.
  - f_equal. auto.
  - discriminate.
Qed.

(* ================================================================= *)
(** ** Guarded walks, for any node objects *)

Section Walks.
Context {node : Type} {API : ElementAPI node}.

Lemma main_team_walk (root : node) (event_id : pyval) (lg : log) :
  CrearDataframes.parse_team_statistics root event_id lg
  = walk_result
      (competitors <- findall root totals_competitors ;;
       Ok (map (CrearDataframes.team_record event_id) competitors))
      lg (team_error event_id).
Proof.
  unfold CrearDataframes.parse_team_statistics,
    CrearDataframes.parse_team_statistics_body, walk_result.
  unfold bind at 1. unfold lift at 1.
  destruct (findall root totals_competitors) as [comps|e]; simpl.
  - rewrite for_each_collect. simpl.
    destruct (outcome _) as [[]|e]; reflexivity.
  - reflexivity.
Qed.

Lemma etl_team_walk (root : node) (event_id : pyval) (lg : log) :
  ETL.parse_team_statistics root event_id lg
  = walk_result
      (sport_event_status <- find root
                               [Descendant (ns "sport_event_status")] ;;
       event_status <- get_if_present sport_event_status "status" ;;
       match_status <- get_if_present sport_event_status "match_status" ;;
       home_score <- get_if_present sport_event_status "home_score" ;;
       away_score <- get_if_present sport_event_status "away_score" ;;
       competitors <- findall root totals_competitors ;;
       Ok (map (ETL.team_record event_id event_status match_status
                  home_score away_score) competitors))
      lg (team_error event_id).
Proof.
  unfold ETL.parse_team_statistics, ETL.parse_team_statistics_body,
    walk_result.
  unfold bind at 1. unfold lift at 1.
  destruct (find root _) as [st|e]; simpl; [|reflexivity].
  unfold bind at 1. unfold lift at 1.
  destruct (get_if_present st "status") as [es|e]; simpl; [|reflexivity].
  unfold bind at 1. unfold lift at 1.
  destruct (get_if_present st "match_status") as [ms|e]; simpl;
    [|reflexivity].
  unfold bind at 1. unfold lift at 1.
  destruct (get_if_present st "home_score") as [hs|e]; simpl;
    [|reflexivity].
  unfold bind at 1. unfold lift at 1.
  destruct (get_if_present st "away_score") as [aw|e]; simpl;
    [|reflexivity].
  unfold bind at 1. unfold lift at 1.
  destruct (findall root totals_competitors) as [comps|e]; simpl;
    [|reflexivity].
  rewrite for_each_collect. simpl.
  destruct (outcome _) as [[]|e]; reflexivity.
Qed.

End Walks.

(** Whatever the node objects do, neither [parse_team_statistics]
    propagates an exception: the call returns normally with the records of
    the competitors that were completed before the first raise (none when
    the raise comes before the loop, all of them when there is no raise),
    and logs one error line when there was a raise. *)
Lemma parse_team_statistics_keeps_completed_records :
  forall (node : Type) (API : ElementAPI node)
         (root : node) (event_id : pyval) (lg : log),
    CrearDataframes.parse_team_statistics root event_id lg
    = walk_result
        (competitors <- findall root totals_competitors ;;
         Ok (map (CrearDataframes.team_record event_id) competitors))
        lg (team_error event_id)
    /\
    ETL.parse_team_statistics root event_id lg
    = walk_result
        (sport_event_status <- find root
                                 [Descendant (ns "sport_event_status")] ;;
         event_status <- get_if_present sport_event_status "status" ;;
         match_status <- get_if_present sport_event_status "match_status" ;;
         home_score <- get_if_present sport_event_status "home_score" ;;
         away_score <- get_if_present sport_event_status "away_score" ;;
         competitors <- findall root totals_competitors ;;
         Ok (map (ETL.team_record event_id event_status match_status
                    home_score away_score) competitors))
        lg (team_error event_id).
Proof.
  intros. split; [apply main_team_walk | apply etl_team_walk].
Qed.

(** Node objects that raise are not parsed documents.  On the test double
    whose second competitor raises, the walk ends in that exception and both
    extractors return the record of the first competitor. *)
Example parse_team_statistics_on_test_double :
  fst (CrearDataframes.parse_team_statistics_body
         MockRoot (Some "sr:sport_event:1") [])
    = Raise (RuntimeError "broken node")
  /\ fst (CrearDataframes.parse_team_statistics
            MockRoot (Some "sr:sport_event:1") [])
     = Ok [[("event_id", Some "sr:sport_event:1");
            ("team_id", Some "home:id");
            ("team_name", Some "home:name");
            ("team_qualifier", Some "home:qualifier")]]
  /\ fst (ETL.parse_team_statistics_body
            MockRoot (Some "sr:sport_event:1") [])
     = Raise (RuntimeError "broken node")
  /\ fst (ETL.parse_team_statistics MockRoot (Some "sr:sport_event:1") [])
     = Ok [[("event_id", Some "sr:sport_event:1");
            ("team_id", Some "home:id");
            ("team_name", Some "home:name");
            ("team_qualifier", Some "home:qualifier");
            ("event_status", None);
            ("match_status", None);
            ("score", None)]].
Proof. repeat split; reflexivity. Qed.

(* ================================================================= *)
(** ** The event extractor on ElementTree documents *)

Lemma assign_sides_total (competitors : list Element)
  (s : CrearDataframes.sides) :
  exists s', rfold CrearDataframes.assign_side competitors s = Ok s'.
Proof.
  revert s. induction competitors as [|c cs IH]; intros s; simpl.
  - eauto.
  - unfold CrearDataframes.assign_side. simpl.
    destruct (val_eqb (Element_get c "qualifier") "home"); simpl;
      [apply IH|].
    destruct (val_eqb (Element_get c "qualifier") "away"); simpl; apply IH.
Qed.

(** With event, status and context nodes present the record is produced,
    whatever sub-nodes the context has. *)
Lemma parse_event_info_with_context (root : Element) (lg : log) :
  has_event_nodes root = true ->
  exists info,
    CrearDataframes.parse_event_info root lg = (Ok (Some info), lg)
    /\ keys info = event_fields
    /\ info <> [].
Proof.
  unfold has_event_nodes, CrearDataframes.parse_event_info, try_except, lift,
    CrearDataframes.parse_event_info_body.
  simpl.
  destruct (Element_find root [Descendant (ns "sport_event")]) as [se|];
    [|discriminate].
  destruct (Element_find root [Descendant (ns "sport_event_status")])
    as [st|]; [|discriminate].
  simpl.
  destruct (Element_find se [Descendant (ns "sport_event_context")])
    as [ctx|]; [|discriminate].
  intros _. simpl.
  destruct (assign_sides_total
              (Element_findall se [Descendant (ns "competitor")])
              {| CrearDataframes.home_team := None;
                 CrearDataframes.home_id := None;
                 CrearDataframes.away_team := None;
                 CrearDataframes.away_id := None |}) as [teams ->].
  simpl.
  destruct (Element_find se [Descendant (ns "sport_event_conditions")])
    as [cond|]; simpl.
  - destruct (Element_find cond [Descendant (ns "attendance")]) as [att|];
      simpl;
      destruct (Element_find ctx [Descendant (ns "sport")]),
        (Element_find ctx [Descendant (ns "category")]),
        (Element_find ctx [Descendant (ns "competition")]),
        (Element_find ctx [Descendant (ns "season")]),
        (Element_find ctx [Descendant (ns "round")]),
        (Element_find se [Descendant (ns "venue")]); simpl;
      eexists; (split; [reflexivity | split; [reflexivity | discriminate]]).
  - destruct (Element_find ctx [Descendant (ns "sport")]),
      (Element_find ctx [Descendant (ns "category")]),
      (Element_find ctx [Descendant (ns "competition")]),
      (Element_find ctx [Descendant (ns "season")]),
      (Element_find ctx [Descendant (ns "round")]),
      (Element_find se [Descendant (ns "venue")]); simpl;
      eexists; (split; [reflexivity | split; [reflexivity | discriminate]]).
Qed.

(** Without the context node the first search under it raises, and the
    handler drops the record. *)
Lemma parse_event_info_without_context (root se st : Element) (lg : log) :
  Element_find root [Descendant (ns "sport_event")] = Some se ->
  Element_find root [Descendant (ns "sport_event_status")] = Some st ->
  Element_find se [Descendant (ns "sport_event_context")] = None ->
  CrearDataframes.parse_event_info root lg
  = (Ok None,
     (lg ++ [(ERROR, "Error parseando información del evento: 'NoneType' object has no attribute 'find'")])%list).
Proof.
  intros Hse Hst Hctx.
  unfold CrearDataframes.parse_event_info, try_except, lift,
    CrearDataframes.parse_event_info_body.
  simpl. rewrite Hse, Hst. simpl. rewrite Hctx. reflexivity.
Qed.

(** C1 at the failing document: event node and status node are both
    there, the context node is not, and [parse_event_info] returns [None]
    after logging the [AttributeError], where the claim wants a record with
    null context fields. *)
Theorem parse_event_info_drops_record_without_context :
  Element_find doc_without_context [Descendant (ns "sport_event")] <> None
  /\ Element_find doc_without_context
       [Descendant (ns "sport_event_status")] <> None
  /\ CrearDataframes.parse_event_info doc_without_context []
     = (Ok None,
        [(ERROR, "Error parseando información del evento: 'NoneType' object has no attribute 'find'")]).
Proof.
  repeat split; try discriminate.
Qed.

(** The guarded siblings: with a bare context node every context field is
    null and the record is there. *)
Example parse_event_info_bare_context :
  exists info,
    CrearDataframes.parse_event_info doc_bare_context [] = (Ok (Some info), [])
    /\ dict_get info "sport_name" = Some None
    /\ dict_get info "category_name" = Some None
    /\ dict_get info "competition_name" = Some None
    /\ dict_get info "season_name" = Some None
    /\ dict_get info "round_number" = Some None
    /\ dict_get info "event_id" = Some (Some "sr:sport_event:8").
Proof. eexists. repeat split. Qed.

(* ================================================================= *)
(** ** The statistics extractors on ElementTree documents *)

Lemma completed_total {A B} (f : A -> result B) (xs : list A) :
  (forall x, exists b, f x = Ok b) ->
  outcome (map f xs) = Ok tt
  /\ Forall2 (fun x b => f x = Ok b) xs (completed (map f xs)).
Proof.
  intros Hf. induction xs as [|x xs [IHo IHc]]; simpl.
  - split; [reflexivity | constructor].
  - destruct (Hf x) as [b Hb]. rewrite Hb. split; [assumption|].
    constructor; assumption.
Qed.

Lemma Forall2_nth_error {A B} (R : A -> B -> Prop) xs ys i x :
  Forall2 R xs ys -> nth_error xs i = Some x ->
  exists y, nth_error ys i = Some y /\ R x y.
Proof.
  intros HF. revert i. induction HF as [|a b xs ys Hab HF IH]; intros i Hi.
  - destruct i; discriminate.
  - destruct i as [|i]; simpl in *.
    + injection Hi as <-. eauto.
    + now apply IH.
Qed.

Lemma Forall2_join {A B C} (P : A -> B -> Prop) (Q : A -> C -> Prop)
  (R : B -> C -> Prop) xs ys zs :
  (forall x y z, P x y -> Q x z -> R y z) ->
  Forall2 P xs ys -> Forall2 Q xs zs -> Forall2 R ys zs.
Proof.
  intros HR HP. revert zs.
  induction HP as [|x y xs ys Hxy HP IH]; intros zs HQ;
    inversion HQ; subst; constructor; eauto.
Qed.

Lemma passthrough_bag (stats : pydict) (n : Element) :
  passthrough stats (Element_find n [Descendant (ns "statistics")])
  = Ok (copy_attributes stats (bag n)).
Proof.
  unfold passthrough, bag.
  destruct (Element_find n [Descendant (ns "statistics")]); reflexivity.
Qed.

Lemma main_team_record_Element (event_id : pyval) (comp : Element) :
  CrearDataframes.team_record event_id comp
  = Ok (copy_attributes
          [("event_id", event_id);
           ("team_id", Element_get comp "id");
           ("team_name", Element_get comp "name");
           ("team_qualifier", Element_get comp "qualifier")]
          (bag comp)).
Proof.
  unfold CrearDataframes.team_record. simpl. apply passthrough_bag.
Qed.

Lemma etl_team_record_Element (event_id es ms hs aw : pyval)
  (comp : Element) :
  ETL.team_record event_id es ms hs aw comp
  = Ok (copy_attributes
          [("event_id", event_id);
           ("team_id", Element_get comp "id");
           ("team_name", Element_get comp "name");
           ("team_qualifier", Element_get comp "qualifier");
           ("event_status", es);
           ("match_status", ms);
           ("score", if val_eqb (Element_get comp "qualifier") "home"
                     then hs else aw)]
          (bag comp)).
Proof.
  unfold ETL.team_record. simpl. apply passthrough_bag.
Qed.

Lemma player_record_Element (event_id tid tname tq : pyval)
  (player : Element) :
  CrearDataframes.player_record event_id tid tname tq player
  = Ok (copy_attributes
          [("event_id", event_id);
           ("team_id", tid);
           ("team_name", tname);
           ("team_qualifier", tq);
           ("player_id", Element_get player "id");
           ("player_name", Element_get player "name");
           ("starter", Element_get player "starter")]
          (bag player)).
Proof.
  unfold CrearDataframes.player_record. simpl. apply passthrough_bag.
Qed.

(** On a document no call raises: one record per competitor, nothing
    logged. *)
Lemma main_teams_on_Element (root : Element) (event_id : pyval) (lg : log) :
  exists records,
    CrearDataframes.parse_team_statistics root event_id lg = (Ok records, lg)
    /\ Forall2 (fun comp r => CrearDataframes.team_record event_id comp = Ok r)
         (competitors_of root) records.
Proof.
  rewrite main_team_walk. simpl.
  destruct (completed_total (CrearDataframes.team_record event_id)
              (Element_findall root totals_competitors)) as [Ho Hc].
  { intros x. rewrite main_team_record_Element. eauto. }
  unfold walk_result. rewrite Ho. simpl. eauto.
Qed.

Lemma etl_status_fields (root : Element) (k : string) :
  get_if_present (Element_find root [Descendant (ns "sport_event_status")]) k
  = Ok (status_attr root k).
Proof.
  unfold get_if_present, status_attr.
  destruct (Element_find root _); reflexivity.
Qed.

Lemma etl_teams_on_Element (root : Element) (event_id : pyval) (lg : log) :
  exists records,
    ETL.parse_team_statistics root event_id lg = (Ok records, lg)
    /\ Forall2 (fun comp r =>
                  ETL.team_record event_id
                    (status_attr root "status")
                    (status_attr root "match_status")
                    (status_attr root "home_score")
                    (status_attr root "away_score") comp = Ok r)
         (competitors_of root) records.
Proof.
  rewrite etl_team_walk.
  change (find root [Descendant (ns "sport_event_status")])
    with (Ok (Element_find root [Descendant (ns "sport_event_status")])).
  cbn [rbind]. rewrite !etl_status_fields. cbn [rbind].
  change (findall root totals_competitors) with (Ok (competitors_of root)).
  cbn [rbind].
  destruct (completed_total
              (ETL.team_record event_id
                 (status_attr root "status")
                 (status_attr root "match_status")
                 (status_attr root "home_score")
                 (status_attr root "away_score"))
              (competitors_of root)) as [Ho Hc].
  { intros x. rewrite etl_team_record_Element. eauto. }
  unfold walk_result. rewrite Ho. simpl. eauto.
Qed.




(** C5, as the code has it.  In the ETL team extractor the score of a
    record comes from the event-level status node: home_score when the
    competitor's qualifier is "home", away_score for every other competitor
    (qualifier "away", any other value, or none), as long as the
    competitor's statistics bag has no attribute named score. *)
Theorem etl_score_by_qualifier :
  forall (root : Element) (event_id : pyval) (lg : log)
         (i : nat) (comp : Element),
    nth_error (competitors_of root) i = Some comp ->
    has_key (bag comp) "score" = false ->
    exists records r,
      ETL.parse_team_statistics root event_id lg = (Ok records, lg)
      /\ nth_error records i = Some r
      /\ dict_get r "score"
         = Some (if val_eqb (Element_get comp "qualifier") "home"
                 then status_attr root "home_score"
                 else status_attr root "away_score").
Proof.
  intros root event_id lg i comp Hi Hbag.
  destruct (etl_teams_on_Element root event_id lg) as [records [Hrun HF]].
  destruct (Forall2_nth_error _ _ _ _ _ HF Hi) as [r [Hr Hrec]].
  exists records, r. repeat split; auto.
  rewrite etl_team_record_Element in Hrec. injection Hrec as <-.
  rewrite copy_attributes_other; [reflexivity|].
  apply dict_get_None. unfold has_key in Hbag.
  destruct (dict_get (bag comp) "score"); [discriminate | reflexivity].
Qed.

Lemma etl_score_by_qualifier_witness :
  nth_error (competitors_of (doc "sr:sport_event:1")) 1 = Some away_totals
  /\ has_key (bag away_totals) "score" = false
  /\ exists records r,
       ETL.parse_team_statistics (doc "sr:sport_event:1")
         (Some "sr:sport_event:1") [] = (Ok records, [])
       /\ nth_error records 1 = Some r
       /\ dict_get r "score"
          = Some (if val_eqb (Element_get away_totals "qualifier") "home"
                  then status_attr (doc "sr:sport_event:1") "home_score"
                  else status_attr (doc "sr:sport_event:1") "away_score").
Proof.
  split; [reflexivity|]. split; [reflexivity|].
  apply (etl_score_by_qualifier (doc "sr:sport_event:1")
           (Some "sr:sport_event:1") [] 1 away_totals); reflexivity.
Defined.

(** C5 as stated fails: the competitor with qualifier "neutral" is given
    the away score, not an absent one. *)
Lemma etl_score_neutral_counterexample :
  exists r,
    ETL.parse_team_statistics doc_neutral (Some "sr:sport_event:9") []
    = (Ok [r], [])
    /\ dict_get r "team_qualifier" = Some (Some "neutral")
    /\ status_attr doc_neutral "away_score" = Some "1"
    /\ dict_get r "score" = Some (Some "1").
Proof. eexists. repeat split. Qed.

(** C9, as the code has it.  On every document the two team extractors
    return the same number of records, and the field names of each ETL
    record are those of the matching record of the other path together with
    event_status, match_status and score. *)
Theorem team_extractors_shapes :
  forall (root : Element) (event_id : pyval) (lg : log),
    exists main_records etl_records,
      CrearDataframes.parse_team_statistics root event_id lg
      = (Ok main_records, lg)
      /\ ETL.parse_team_statistics root event_id lg = (Ok etl_records, lg)
      /\ List.length main_records = List.length etl_records
      /\ Forall2 (fun r_main r_etl =>
                    forall k, In k (keys r_etl) <->
                              In k (keys r_main) \/ In k etl_extra_fields)
           main_records etl_records.
Proof.
  intros root event_id lg.
  destruct (main_teams_on_Element root event_id lg) as [rs1 [H1 F1]].
  destruct (etl_teams_on_Element root event_id lg) as [rs2 [H2 F2]].
  exists rs1, rs2. repeat split; auto.
  - rewrite <- (Forall2_length F1). apply (Forall2_length F2).
  - refine (Forall2_join _ _ _ _ _ _ _ F1 F2).
    intros comp r1 r2 Hr1 Hr2 k.
    rewrite main_team_record_Element in Hr1. injection Hr1 as <-.
    rewrite etl_team_record_Element in Hr2. injection Hr2 as <-.
    rewrite !copy_attributes_keys. unfold etl_extra_fields. simpl.
    intuition auto.
Qed.

(** C9 as stated fails: on the sample document the first ETL record has
    a field named score and the first record of the other path has not. *)
Lemma team_extractors_fields_counterexample :
  exists main_records etl_records r_main r_etl,
    CrearDataframes.parse_team_statistics (doc "sr:sport_event:1")
      (Some "sr:sport_event:1") [] = (Ok main_records, [])
    /\ ETL.parse_team_statistics (doc "sr:sport_event:1")
         (Some "sr:sport_event:1") [] = (Ok etl_records, [])
    /\ nth_error main_records 0 = Some r_main
    /\ nth_error etl_records 0 = Some r_etl
    /\ keys r_main = ["event_id"; "team_id"; "team_name"; "team_qualifier";
                      "ball_possession"; "shots_total"]
    /\ keys r_etl = ["event_id"; "team_id"; "team_name"; "team_qualifier";
                     "event_status"; "match_status"; "score";
                     "ball_possession"; "shots_total"]
    /\ ~ (forall k, In k (keys r_etl) <-> In k (keys r_main)).
Proof.
  do 4 eexists. repeat split.
  intros Hk. destruct (Hk "score") as [Hk' _].
  assert (Hin : In "score" ["event_id"; "team_id"; "team_name";
                            "team_qualifier"; "ball_possession";
                            "shots_total"])
    by (apply Hk'; simpl; tauto).
  destruct Hin as [H|[H|[H|[H|[H|[H|[]]]]]]]; discriminate H.
Qed.


(** The player extractor on a document: the players of each competitor in
    turn, nothing logged. *)
Lemma competitor_players_Element (event_id : pyval) (comp : Element)
  (acc : list pydict) :
  exists records,
    CrearDataframes.competitor_players event_id comp acc
    = (Ok tt, (acc ++ records)%list)
    /\ Forall2 (fun player r =>
                  CrearDataframes.player_record event_id
                    (Element_get comp "id") (Element_get comp "name")
                    (Element_get comp "qualifier") player = Ok r)
         (players_of comp) records.
Proof.
  unfold CrearDataframes.competitor_players.
  change (get comp "id") with (Ok (Element_get comp "id")).
  change (get comp "name") with (Ok (Element_get comp "name")).
  change (get comp "qualifier") with (Ok (Element_get comp "qualifier")).
  change (findall comp [Descendant (ns "players"); Child (ns "player")])
    with (Ok (players_of comp)).
  unfold bind at 1 2 3 4. unfold lift at 1 2 3 4.
  rewrite for_each_collect.
  destruct (completed_total
              (CrearDataframes.player_record event_id
                 (Element_get comp "id") (Element_get comp "name")
                 (Element_get comp "qualifier"))
              (players_of comp)) as [Ho Hc].
  { intros x. rewrite player_record_Element. eauto. }
  rewrite Ho. eauto.
Qed.

Lemma players_loop_Element (event_id : pyval) (comps : list Element)
  (acc : list pydict) :
  exists records,
    for_each comps (CrearDataframes.competitor_players event_id) acc
    = (Ok tt, (acc ++ records)%list)
    /\ forall comp player,
         In comp comps -> In player (players_of comp) ->
         exists r,
           In r records
           /\ CrearDataframes.player_record event_id
                (Element_get comp "id") (Element_get comp "name")
                (Element_get comp "qualifier") player = Ok r.
Proof.
  revert acc. induction comps as [|c comps IH]; intros acc.
  - exists []. simpl. unfold ret. rewrite app_nil_r. split; [reflexivity|].
    intros ? ? [].
  - destruct (competitor_players_Element event_id c acc) as [rs1 [H1 F1]].
    destruct (IH (acc ++ rs1)%list) as [rs2 [H2 F2]].
    exists (rs1 ++ rs2)%list. split.
    + simpl. unfold bind at 1. rewrite H1, H2. now rewrite app_assoc.
    + intros comp player [<-|Hin] Hp.
      * destruct (In_nth_error _ _ Hp) as [i Hi].
        destruct (Forall2_nth_error _ _ _ _ _ F1 Hi) as [r [Hr Hrec]].
        exists r. split; [|assumption].
        apply in_or_app. left. eapply nth_error_In; eauto.
      * destruct (F2 comp player Hin Hp) as [r [Hr Hrec]].
        exists r. split; [|assumption]. apply in_or_app. now right.
Qed.

Lemma players_on_Element (root : Element) (event_id : pyval) (lg : log) :
  exists records,
    CrearDataframes.parse_player_statistics root event_id lg
    = (Ok records, lg)
    /\ forall comp player,
         In comp (competitors_of root) -> In player (players_of comp) ->
         exists r,
           In r records
           /\ CrearDataframes.player_record event_id
                (Element_get comp "id") (Element_get comp "name")
                (Element_get comp "qualifier") player = Ok r.
Proof.
  unfold CrearDataframes.parse_player_statistics,
    CrearDataframes.parse_player_statistics_body.
  change (findall root totals_competitors) with (Ok (competitors_of root)).
  unfold bind at 1. unfold lift at 1.
  destruct (players_loop_Element event_id (competitors_of root) [])
    as [records [Hrun Hrec]].
  rewrite Hrun. simpl. eauto.
Qed.

(** C10.  A key of a statistics bag ends up in the emitted record with the
    value the bag gives it, whichever key it is: when the key is the name of
    a fixed field (event_id, team_name, starter, ...), the fixed value is
    overwritten.  Stated for the ETL team extractor and for the player
    extractor. *)
Theorem passthrough_overwrites_fixed_fields :
  forall (root : Element) (event_id : pyval) (lg : log)
         (comp player : Element) (k v k' v' : string),
    In comp (competitors_of root) ->
    dict_get (bag comp) k = Some v ->
    In player (players_of comp) ->
    dict_get (bag player) k' = Some v' ->
    (exists records r,
       ETL.parse_team_statistics root event_id lg = (Ok records, lg)
       /\ In r records
       /\ ETL.team_record event_id
            (status_attr root "status") (status_attr root "match_status")
            (status_attr root "home_score") (status_attr root "away_score")
            comp = Ok r
       /\ dict_get r k = Some (Some v))
    /\
    (exists records r,
       CrearDataframes.parse_player_statistics root event_id lg
       = (Ok records, lg)
       /\ In r records
       /\ CrearDataframes.player_record event_id
            (Element_get comp "id") (Element_get comp "name")
            (Element_get comp "qualifier") player = Ok r
       /\ dict_get r k' = Some (Some v')).
Proof.
  intros root event_id lg comp player k v k' v' Hcomp Hk Hplayer Hk'.
  assert (Hnd : forall n, NoDup (keys (bag n))).
  { intros n. unfold bag. destruct (Element_find n _).
    - apply NoDup_keys_attrib.
    - constructor. }
  split.
  - destruct (etl_teams_on_Element root event_id lg) as [records [Hrun HF]].
    destruct (In_nth_error _ _ Hcomp) as [i Hi].
    destruct (Forall2_nth_error _ _ _ _ _ HF Hi) as [r [Hr Hrec]].
    exists records, r. repeat split; auto.
    + eapply nth_error_In; eauto.
    + rewrite etl_team_record_Element in Hrec. injection Hrec as <-.
      now apply copy_attributes_bag.
  - destruct (players_on_Element root event_id lg) as [records [Hrun Hall]].
    destruct (Hall comp player Hcomp Hplayer) as [r [Hr Hrec]].
    exists records, r. repeat split; auto.
    rewrite player_record_Element in Hrec. injection Hrec as <-.
    now apply copy_attributes_bag.
Qed.

Lemma passthrough_overwrites_fixed_fields_witness :
  In clashing_totals (competitors_of doc_clashing)
  /\ dict_get (bag clashing_totals) "event_id" = Some "shadow"
  /\ In clashing_player (players_of clashing_totals)
  /\ dict_get (bag clashing_player) "starter" = Some "false"
  /\ Element_get clashing_player "starter" = Some "true"
  /\ (exists records r,
        ETL.parse_team_statistics doc_clashing (Some "sr:sport_event:10") []
        = (Ok records, [])
        /\ In r records
        /\ ETL.team_record (Some "sr:sport_event:10")
             (status_attr doc_clashing "status")
             (status_attr doc_clashing "match_status")
             (status_attr doc_clashing "home_score")
             (status_attr doc_clashing "away_score")
             clashing_totals = Ok r
        /\ dict_get r "event_id" = Some (Some "shadow"))
  /\ (exists records r,
        CrearDataframes.parse_player_statistics doc_clashing
          (Some "sr:sport_event:10") [] = (Ok records, [])
        /\ In r records
        /\ CrearDataframes.player_record (Some "sr:sport_event:10")
             (Element_get clashing_totals "id")
             (Element_get clashing_totals "name")
             (Element_get clashing_totals "qualifier") clashing_player = Ok r
        /\ dict_get r "starter" = Some (Some "false")).
Proof.
  assert (H1 : In clashing_totals (competitors_of doc_clashing))
    by (left; reflexivity).
  assert (H2 : dict_get (bag clashing_totals) "event_id" = Some "shadow")
    by reflexivity.
  assert (H3 : In clashing_player (players_of clashing_totals))
    by (left; reflexivity).
  assert (H4 : dict_get (bag clashing_player) "starter" = Some "false")
    by reflexivity.
  repeat (split; [first [assumption | reflexivity]|]).
  exact (passthrough_overwrites_fixed_fields doc_clashing
           (Some "sr:sport_event:10") [] clashing_totals clashing_player
           "event_id" "shadow" "starter" "false" H1 H2 H3 H4).
Defined.

(* ================================================================= *)
(** ** DataFrames built from records *)

Lemma existsb_eqb_In (k : string) (l : list string) :
  existsb (String.eqb k) l = true <-> In k l.
Proof.
  rewrite existsb_exists. split.
  - intros [x [Hx He]]. apply String.eqb_eq in He. now subst.
  - intros Hin. exists k. split; [assumption | apply String.eqb_refl].
Qed.

Lemma existsb_eqb_not_In (k : string) (l : list string) :
  existsb (String.eqb k) l = false <-> ~ In k l.
Proof.
  rewrite <- existsb_eqb_In. destruct (existsb _ l); split; intros;
    try discriminate; try congruence.
Qed.

Lemma In_add_column (cols : list string) (k c : string) :
  In c (add_column cols k) <-> In c cols \/ c = k.
Proof.
  unfold add_column. destruct (existsb (String.eqb k) cols) eqn:E.
  - apply existsb_eqb_In in E. split; [tauto | intros [?| ->]; auto].
  - rewrite in_app_iff. simpl. intuition auto.
Qed.

Lemma NoDup_add_column (cols : list string) (k : string) :
  NoDup cols -> NoDup (add_column cols k).
Proof.
  intros Hnd. unfold add_column.
  destruct (existsb (String.eqb k) cols) eqn:E; auto.
  apply existsb_eqb_not_In in E.
  apply NoDup_app; auto.
  - constructor; [simpl; tauto | constructor].
  - intros x Hx [<-|[]]. contradiction.
Qed.

Lemma fold_add_column (ks cols : list string) :
  (NoDup cols -> NoDup (fold_left add_column ks cols))
  /\ forall c, In c (fold_left add_column ks cols) <-> In c cols \/ In c ks.
Proof.
  revert cols. induction ks as [|k ks IH]; intros cols; simpl.
  - split; [auto | tauto].
  - destruct (IH (add_column cols k)) as [IHn IHi]. split.
    + intros Hnd. apply IHn. now apply NoDup_add_column.
    + intros c. rewrite IHi, In_add_column. intuition auto.
Qed.

Lemma union_keys_from (records : list pydict) (cols : list string) :
  (NoDup cols ->
   NoDup (fold_left (fun cols r => fold_left add_column (keys r) cols)
            records cols))
  /\ forall c,
       In c (fold_left (fun cols r => fold_left add_column (keys r) cols)
               records cols)
       <-> In c cols \/ exists r, In r records /\ In c (keys r).
Proof.
  revert cols. induction records as [|r records IH]; intros cols; simpl.
  - split; [auto|]. intros c. split; [tauto|].
    intros [|[r [[] _]]]; assumption.
  - destruct (IH (fold_left add_column (keys r) cols)) as [IHn IHi].
    destruct (fold_add_column (keys r) cols) as [Fn Fi]. split.
    + intros Hnd. apply IHn. now apply Fn.
    + intros c. rewrite IHi, Fi. split.
      * intros [[|]|[r' [Hr' Hc]]]; eauto.
      * intros [|[r' [[<-|Hr'] Hc]]]; eauto.
Qed.

Lemma NoDup_union_keys (records : list pydict) : NoDup (union_keys records).
Proof. apply (union_keys_from records []). constructor. Qed.

Lemma In_union_keys (records : list pydict) (c : string) :
  In c (union_keys records) <-> exists r, In r records /\ In c (keys r).
Proof.
  unfold union_keys. rewrite (proj2 (union_keys_from records [])).
  simpl. tauto.
Qed.

Lemma has_key_In {V} (d : dict V) (k : string) :
  has_key d k = true <-> In k (keys d).
Proof.
  unfold has_key. destruct (dict_get d k) eqn:E.
  - split; [intros _; eapply dict_get_Some_In; eauto | reflexivity].
  - apply dict_get_None in E. split; [discriminate | contradiction].
Qed.

Lemma some_record_has_key (records : list pydict) (k : string) :
  existsb (fun r => has_key r k) records = true -> In k (union_keys records).
Proof.
  rewrite existsb_exists. intros [r [Hr Hk]].
  apply In_union_keys. exists r. split; [assumption|].
  now apply has_key_In.
Qed.

Section FrameFacts.
Context {D : Dtypes}.

Lemma dict_get_columns {V} (f : string -> V) (cols : list string) (c : string) :
  dict_get (map (fun c => (c, f c)) cols) c
  = if existsb (String.eqb c) cols then Some (f c) else None.
Proof.
  induction cols as [|x cols IH]; simpl; auto.
  rewrite (String.eqb_sym c x).
  destruct (String.eqb x c) eqn:E; simpl; auto.
  apply String.eqb_eq in E. now subst.
Qed.

Lemma columns_DataFrame_of (records : list pydict) :
  columns (DataFrame_of records) = union_keys records.
Proof.
  unfold columns, keys, DataFrame_of. simpl. rewrite map_map. simpl.
  apply map_id.
Qed.

Lemma column_DataFrame_of (records : list pydict) (c : string) :
  In c (union_keys records) ->
  dict_get (data (DataFrame_of records)) c
  = Some (map (fun r => raw_cell r c) records).
Proof.
  intros Hin. unfold DataFrame_of. cbn [data].
  etransitivity;
    [exact (dict_get_columns
              (fun c => map (fun r => raw_cell r c) records) _ c)|].
  apply existsb_eqb_In in Hin. now rewrite Hin.
Qed.

Lemma columns_setitem (df : DataFrame) (col : string) (s : Series) :
  In col (columns df) -> columns (setitem df col s) = columns df.
Proof. intros Hin. unfold columns, setitem. simpl. now apply keys_dict_set_in. Qed.

(** Coercing one column that exists: it alone changes. *)
Lemma numeric_column_spec (df : DataFrame) (col : string) :
  In col (columns df) ->
  exists s,
    dict_get (data df) col = Some s
    /\ numeric_column df col = Ok (setitem df col (to_numeric_coerce s)).
Proof.
  intros Hin. destruct (In_keys_dict_get _ _ Hin) as [s Hs].
  exists s. split; [assumption|].
  unfold numeric_column, getitem, dict_getitem. now rewrite Hs.
Qed.

Lemma to_numeric_cell_idem (values values' : list (option number))
  (c : cell) :
  to_numeric_cell values' (to_numeric_cell values c)
  = to_numeric_cell values c.
Proof.
  destruct c; simpl; auto. destruct (parse_numeric s); reflexivity.
Qed.

(** A column that was converted is left as it is by a second conversion. *)
Lemma to_numeric_coerce_idem (s : Series) :
  to_numeric_coerce (to_numeric_coerce s) = to_numeric_coerce s.
Proof.
  unfold to_numeric_coerce.
  generalize (map numeric_value
                (map (to_numeric_cell (map numeric_value s)) s)).
  intros values'. rewrite map_map.
  apply map_ext. intros c. apply to_numeric_cell_idem.
Qed.

(** The loop over a list of existing columns never raises; it coerces
    those columns and leaves the others as they were. *)
Lemma numeric_loop_spec (cols : list string) (df : DataFrame) :
  (forall c, In c cols -> In c (columns df)) ->
  exists df',
    rfold numeric_column cols df = Ok df'
    /\ nrows df' = nrows df
    /\ columns df' = columns df
    /\ forall c,
         dict_get (data df') c
         = if in_dec string_dec c cols
           then option_map to_numeric_coerce (dict_get (data df) c)
           else dict_get (data df) c.
Proof.
  revert df. induction cols as [|x cols IH]; intros df Hcols.
  - exists df. simpl. auto.
  - destruct (numeric_column_spec df x) as [s [Hs Hrun]];
      [apply Hcols; now left|].
    assert (Hx : In x (columns df)) by (apply Hcols; now left).
    destruct (IH (setitem df x (to_numeric_coerce s))) as [df' [H1 [H2 [H3 H4]]]].
    { intros c Hc. rewrite columns_setitem by assumption.
      apply Hcols. now right. }
    exists df'. cbn [rfold rbind]. rewrite Hrun. cbn [rbind].
    split; [assumption|]. split; [assumption|].
    split; [now rewrite H3, columns_setitem|].
    intros c. rewrite H4. cbn [setitem data].
    destruct (string_dec x c) as [->|Hne].
    + rewrite dict_get_set_same, Hs. cbn [option_map].
      rewrite to_numeric_coerce_idem.
      destruct (in_dec string_dec c (c :: cols)) as [_|Hn];
        [|exfalso; apply Hn; now left].
      destruct (in_dec string_dec c cols); reflexivity.
    + rewrite dict_get_set_other by assumption.
      destruct (in_dec string_dec c cols) as [Hi|Hn],
               (in_dec string_dec c (x :: cols)) as [Hi'|Hn'];
        try reflexivity.
      * exfalso. apply Hn'. now right.
      * destruct Hi' as [->|]; [congruence | contradiction].
Qed.

Lemma In_insert_sorted (k x : string) (l : list string) :
  In x (insert_sorted k l) <-> x = k \/ In x l.
Proof.
  induction l as [|y l IH]; simpl.
  - intuition auto.
  - destruct (String.leb k y); simpl; rewrite ?IH; intuition auto.
Qed.

Lemma In_sort_names (x : string) (l : list string) :
  In x (sort_names l) <-> In x l.
Proof.
  induction l as [|y l IH]; simpl; [tauto|].
  rewrite In_insert_sorted, IH. intuition auto.
Qed.

Lemma In_difference (index other : list string) (c : string) :
  In c (difference index other) <-> In c index /\ ~ In c other.
Proof.
  unfold difference. rewrite In_sort_names, filter_In.
  rewrite negb_true_iff, existsb_eqb_not_In. tauto.
Qed.

(** [numeric_columns] never raises: the columns outside the allowlist are
    coerced, the others kept. *)
Lemma numeric_columns_spec (df : DataFrame) (non_numeric : list string) :
  exists df',
    numeric_columns df non_numeric = Ok df'
    /\ nrows df' = nrows df
    /\ columns df' = columns df
    /\ (forall c, In c (columns df) -> ~ In c non_numeric ->
          dict_get (data df') c
          = option_map to_numeric_coerce (dict_get (data df) c))
    /\ (forall c, In c non_numeric ->
          dict_get (data df') c = dict_get (data df) c).
Proof.
  unfold numeric_columns.
  destruct (numeric_loop_spec (difference (columns df) non_numeric) df)
    as [df' [H1 [H2 [H3 H4]]]].
  { intros c Hc. now apply In_difference in Hc. }
  exists df'. repeat split; auto.
  - intros c Hc Hn. rewrite H4.
    destruct (in_dec string_dec c _) as [|Hout]; [reflexivity|].
    exfalso. apply Hout. apply In_difference. tauto.
  - intros c Hc. rewrite H4.
    destruct (in_dec string_dec c _) as [Hin|]; [|reflexivity].
    apply In_difference in Hin. tauto.
Qed.

Lemma cell_text_raw (records : list pydict) (c : string) :
  map cell_text (map (fun r => raw_cell r c) records)
  = map (fun r => raw_text r c) records.
Proof.
  rewrite map_map. apply map_ext. intros r. unfold raw_cell, raw_text.
  destruct (dict_get r c) as [[s|]|]; reflexivity.
Qed.

Lemma numeric_value_raw (records : list pydict) (c : string) :
  map numeric_value (map (fun r => raw_cell r c) records)
  = numeric_values records c.
Proof.
  unfold numeric_values. rewrite map_map. apply map_ext. intros r.
  unfold raw_cell, raw_text.
  destruct (dict_get r c) as [[s|]|]; reflexivity.
Qed.

(** Converting a raw column: each cell is read in the column of the
    records. *)
Lemma to_numeric_raw (records : list pydict) (c : string) :
  to_numeric_coerce (map (fun r => raw_cell r c) records)
  = map (numeric_cell records c) records.
Proof.
  unfold to_numeric_coerce. rewrite numeric_value_raw, map_map.
  apply map_ext. intros r. unfold raw_cell, numeric_cell, raw_text.
  destruct (dict_get r c) as [[s|]|]; reflexivity.
Qed.

End FrameFacts.

(* ================================================================= *)
(** ** The table builders *)

Section TableFacts.
Context {D : Dtypes}.

Lemma numeric_table (records : list pydict) (non_numeric : list string) :
  exists df,
    numeric_columns (DataFrame_of records) non_numeric = Ok df
    /\ nrows df = List.length records
    /\ columns df = union_keys records
    /\ numeric_outside non_numeric records df
    /\ (forall c, In c non_numeric -> In c (union_keys records) ->
          dict_get (data df) c = Some (map (fun r => raw_cell r c) records)).
Proof.
  destruct (numeric_columns_spec (DataFrame_of records) non_numeric)
    as [df [H1 [H2 [H3 [H4 H5]]]]].
  rewrite columns_DataFrame_of in *.
  exists df. repeat split; auto.
  - intros c Hc Hn. unfold getitem, dict_getitem.
    rewrite (H4 c Hc Hn), column_DataFrame_of by assumption.
    cbn [option_map]. now rewrite to_numeric_raw.
  - intros c Hc Hin. rewrite (H5 c Hc). now apply column_DataFrame_of.
Qed.

Lemma eq_str_raw (records : list pydict) :
  eq_str (map (fun r => raw_cell r "starter") records) "true"
  = map (fun r => Bool (starter_is_true r)) records.
Proof.
  unfold eq_str. rewrite map_map. apply map_ext. intros r.
  unfold raw_cell, starter_is_true.
  destruct (dict_get r "starter") as [[s|]|]; reflexivity.
Qed.

Lemma starter_is_true_iff (r : pydict) :
  starter_is_true r = true <-> dict_get r "starter" = Some (Some "true").
Proof.
  unfold starter_is_true.
  destruct (dict_get r "starter") as [[s|]|]; simpl.
  - rewrite String.eqb_eq. split; [now intros -> | congruence].
  - split; discriminate.
  - split; discriminate.
Qed.

Lemma numeric_outside_setitem (non_numeric : list string)
  (records : list pydict) (df : DataFrame) (col : string) (s : Series) :
  In col non_numeric ->
  numeric_outside non_numeric records df ->
  numeric_outside non_numeric records (setitem df col s).
Proof.
  intros Hcol Hdf c Hc Hn. unfold getitem, dict_getitem in *.
  cbn [setitem data]. rewrite dict_get_set_other; [now apply Hdf|].
  intros ->. contradiction.
Qed.

(** The teams block of [create_dataframes]. *)
Lemma main_teams_table (teams : list pydict) (lg : log) :
  exists df lg',
    CrearDataframes.teams_table teams lg = (Ok df, lg')
    /\ nrows df = List.length teams
    /\ numeric_outside CrearDataframes.team_non_numeric teams df.
Proof.
  destruct (numeric_table teams CrearDataframes.team_non_numeric)
    as [df [Hrun [Hn [_ [Hnum _]]]]].
  unfold CrearDataframes.teams_table, bind, lift. rewrite Hrun.
  do 2 eexists. split; [reflexivity|]. split; assumption.
Qed.

Lemma etl_teams_table (teams : list pydict) (lg : log) :
  exists df lg',
    ETL.create_team_statistics_dataframe teams lg = (Ok df, lg')
    /\ nrows df = List.length teams
    /\ numeric_outside ETL.team_non_numeric teams df.
Proof.
  destruct teams as [|r teams].
  - exists empty_frame. eexists. split; [reflexivity|].
    split; [reflexivity|]. intros c [].
  - destruct (numeric_table (r :: teams) ETL.team_non_numeric)
      as [df [Hrun [Hn [_ [Hnum _]]]]].
    unfold ETL.create_team_statistics_dataframe, bind, lift, logger_info,
      modify. rewrite Hrun.
    do 2 eexists. split; [reflexivity|]. split; assumption.
Qed.

(** The players block of [create_dataframes]: it needs the starter
    column. *)
Lemma main_players_table (players : list pydict) (lg : log) :
  In "starter" (union_keys players) ->
  exists df lg',
    CrearDataframes.players_table players lg = (Ok df, lg')
    /\ nrows df = List.length players
    /\ numeric_outside CrearDataframes.player_non_numeric players df
    /\ starter_exact players df.
Proof.
  intros Hst.
  destruct (numeric_table players CrearDataframes.player_non_numeric)
    as [df [Hrun [Hn [Hcols [Hnum Hkeep]]]]].
  assert (Hall : In "starter" CrearDataframes.player_non_numeric)
    by (unfold CrearDataframes.player_non_numeric; simpl; tauto).
  specialize (Hkeep "starter" Hall Hst).
  unfold CrearDataframes.players_table, bind, lift. rewrite Hrun.
  cbn [rbind]. unfold CrearDataframes.starter_column, getitem, dict_getitem.
  rewrite Hkeep. cbn [rbind]. rewrite eq_str_raw.
  simpl. do 2 eexists. split; [reflexivity|].
  split; [assumption|]. split.
  - now apply numeric_outside_setitem.
  - unfold starter_exact, getitem, dict_getitem. cbn [setitem data].
    now rewrite dict_get_set_same.
Qed.

Lemma etl_players_table (players : list pydict) (lg : log) :
  exists df lg',
    ETL.create_player_statistics_dataframe players lg = (Ok df, lg')
    /\ nrows df = List.length players
    /\ numeric_outside ETL.player_non_numeric players df
    /\ (In "starter" (union_keys players) -> starter_exact players df).
Proof.
  destruct players as [|r players].
  - exists empty_frame. eexists. split; [reflexivity|].
    split; [reflexivity|]. split; [intros c []|intros []].
  - destruct (numeric_table (r :: players) ETL.player_non_numeric)
      as [df [Hrun [Hn [Hcols [Hnum Hkeep]]]]].
    assert (Hall : In "starter" ETL.player_non_numeric)
      by (unfold ETL.player_non_numeric; simpl; tauto).
    unfold ETL.create_player_statistics_dataframe, bind, lift, logger_info,
      modify. rewrite Hrun. cbn [rbind].
    unfold ETL.starter_column. rewrite Hcols.
    destruct (existsb (String.eqb "starter") (union_keys (r :: players)))
      eqn:E.
    + apply existsb_eqb_In in E. specialize (Hkeep "starter" Hall E).
      unfold getitem, dict_getitem. rewrite Hkeep. cbn [rbind].
      rewrite eq_str_raw. do 2 eexists. split; [reflexivity|].
      split; [assumption|]. split.
      * now apply numeric_outside_setitem.
      * intros _. unfold starter_exact, getitem, dict_getitem.
        cbn [setitem data]. now rewrite dict_get_set_same.
    + apply existsb_eqb_not_In in E.
      do 2 eexists. split; [reflexivity|].
      split; [assumption|]. split; [assumption | contradiction].
Qed.

End TableFacts.

(* ================================================================= *)
(** ** The events table and [create_dataframes] *)

Section EventsFacts.
Context {D : Dtypes}.

(** A raw column under a reading that accepts each of its texts. *)
Lemma to_datetime_cells_raw (rd : reading) (records : list pydict)
  (c : string) :
  (forall r, In r records ->
     match raw_text r c with
     | Some s => exists t, parse_datetime rd s = Ok t
     | None => True
     end) ->
  to_datetime_cells rd (map (fun r => raw_cell r c) records)
  = Ok (map (fun r =>
               match raw_text r c with
               | Some s =>
                   match parse_datetime rd s with
                   | Ok (Some t) => Time t
                   | _ => Null
                   end
               | None => Null
               end) records).
Proof.
  induction records as [|r records IH]; intros Hok; [reflexivity|].
  cbn [map to_datetime_cells]. rewrite IH by (intros r' Hr'; apply Hok; now right).
  specialize (Hok r (or_introl eq_refl)).
  unfold raw_cell, raw_text in *.
  destruct (dict_get r c) as [[s|]|]; try reflexivity.
  destruct Hok as [t Ht]. cbn [to_datetime_cell]. rewrite Ht.
  destruct t; reflexivity.
Qed.

(** A raw column under a reading that refuses one of its texts: the
    exception of the first such text. *)
Lemma to_datetime_cells_raises (rd : reading) (records : list pydict)
  (c : string) :
  (exists r s e, In r records /\ raw_text r c = Some s
                 /\ parse_datetime rd s = Raise e) ->
  exists r s e,
    In r records /\ raw_text r c = Some s
    /\ parse_datetime rd s = Raise e
    /\ to_datetime_cells rd (map (fun r => raw_cell r c) records) = Raise e.
Proof.
  induction records as [|r records IH]; intros [r0 [s0 [e0 [Hin [Hs He]]]]];
    [destruct Hin|].
  cbn [map to_datetime_cells].
  destruct (raw_text r c) as [s|] eqn:Hr.
  - destruct (parse_datetime rd s) as [t|e] eqn:Hp.
    + destruct Hin as [->|Hin]; [congruence|].
      destruct IH as [r' [s' [e' [Hin' [Hs' [He' Hrun]]]]]];
        [now exists r0, s0, e0|].
      exists r', s', e'. repeat split; auto; [now right|].
      rewrite Hrun. unfold raw_cell, raw_text in *.
      destruct (dict_get r c) as [[s1|]|]; try discriminate.
      injection Hr as ->. cbn [to_datetime_cell]. rewrite Hp. reflexivity.
    + exists r, s, e. repeat split; auto; [now left|].
      unfold raw_cell, raw_text in *.
      destruct (dict_get r c) as [[s1|]|]; try discriminate.
      injection Hr as ->. cbn [to_datetime_cell]. rewrite Hp. reflexivity.
  - destruct Hin as [->|Hin]; [congruence|].
    destruct IH as [r' [s' [e' [Hin' [Hs' [He' Hrun]]]]]];
      [now exists r0, s0, e0|].
    exists r', s', e'. repeat split; auto; [now right|].
    rewrite Hrun. unfold raw_cell, raw_text in *.
    destruct (dict_get r c) as [[s1|]|]; try discriminate; reflexivity.
Qed.

Lemma to_datetime_raw_ok (events : list pydict) :
  forallb (start_time_ok events) events = true ->
  to_datetime (map (fun r => raw_cell r "start_time") events)
  = Ok (map (start_time_cell events) events).
Proof.
  intros Hok. unfold to_datetime. rewrite cell_text_raw.
  fold (start_time_reading events).
  rewrite to_datetime_cells_raw; [reflexivity|].
  intros r Hr. rewrite forallb_forall in Hok. specialize (Hok r Hr).
  unfold start_time_ok in Hok.
  destruct (raw_text r "start_time") as [s|]; [|exact I].
  destruct (parse_datetime (start_time_reading events) s) as [t|e];
    [eauto | discriminate].
Qed.

Lemma to_datetime_raw_raises (events : list pydict) :
  forallb (start_time_ok events) events = false ->
  exists r s e,
    In r events
    /\ raw_text r "start_time" = Some s
    /\ parse_datetime (start_time_reading events) s = Raise e
    /\ to_datetime (map (fun r => raw_cell r "start_time") events)
       = Raise e.
Proof.
  intros Hbad. unfold to_datetime. rewrite cell_text_raw.
  fold (start_time_reading events).
  apply to_datetime_cells_raises.
  assert (Hex : exists r, In r events /\ start_time_ok events r = false).
  { clear -Hbad. generalize dependent (start_time_ok events). intros ok Hbad.
    induction events as [|r events IH]; [discriminate|].
    cbn [forallb] in Hbad. destruct (ok r) eqn:Hr.
    - destruct (IH Hbad) as [r' [Hin Hr']]. exists r'. split; [now right|auto].
    - exists r. split; [now left | assumption]. }
  destruct Hex as [r [Hin Hr]]. unfold start_time_ok in Hr.
  destruct (raw_text r "start_time") as [s|] eqn:Hs; [|discriminate].
  destruct (parse_datetime (start_time_reading events) s) as [t|e] eqn:Hp;
    [discriminate|].
  now exists r, s, e.
Qed.

Lemma numeric_column_step (df : DataFrame) (col : string) :
  In col (columns df) ->
  exists df',
    numeric_column df col = Ok df'
    /\ nrows df' = nrows df
    /\ columns df' = columns df
    /\ dict_get (data df') col
       = option_map to_numeric_coerce (dict_get (data df) col)
    /\ forall c, c <> col -> dict_get (data df') c = dict_get (data df) c.
Proof.
  intros Hin. destruct (numeric_column_spec df col Hin) as [s [Hs Hrun]].
  exists (setitem df col (to_numeric_coerce s)).
  split; [assumption|]. split; [reflexivity|].
  split; [now apply columns_setitem|]. split.
  - cbn [setitem data]. rewrite dict_get_set_same, Hs. reflexivity.
  - intros c Hne. cbn [setitem data]. apply dict_get_set_other. congruence.
Qed.

Lemma event_columns (events : list pydict) (c : string) :
  events <> [] -> Forall (fun r => keys r = event_fields) events ->
  In c event_fields -> In c (union_keys events).
Proof.
  intros Hne Hall Hc. destruct events as [|r events]; [congruence|].
  apply In_union_keys. exists r. split; [now left|].
  inversion Hall as [|? ? Hr _]; subst. now rewrite Hr.
Qed.

(** The conversions of the events block, column by column, before the log
    line. *)
Lemma events_conversions_columns (events : list pydict) :
  events <> [] -> events_convert events ->
  exists df,
    (df <- CrearDataframes.datetime_column (DataFrame_of events)
             "start_time" ;;
     df <- numeric_column df "home_score" ;;
     df <- numeric_column df "away_score" ;;
     df <- numeric_column df "attendance" ;;
     df <- numeric_column df "venue_capacity" ;;
     numeric_column df "round_number") = Ok df
    /\ nrows df = List.length events
    /\ columns df = union_keys events
    /\ forall c, In c event_fields ->
         dict_get (data df) c
         = Some (if String.eqb c "start_time"
                 then map (start_time_cell events) events
                 else if existsb (String.eqb c) event_numeric_fields
                      then map (numeric_cell events c) events
                      else map (fun r => raw_cell r c) events).
Proof.
  intros Hne [Hall Hok].
  assert (Hcol : forall c, In c event_fields -> In c (union_keys events))
    by (intros c; now apply event_columns).
  assert (Hraw : forall c, In c event_fields ->
            dict_get (data (DataFrame_of events)) c
            = Some (map (fun r => raw_cell r c) events))
    by (intros c Hc; apply column_DataFrame_of; auto).
  unfold CrearDataframes.datetime_column, getitem, dict_getitem.
  rewrite Hraw by (simpl; tauto).
  cbn [rbind]. rewrite (to_datetime_raw_ok events Hok). cbn [rbind].
  set (df0 := setitem (DataFrame_of events) "start_time"
                (map (start_time_cell events) events)).
  assert (C0 : columns df0 = union_keys events).
  { unfold df0. rewrite columns_setitem; rewrite columns_DataFrame_of; auto.
    apply Hcol. simpl. tauto. }
  assert (G0 : forall c, dict_get (data df0) c
               = if String.eqb "start_time" c
                 then Some (map (start_time_cell events) events)
                 else dict_get (data (DataFrame_of events)) c).
  { intros c. unfold df0. cbn [setitem data].
    destruct (String.eqb "start_time" c) eqn:E.
    - apply String.eqb_eq in E. subst. apply dict_get_set_same.
    - apply String.eqb_neq in E. now apply dict_get_set_other. }
  destruct (numeric_column_step df0 "home_score")
    as [df1 [R1 [N1 [C1 [V1 K1]]]]];
    [rewrite C0; apply Hcol; simpl; tauto|].
  rewrite R1. cbn [rbind].
  destruct (numeric_column_step df1 "away_score")
    as [df2 [R2 [N2 [C2 [V2 K2]]]]];
    [rewrite C1, C0; apply Hcol; simpl; tauto|].
  rewrite R2. cbn [rbind].
  destruct (numeric_column_step df2 "attendance")
    as [df3 [R3 [N3 [C3 [V3 K3]]]]];
    [rewrite C2, C1, C0; apply Hcol; simpl; tauto|].
  rewrite R3. cbn [rbind].
  destruct (numeric_column_step df3 "venue_capacity")
    as [df4 [R4 [N4 [C4 [V4 K4]]]]];
    [rewrite C3, C2, C1, C0; apply Hcol; simpl; tauto|].
  rewrite R4. cbn [rbind].
  destruct (numeric_column_step df4 "round_number")
    as [df5 [R5 [N5 [C5 [V5 K5]]]]];
    [rewrite C4, C3, C2, C1, C0; apply Hcol; simpl; tauto|].
  exists df5. split; [assumption|].
  split; [rewrite N5, N4, N3, N2, N1; reflexivity|].
  split; [congruence|].
  intros c Hc. pose proof (Hraw c Hc) as Hrc.
  assert (Hnum : forall col, In col event_fields ->
            option_map to_numeric_coerce
              (dict_get (data (DataFrame_of events)) col)
            = Some (map (numeric_cell events col) events)).
  { intros col Hin. rewrite (Hraw col Hin). cbn [option_map].
    now rewrite to_numeric_raw. }
  unfold event_fields in Hc. cbn [In] in Hc.
  repeat (destruct Hc as [<-|Hc];
          [cbn [String.eqb Ascii.eqb Bool.eqb existsb event_numeric_fields
                orb];
           first
             [ rewrite K5, K4, K3, K2, K1, G0 by discriminate;
               cbn [String.eqb Ascii.eqb Bool.eqb];
               first [reflexivity | apply Hraw; simpl; tauto]
             | rewrite V5, K4, K3, K2, K1, G0 by discriminate;
               apply Hnum; simpl; tauto
             | rewrite K5, V4, K3, K2, K1, G0 by discriminate;
               apply Hnum; simpl; tauto
             | rewrite K5, K4, V3, K2, K1, G0 by discriminate;
               apply Hnum; simpl; tauto
             | rewrite K5, K4, K3, V2, K1, G0 by discriminate;
               apply Hnum; simpl; tauto
             | rewrite K5, K4, K3, K2, V1, G0 by discriminate;
               apply Hnum; simpl; tauto ]
          |]).
  destruct Hc.
Qed.

(** A start_time that the reading of the column refuses ends the
    conversions with the exception of [to_datetime]. *)
Lemma events_conversions_raise (events : list pydict) :
  forallb (start_time_ok events) events = false ->
  exists e,
    (df <- CrearDataframes.datetime_column (DataFrame_of events)
             "start_time" ;;
     df <- numeric_column df "home_score" ;;
     df <- numeric_column df "away_score" ;;
     df <- numeric_column df "attendance" ;;
     df <- numeric_column df "venue_capacity" ;;
     numeric_column df "round_number") = Raise e.
Proof.
  intros Hbad.
  destruct (to_datetime_raw_raises events Hbad)
    as [r [s [e [Hin [Hg [Hp Hrun]]]]]].
  assert (Hcol : In "start_time" (union_keys events)).
  { apply In_union_keys. exists r. split; [assumption|].
    unfold raw_text in Hg.
    destruct (dict_get r "start_time") as [v|] eqn:Hd; [|discriminate].
    eapply dict_get_Some_In; eauto. }
  unfold CrearDataframes.datetime_column, getitem, dict_getitem.
  rewrite column_DataFrame_of by assumption.
  cbn [rbind]. rewrite Hrun. cbn [rbind]. eauto.
Qed.

End EventsFacts.

Section CreateDataframesFacts.
Context {D : Dtypes}.

Lemma events_table_ok (events : list pydict) (df : DataFrame) (lg : log) :
  (df <- CrearDataframes.datetime_column (DataFrame_of events)
           "start_time" ;;
   df <- numeric_column df "home_score" ;;
   df <- numeric_column df "away_score" ;;
   df <- numeric_column df "attendance" ;;
   df <- numeric_column df "venue_capacity" ;;
   numeric_column df "round_number") = Ok df ->
  CrearDataframes.events_table events lg
  = (Ok df,
     (lg ++ [(INFO, ("  ✓ DataFrame de eventos: " ++ shape_str df)%string)])
       %list).
Proof.
  intros Hrun. unfold CrearDataframes.events_table, bind, lift.
  rewrite Hrun. reflexivity.
Qed.

Lemma events_table_raise (events : list pydict) (e : exn) (lg : log) :
  (df <- CrearDataframes.datetime_column (DataFrame_of events)
           "start_time" ;;
   df <- numeric_column df "home_score" ;;
   df <- numeric_column df "away_score" ;;
   df <- numeric_column df "attendance" ;;
   df <- numeric_column df "venue_capacity" ;;
   numeric_column df "round_number") = Raise e ->
  CrearDataframes.events_table events lg = (Raise e, lg).
Proof.
  intros Hrun. unfold CrearDataframes.events_table, bind, lift.
  rewrite Hrun. reflexivity.
Qed.

(** The events block on records that convert. *)
Lemma events_block (events : list pydict) (lg : log) :
  events <> [] -> events_convert events ->
  exists df lg',
    CrearDataframes.events_table events lg = (Ok df, lg')
    /\ nrows df = List.length events
    /\ columns df = union_keys events
    /\ forall c, In c event_fields ->
         dict_get (data df) c
         = Some (if String.eqb c "start_time"
                 then map (start_time_cell events) events
                 else if existsb (String.eqb c) event_numeric_fields
                      then map (numeric_cell events c) events
                      else map (fun r => raw_cell r c) events).
Proof.
  intros Hne Hconv.
  destruct (events_conversions_columns events Hne Hconv)
    as [df [Hrun Hprops]].
  exists df. eexists. split; [|exact Hprops].
  apply events_table_ok. exact Hrun.
Qed.

(** [create_dataframes] returns when the event records convert and the
    player records, if any, have a starter column: its result holds the
    table that each block built, for the kinds that have records. *)
Lemma create_dataframes_blocks (events teams players : list pydict)
  (lg : log) :
  events_convert events ->
  players = [] \/ In "starter" (union_keys players) ->
  exists dataframes lg',
    CrearDataframes.create_dataframes events teams players lg
    = (Ok dataframes, lg')
    /\ keys dataframes = built_tables events teams players
    /\ (events <> [] ->
        exists de l l',
          CrearDataframes.events_table events l = (Ok de, l')
          /\ dict_get dataframes "events" = Some de)
    /\ (teams <> [] ->
        exists dt l l',
          CrearDataframes.teams_table teams l = (Ok dt, l')
          /\ dict_get dataframes "team_statistics" = Some dt)
    /\ (players <> [] ->
        exists dp l l',
          CrearDataframes.players_table players l = (Ok dp, l')
          /\ dict_get dataframes "player_statistics" = Some dp).
Proof.
  intros Hconv Hpl.
  unfold CrearDataframes.create_dataframes, bind, logger_info, modify, ret.
  destruct events as [|ev events].
  2: match goal with
     | |- context [CrearDataframes.events_table ?es ?l] =>
         destruct (events_block es l ltac:(discriminate) Hconv)
           as [de [l0 [R0 _]]];
         rewrite R0
     end.
  all: destruct teams as [|t teams].
  all: try match goal with
           | |- context [CrearDataframes.teams_table ?ts ?l] =>
               destruct (main_teams_table ts l) as [dt [l1 [R1 _]]];
               rewrite R1
           end.
  all: destruct players as [|p players].
  all: try match goal with
           | |- context [CrearDataframes.players_table ?ps ?l] =>
               let Hst := fresh "Hst" in
               assert (Hst : In "starter" (union_keys ps))
                 by (destruct Hpl as [Hnil|Hst]; [discriminate | exact Hst]);
               destruct (main_players_table ps l Hst)
                 as [dp [l2 [R2 _]]];
               rewrite R2
           end.
  all: do 2 eexists; split; [reflexivity|]; split; [reflexivity|].
  all: repeat split; intros Hne; try congruence.
  all: do 3 eexists; split; [eassumption | reflexivity].
Qed.

(** A start_time that the reading of the column refuses makes
    [create_dataframes] raise, whatever the other records are. *)
Lemma create_dataframes_events_raise (events teams players : list pydict)
  (lg : log) :
  forallb (start_time_ok events) events = false ->
  exists e lg',
    CrearDataframes.create_dataframes events teams players lg
    = (Raise e, lg').
Proof.
  intros Hok.
  destruct (events_conversions_raise events Hok) as [e Hrun].
  exists e. eexists.
  destruct events as [|r events]; [discriminate|].
  unfold CrearDataframes.create_dataframes, bind, logger_info, modify, ret.
  rewrite (events_table_raise _ _ _ Hrun). reflexivity.
Qed.

Lemma create_dataframes_events_only (events : list pydict) (lg : log) :
  events <> [] -> events_convert events ->
  exists df lg',
    CrearDataframes.create_dataframes events [] [] lg
    = (Ok [("events", df)], lg')
    /\ nrows df = List.length events
    /\ getitem df "start_time" = Ok (map (start_time_cell events) events).
Proof.
  intros Hne Hconv.
  destruct (events_block events
              (lg ++ [(INFO, "Creando DataFrames...")])%list Hne Hconv)
    as [df [l0 [Hrun [Hn [_ Hcols]]]]].
  exists df, l0. split; [|split; [exact Hn|]].
  - destruct events as [|r events]; [congruence|].
    unfold CrearDataframes.create_dataframes, bind, logger_info, modify, ret.
    rewrite Hrun. reflexivity.
  - unfold getitem, dict_getitem. rewrite Hcols by (simpl; tauto).
    reflexivity.
Qed.

Lemma create_dataframes_tables (events teams players : list pydict)
  (lg : log) :
  match fst (CrearDataframes.create_dataframes events teams players lg) with
  | Ok dataframes => keys dataframes = built_tables events teams players
  | Raise _ => True
  end.
Proof.
  unfold CrearDataframes.create_dataframes, bind, logger_info, modify, ret.
  destruct events as [|ev events].
  2: destruct (CrearDataframes.events_table _ _) as [[de|e] l0];
       [|exact I].
  all: destruct teams as [|t teams].
  all: try match goal with
           | |- context [CrearDataframes.teams_table ?ts ?l] =>
               destruct (main_teams_table ts l) as [dt [l1 [R1 _]]];
               rewrite R1
           end.
  all: destruct players as [|p players].
  all: try match goal with
           | |- context [CrearDataframes.players_table ?ps ?l] =>
               destruct (CrearDataframes.players_table ps l) as [[dp|e] l2]
           end.
  all: first [exact I | reflexivity].
Qed.

(** The team table and the player table of [create_dataframes], for any
    event records that convert. *)
Lemma create_dataframes_statistics (events teams players : list pydict)
  (lg : log) :
  events_convert events ->
  teams <> [] ->
  In "starter" (union_keys players) ->
  exists dataframes df_teams df_players lg',
    CrearDataframes.create_dataframes events teams players lg
    = (Ok dataframes, lg')
    /\ dict_get dataframes "team_statistics" = Some df_teams
    /\ dict_get dataframes "player_statistics" = Some df_players
    /\ nrows df_teams = List.length teams
    /\ numeric_outside CrearDataframes.team_non_numeric teams df_teams
    /\ nrows df_players = List.length players
    /\ numeric_outside CrearDataframes.player_non_numeric players df_players
    /\ starter_exact players df_players.
Proof.
  intros Hconv Hteams Hst.
  assert (Hpl : players <> []) by (intros ->; destruct Hst).
  destruct (create_dataframes_blocks events teams players lg Hconv
              (or_intror Hst))
    as [dfs [lg' [Hrun [_ [_ [Ht Hp]]]]]].
  destruct (Ht Hteams) as [dt [l1 [l1' [R1 G1]]]].
  destruct (Hp Hpl) as [dp [l2 [l2' [R2 G2]]]].
  destruct (main_teams_table teams l1) as [dt' [l1'' [R1' [N1 P1]]]].
  destruct (main_players_table players l2 Hst)
    as [dp' [l2'' [R2' [N2 [P2 S2]]]]].
  assert (dt' = dt) by congruence. assert (dp' = dp) by congruence.
  subst dt' dp'.
  exists dfs, dt, dp, lg'. repeat split; auto.
Qed.

(** The team table of [create_dataframes] when there are no player
    records. *)
Lemma create_dataframes_teams (events teams : list pydict) (lg : log) :
  events_convert events ->
  teams <> [] ->
  exists dataframes df lg',
    CrearDataframes.create_dataframes events teams [] lg
    = (Ok dataframes, lg')
    /\ dict_get dataframes "team_statistics" = Some df
    /\ numeric_outside CrearDataframes.team_non_numeric teams df.
Proof.
  intros Hconv Hteams.
  destruct (create_dataframes_blocks events teams [] lg Hconv
              (or_introl eq_refl))
    as [dfs [lg' [Hrun [_ [_ [Ht _]]]]]].
  destruct (Ht Hteams) as [dt [l1 [l1' [R1 G1]]]].
  destruct (main_teams_table teams l1) as [dt' [l1'' [R1' [_ P1]]]].
  assert (dt' = dt) by congruence. subst dt'.
  exists dfs, dt, lg'. repeat split; auto.
Qed.

(** The player table of [create_dataframes], for any event and team
    records. *)
Lemma create_dataframes_players (events teams players : list pydict)
  (lg : log) :
  events_convert events ->
  In "starter" (union_keys players) ->
  exists dataframes df lg',
    CrearDataframes.create_dataframes events teams players lg
    = (Ok dataframes, lg')
    /\ dict_get dataframes "player_statistics" = Some df
    /\ nrows df = List.length players
    /\ numeric_outside CrearDataframes.player_non_numeric players df
    /\ starter_exact players df.
Proof.
  intros Hconv Hst.
  assert (Hpl : players <> []) by (intros ->; destruct Hst).
  destruct (create_dataframes_blocks events teams players lg Hconv
              (or_intror Hst))
    as [dfs [lg' [Hrun [_ [_ [_ Hp]]]]]].
  destruct (Hp Hpl) as [dp [l2 [l2' [R2 G2]]]].
  destruct (main_players_table players l2 Hst)
    as [dp' [l2'' [R2' [N2 [P2 S2]]]]].
  assert (dp' = dp) by congruence. subst dp'.
  exists dfs, dp, lg'. repeat split; auto.
Qed.

End CreateDataframesFacts.

(** C7, as the code has it.  In the team and player tables of both
    scripts, whatever event records come with them, every column outside
    the table's non-numeric allowlist is converted by one [to_numeric] call
    with [errors='coerce']: a cell whose raw text parses as a number holds
    that number in the dtype pandas gives the column, any other cell is
    null, and building the tables does not raise.  (The event records
    convert, there are team records, and some player record has a starter
    key, as the records of the player extractor always do:
    [create_dataframes] reads that column.) *)
Theorem numeric_coercion_outside_allowlist :
  forall (D : Dtypes) (events teams players : list pydict) (lg : log),
    events_convert events ->
    teams <> [] ->
    existsb (fun r => has_key r "starter") players = true ->
    (exists dataframes df_teams df_players lg',
       CrearDataframes.create_dataframes events teams players lg
       = (Ok dataframes, lg')
       /\ dict_get dataframes "team_statistics" = Some df_teams
       /\ dict_get dataframes "player_statistics" = Some df_players
       /\ numeric_outside CrearDataframes.team_non_numeric teams df_teams
       /\ numeric_outside CrearDataframes.player_non_numeric players
            df_players)
    /\ (exists df lg',
          ETL.create_team_statistics_dataframe teams lg = (Ok df, lg')
          /\ numeric_outside ETL.team_non_numeric teams df)
    /\ (exists df lg',
          ETL.create_player_statistics_dataframe players lg = (Ok df, lg')
          /\ numeric_outside ETL.player_non_numeric players df).
Proof.
  intros D events teams players lg Hconv Hteams Hst.
  apply some_record_has_key in Hst.
  destruct (create_dataframes_statistics events teams players lg Hconv
              Hteams Hst)
    as [dfs [dt [dp [l1 [R1 [G1 [G2 [_ [N1 [_ [N2 _]]]]]]]]]]].
  destruct (etl_teams_table teams lg) as [d2 [l2 [R2 [_ N3]]]].
  destruct (etl_players_table players lg) as [d4 [l4 [R4 [_ [N4 _]]]]].
  split; [exists dfs, dt, dp, l1; auto|].
  split; [exists d2, l2; auto | exists d4, l4; auto].
Qed.

(** C4.  In the player table of both scripts the starter column holds,
    row by row, the boolean that is true exactly when the raw stored value
    is the string "true"; any other text, [None] and a missing key give
    false.  For [create_dataframes] this holds whatever event and team
    records come with the player records, as long as the event records
    convert. *)
Theorem starter_is_exact_match :
  forall (D : Dtypes) (events teams players : list pydict) (lg : log),
    events_convert events ->
    existsb (fun r => has_key r "starter") players = true ->
    (exists dataframes df lg',
       CrearDataframes.create_dataframes events teams players lg
       = (Ok dataframes, lg')
       /\ dict_get dataframes "player_statistics" = Some df
       /\ getitem df "starter"
          = Ok (map (fun r => Bool (starter_is_true r)) players))
    /\ (exists df lg',
          ETL.create_player_statistics_dataframe players lg = (Ok df, lg')
          /\ getitem df "starter"
             = Ok (map (fun r => Bool (starter_is_true r)) players))
    /\ (forall r, starter_is_true r = true
                  <-> dict_get r "starter" = Some (Some "true")).
Proof.
  intros D events teams players lg Hconv Hst.
  apply some_record_has_key in Hst.
  destruct (create_dataframes_players events teams players lg Hconv Hst)
    as [dfs [d3 [l3 [R3 [G3 [_ [_ S3]]]]]]].
  destruct (etl_players_table players lg) as [d4 [l4 [R4 [_ [_ S4]]]]].
  split; [exists dfs, d3, l3; repeat split; assumption|].
  split; [exists d4, l4; split; [assumption | now apply S4]|].
  apply starter_is_true_iff.
Qed.

(** What the events block does with start_time.  The column is read in
    the one way [to_datetime] infers for it: a missing value becomes null
    and a text becomes what that reading makes of it; a text that the
    reading refuses makes [to_datetime] raise, which ends
    [create_dataframes]. *)
Lemma start_time_conversion :
  forall (D : Dtypes) (events : list pydict) (lg : log),
    events <> [] ->
    Forall (fun r => keys r = event_fields) events ->
    if forallb (start_time_ok events) events
    then exists df lg',
           CrearDataframes.create_dataframes events [] [] lg
           = (Ok [("events", df)], lg')
           /\ nrows df = List.length events
           /\ getitem df "start_time"
              = Ok (map (start_time_cell events) events)
    else forall teams players,
           exists e lg',
             CrearDataframes.create_dataframes events teams players lg
             = (Raise e, lg').
Proof.
  intros D events lg Hne Hall.
  destruct (forallb (start_time_ok events) events) eqn:Hok.
  - apply create_dataframes_events_only; [assumption | now split].
  - intros teams players. now apply create_dataframes_events_raise.
Qed.

(** C8, as the code has it.  From no records nothing raises: the ETL
    builders return the empty table (no rows, no columns) after logging an
    error-level line, and [create_dataframes] returns no table at all.
    More generally the result of [create_dataframes] holds a table for each
    kind that has records and none for a kind that has not. *)
Theorem empty_input_tables :
  forall (D : Dtypes) (lg : log),
    ETL.create_team_statistics_dataframe [] lg
    = (Ok empty_frame,
       (lg ++ [(ERROR, "No hay datos de equipos para crear el DataFrame")])
         %list)
    /\ ETL.create_player_statistics_dataframe [] lg
       = (Ok empty_frame,
          (lg ++ [(ERROR,
                   "No hay datos de jugadores para crear el DataFrame")])
            %list)
    /\ nrows empty_frame = 0
    /\ columns empty_frame = []
    /\ CrearDataframes.create_dataframes [] [] [] lg
       = (Ok [], (lg ++ [(INFO, "Creando DataFrames...")])%list)
    /\ (forall events teams players,
          match fst (CrearDataframes.create_dataframes
                       events teams players lg) with
          | Ok dataframes =>
              keys dataframes = built_tables events teams players
          | Raise _ => True
          end).
Proof.
  intros D lg. repeat (split; [reflexivity|]).
  intros events teams players. apply create_dataframes_tables.
Qed.

Lemma numeric_coercion_outside_allowlist_witness :
  events_convert (D := sample_dtypes) sample_events
  /\ [team_row "sr:competitor:2817" "home" "55";
     team_row "sr:competitor:2829" "away" "n/a"] <> []
  /\ existsb (fun r => has_key r "starter")
       [player_row "sr:player:1" (Some "true") "1";
          player_row "sr:player:2" (Some "false") "one"] = true
  /\ (exists dataframes df_teams df_players lg',
        CrearDataframes.create_dataframes (D := sample_dtypes) sample_events
          [team_row "sr:competitor:2817" "home" "55";
             team_row "sr:competitor:2829" "away" "n/a"]
          [player_row "sr:player:1" (Some "true") "1";
             player_row "sr:player:2" (Some "false") "one"] []
        = (Ok dataframes, lg')
        /\ dict_get dataframes "team_statistics" = Some df_teams
        /\ dict_get dataframes "player_statistics" = Some df_players
        /\ numeric_outside CrearDataframes.team_non_numeric
             [team_row "sr:competitor:2817" "home" "55";
                team_row "sr:competitor:2829" "away" "n/a"] df_teams
        /\ numeric_outside CrearDataframes.player_non_numeric
             [player_row "sr:player:1" (Some "true") "1";
                player_row "sr:player:2" (Some "false") "one"] df_players)
  /\ (exists df lg',
        ETL.create_team_statistics_dataframe (D := sample_dtypes)
          [team_row "sr:competitor:2817" "home" "55";
             team_row "sr:competitor:2829" "away" "n/a"] [] = (Ok df, lg')
        /\ numeric_outside ETL.team_non_numeric
             [team_row "sr:competitor:2817" "home" "55";
                team_row "sr:competitor:2829" "away" "n/a"] df)
  /\ (exists df lg',
        ETL.create_player_statistics_dataframe (D := sample_dtypes)
          [player_row "sr:player:1" (Some "true") "1";
             player_row "sr:player:2" (Some "false") "one"] [] = (Ok df, lg')
        /\ numeric_outside ETL.player_non_numeric
             [player_row "sr:player:1" (Some "true") "1";
                player_row "sr:player:2" (Some "false") "one"] df).
Proof.
  assert (H1 : events_convert (D := sample_dtypes) sample_events)
    by (split; [repeat constructor | reflexivity]).
  split; [exact H1|]. split; [discriminate|]. split; [reflexivity|].
  apply (numeric_coercion_outside_allowlist sample_dtypes sample_events
           [team_row "sr:competitor:2817" "home" "55";
              team_row "sr:competitor:2829" "away" "n/a"]
           [player_row "sr:player:1" (Some "true") "1";
              player_row "sr:player:2" (Some "false") "one"] [] H1);
    [discriminate | reflexivity].
Defined.

(** The team table of the two rows above: 55 is read, n/a is null. *)
Example team_table_sample :
  exists df lg',
    ETL.create_team_statistics_dataframe (D := sample_dtypes)
      [team_row "sr:competitor:2817" "home" "55";
       team_row "sr:competitor:2829" "away" "n/a"] [] = (Ok df, lg')
    /\ getitem df "ball_possession" = Ok [@Num sample_dtypes 55%Z; Null]
    /\ getitem df "team_qualifier" = Ok [Str "home"; Str "away"]
    /\ errors_of lg' = [].
Proof. do 2 eexists. repeat split. Qed.

(** C7 as stated fails.  The text 9007199254740993 reads as that integer,
    and alone in its column it is kept as it is; in a column where another
    cell is not a number the dtype is float64 and the cell holds
    9007199254740992, in both scripts. *)
Lemma numeric_coercion_rounds_counterexample :
  @parse_numeric sample_dtypes "9007199254740993"
  = Some 9007199254740993%Z
  /\ (exists dataframes df lg',
        CrearDataframes.create_dataframes (D := sample_dtypes) sample_events
          [team_row "sr:competitor:2817" "home" "9007199254740993";
           team_row "sr:competitor:2829" "away" "n/a"] [] []
        = (Ok dataframes, lg')
        /\ dict_get dataframes "team_statistics" = Some df
        /\ getitem df "ball_possession"
           = Ok [@Num sample_dtypes 9007199254740992%Z; Null])
  /\ (exists df lg',
        ETL.create_team_statistics_dataframe (D := sample_dtypes)
          [team_row "sr:competitor:2817" "home" "9007199254740993";
           team_row "sr:competitor:2829" "away" "n/a"] []
        = (Ok df, lg')
        /\ getitem df "ball_possession"
           = Ok [@Num sample_dtypes 9007199254740992%Z; Null])
  /\ (exists df lg',
        ETL.create_team_statistics_dataframe (D := sample_dtypes)
          [team_row "sr:competitor:2817" "home" "9007199254740993"] []
        = (Ok df, lg')
        /\ getitem df "ball_possession"
           = Ok [@Num sample_dtypes 9007199254740993%Z]).
Proof.
  split; [reflexivity|]. split; [|split].
  - destruct (create_dataframes_teams (D := sample_dtypes) sample_events
                [team_row "sr:competitor:2817" "home" "9007199254740993";
                 team_row "sr:competitor:2829" "away" "n/a"] [])
      as [dfs [df [lg' [Hrun [Hget Hnum]]]]];
      [split; [repeat constructor | reflexivity] | discriminate |].
    exists dfs, df, lg'. split; [exact Hrun|]. split; [exact Hget|].
    rewrite (Hnum "ball_possession").
    + reflexivity.
    + vm_compute. tauto.
    + vm_compute. intros H.
      repeat (destruct H as [H|H]; [discriminate H|]). exact H.
  - destruct (etl_teams_table (D := sample_dtypes)
                [team_row "sr:competitor:2817" "home" "9007199254740993";
                 team_row "sr:competitor:2829" "away" "n/a"] [])
      as [df [lg' [Hrun [_ Hnum]]]].
    exists df, lg'. split; [exact Hrun|].
    rewrite (Hnum "ball_possession").
    + reflexivity.
    + vm_compute. tauto.
    + vm_compute. intros H.
      repeat (destruct H as [H|H]; [discriminate H|]). exact H.
  - destruct (etl_teams_table (D := sample_dtypes)
                [team_row "sr:competitor:2817" "home" "9007199254740993"]
                [])
      as [df [lg' [Hrun [_ Hnum]]]].
    exists df, lg'. split; [exact Hrun|].
    rewrite (Hnum "ball_possession").
    + reflexivity.
    + vm_compute. tauto.
    + vm_compute. intros H.
      repeat (destruct H as [H|H]; [discriminate H|]). exact H.
Qed.

Lemma starter_is_exact_match_witness :
  events_convert (D := sample_dtypes) sample_events
  /\ existsb (fun r => has_key r "starter")
       [player_row "sr:player:1" (Some "true") "1";
          player_row "sr:player:2" (Some "false") "0";
          player_row "sr:player:3" (Some "") "0";
          player_row "sr:player:4" (Some "True") "0";
          player_row "sr:player:5" (Some "1") "0";
          player_row "sr:player:6" None "0";
          [("event_id", Some "sr:sport_event:1");
           ("player_id", Some "sr:player:7")]] = true
  /\ (exists dataframes df lg',
        CrearDataframes.create_dataframes (D := sample_dtypes) sample_events
          [team_row "sr:competitor:2817" "home" "55";
             team_row "sr:competitor:2829" "away" "n/a"]
          [player_row "sr:player:1" (Some "true") "1";
             player_row "sr:player:2" (Some "false") "0";
             player_row "sr:player:3" (Some "") "0";
             player_row "sr:player:4" (Some "True") "0";
             player_row "sr:player:5" (Some "1") "0";
             player_row "sr:player:6" None "0";
             [("event_id", Some "sr:sport_event:1");
              ("player_id", Some "sr:player:7")]] []
        = (Ok dataframes, lg')
        /\ dict_get dataframes "player_statistics" = Some df
        /\ getitem df "starter"
           = Ok (map (fun r => Bool (starter_is_true r))
                   [player_row "sr:player:1" (Some "true") "1";
                      player_row "sr:player:2" (Some "false") "0";
                      player_row "sr:player:3" (Some "") "0";
                      player_row "sr:player:4" (Some "True") "0";
                      player_row "sr:player:5" (Some "1") "0";
                      player_row "sr:player:6" None "0";
                      [("event_id", Some "sr:sport_event:1");
                       ("player_id", Some "sr:player:7")]]))
  /\ (exists df lg',
        ETL.create_player_statistics_dataframe (D := sample_dtypes)
          [player_row "sr:player:1" (Some "true") "1";
             player_row "sr:player:2" (Some "false") "0";
             player_row "sr:player:3" (Some "") "0";
             player_row "sr:player:4" (Some "True") "0";
             player_row "sr:player:5" (Some "1") "0";
             player_row "sr:player:6" None "0";
             [("event_id", Some "sr:sport_event:1");
              ("player_id", Some "sr:player:7")]] []
        = (Ok df, lg')
        /\ getitem df "starter"
           = Ok (map (fun r => Bool (starter_is_true r))
                   [player_row "sr:player:1" (Some "true") "1";
                      player_row "sr:player:2" (Some "false") "0";
                      player_row "sr:player:3" (Some "") "0";
                      player_row "sr:player:4" (Some "True") "0";
                      player_row "sr:player:5" (Some "1") "0";
                      player_row "sr:player:6" None "0";
                      [("event_id", Some "sr:sport_event:1");
                       ("player_id", Some "sr:player:7")]]))
  /\ (forall r, starter_is_true r = true
                <-> dict_get r "starter" = Some (Some "true")).
Proof.
  assert (H1 : events_convert (D := sample_dtypes) sample_events)
    by (split; [repeat constructor | reflexivity]).
  split; [exact H1|]. split; [reflexivity|].
  apply (starter_is_exact_match sample_dtypes sample_events
           [team_row "sr:competitor:2817" "home" "55";
              team_row "sr:competitor:2829" "away" "n/a"]
           [player_row "sr:player:1" (Some "true") "1";
              player_row "sr:player:2" (Some "false") "0";
              player_row "sr:player:3" (Some "") "0";
              player_row "sr:player:4" (Some "True") "0";
              player_row "sr:player:5" (Some "1") "0";
              player_row "sr:player:6" None "0";
              [("event_id", Some "sr:sport_event:1");
               ("player_id", Some "sr:player:7")]] [] H1).
  reflexivity.
Defined.

(** The raw values the claim lists, and what the column holds for them. *)
Example starter_column_sample :
  exists dataframes df lg',
    CrearDataframes.create_dataframes (D := sample_dtypes) sample_events
      [team_row "sr:competitor:2817" "home" "55";
         team_row "sr:competitor:2829" "away" "n/a"]
      [player_row "sr:player:1" (Some "true") "1";
         player_row "sr:player:2" (Some "false") "0";
         player_row "sr:player:3" (Some "") "0";
         player_row "sr:player:4" (Some "True") "0";
         player_row "sr:player:5" (Some "1") "0";
         player_row "sr:player:6" None "0";
         [("event_id", Some "sr:sport_event:1");
          ("player_id", Some "sr:player:7")]] []
    = (Ok dataframes, lg')
    /\ dict_get dataframes "player_statistics" = Some df
    /\ getitem df "starter"
       = Ok [Bool true; Bool false; Bool false; Bool false; Bool false;
             Bool false; Bool false].
Proof.
  edestruct (create_dataframes_players (D := sample_dtypes) sample_events)
    as [dfs [df [lg' [Hrun [Hget [_ [_ Hcol]]]]]]];
    [| |exists dfs, df, lg'; split; [exact Hrun|];
        split; [exact Hget | rewrite Hcol; reflexivity]].
  - split; [repeat constructor | reflexivity].
  - apply some_record_has_key. reflexivity.
Qed.

Example start_time_conversion_sample :
  [event_record "sr:sport_event:1" (Some "2023-08-12T19:00:00+00:00");
   event_record "sr:sport_event:2" None] <> []
  /\ Forall (fun r => keys r = event_fields)
       [event_record "sr:sport_event:1" (Some "2023-08-12T19:00:00+00:00");
        event_record "sr:sport_event:2" None]
  /\ exists df lg',
       CrearDataframes.create_dataframes (D := sample_dtypes)
         [event_record "sr:sport_event:1" (Some "2023-08-12T19:00:00+00:00");
          event_record "sr:sport_event:2" None] [] [] []
       = (Ok [("events", df)], lg')
       /\ nrows df = 2
       /\ getitem df "start_time"
          = Ok [@Time sample_dtypes 1691866800000000000%Z; Null].
Proof.
  assert (H1 : [event_record "sr:sport_event:1"
                  (Some "2023-08-12T19:00:00+00:00");
                event_record "sr:sport_event:2" None] <> [])
    by discriminate.
  assert (H2 : Forall (fun r => keys r = event_fields)
                 [event_record "sr:sport_event:1"
                    (Some "2023-08-12T19:00:00+00:00");
                  event_record "sr:sport_event:2" None])
    by (repeat constructor).
  split; [exact H1|]. split; [exact H2|].
  exact (start_time_conversion sample_dtypes _ [] H1 H2).
Qed.

(** C3 at the failing input: one event record whose start_time is the
    text not-a-date.  The five numeric conversions next to it pass
    [errors='coerce'], [to_datetime] does not: instead of a null cell the
    call raises ValueError and no table is built. *)
Theorem create_dataframes_raises_on_invalid_start_time :
  CrearDataframes.create_dataframes (D := sample_dtypes)
    [event_record "sr:sport_event:1" (Some "not-a-date")] [] [] []
  = (Raise (ValueError
              "Unknown datetime string format, unable to parse: not-a-date"),
     [(INFO, "Creando DataFrames...")]).
Proof. reflexivity. Qed.

(** C8 as stated fails for [create_dataframes]: with event records and an
    empty sequence of team records (and of player records) its result holds
    the events table only, no empty table for the other kinds; and the ETL
    builder reports the empty input at error level. *)
Lemma empty_input_counterexample :
  (exists df lg',
     CrearDataframes.create_dataframes (D := sample_dtypes)
       [event_record "sr:sport_event:1" (Some "2023-08-12T19:00:00+00:00")]
       [] [] []
     = (Ok [("events", df)], lg')
     /\ dict_get [("events", df)] "team_statistics" = None
     /\ dict_get [("events", df)] "player_statistics" = None)
  /\ CrearDataframes.create_dataframes (D := sample_dtypes) [] [] [] []
     = (Ok [], [(INFO, "Creando DataFrames...")])
  /\ errors_of (snd (ETL.create_team_statistics_dataframe
                       (D := sample_dtypes) [] []))
     = ["No hay datos de equipos para crear el DataFrame"].
Proof.
  split; [|split; reflexivity].
  destruct (create_dataframes_events_only (D := sample_dtypes)
              [event_record "sr:sport_event:1"
                 (Some "2023-08-12T19:00:00+00:00")] [])
    as [df [lg' [Hrun _]]];
    [discriminate | split; [repeat constructor | reflexivity] |].
  exists df, lg'. repeat split. exact Hrun.
Qed.

(* ================================================================= *)
(** ** The batch driver *)

Lemma errors_of_app (lg lg' : log) :
  errors_of (lg ++ lg')%list = (errors_of lg ++ errors_of lg')%list.
Proof. unfold errors_of. now rewrite filter_app, map_app. Qed.


(** A usable file yields its event record and logs nothing. *)
Lemma process_xml_file_usable (f : xml_file Element) (lg : log) :
  usable f = true ->
  exists info team_stats player_stats,
    CrearDataframes.process_xml_file f lg
    = (Ok (Some info, team_stats, player_stats), lg)
    /\ info <> [].
Proof.
  unfold usable. destruct f as [name [root|e]]; cbn [contents];
    [|discriminate].
  intros Hus.
  destruct (parse_event_info_with_context root lg Hus)
    as [info [Hinfo [Hkeys Hne]]].
  assert (Hid : exists event_id, dict_getitem info "event_id" = Ok event_id).
  { unfold dict_getitem.
    destruct (In_keys_dict_get info "event_id") as [v ->]; eauto.
    rewrite Hkeys. simpl. tauto. }
  destruct Hid as [event_id Hid].
  destruct (main_teams_on_Element root event_id lg) as [ts [Hts _]].
  destruct (players_on_Element root event_id lg) as [ps [Hps _]].
  exists info, ts, ps. split; [|assumption].
  unfold CrearDataframes.process_xml_file, try_except, bind, lift, ET.parse.
  cbn [contents]. rewrite Hinfo, Hid, Hts, Hps. reflexivity.
Qed.

(** A malformed file yields nothing and one error line that names it. *)
Lemma process_xml_file_malformed (name msg : string) (lg : log) :
  CrearDataframes.process_xml_file
    {| file_name := name; contents := @Raise Element (ParseError msg) |} lg
  = (Ok (None, [], []),
     (lg ++ [(ERROR, ("Error parseando XML " ++ name ++ ": " ++ msg)%string)])
       %list).
Proof. reflexivity. Qed.

Lemma accumulate_usable (files : list (xml_file Element))
  (events teams players : list pydict) (lg : log) :
  forallb usable files = true ->
  exists events' teams' players',
    fold_ST CrearDataframes.accumulate files (events, teams, players) lg
    = (Ok (events', teams', players'), lg)
    /\ List.length events' = List.length events + List.length files.
Proof.
  revert events teams players.
  induction files as [|f files IH]; intros events teams players Hall.
  - exists events, teams, players. simpl. split; [reflexivity | lia].
  - cbn [forallb] in Hall. apply andb_true_iff in Hall.
    destruct Hall as [Hf Hrest].
    destruct (process_xml_file_usable f lg Hf) as [info [ts [ps [Hrun Hne]]]].
    destruct (IH (events ++ [info])%list (teams ++ ts)%list
                (players ++ ps)%list Hrest)
      as [ev [tm [pl [Hfold Hlen]]]].
    exists ev, tm, pl. split.
    + cbn [fold_ST]. unfold bind at 1.
      unfold CrearDataframes.accumulate at 1. unfold bind at 1.
      rewrite Hrun. destruct info as [|kv info]; [congruence|].
      cbn [CrearDataframes.truthy ret]. exact Hfold.
    + rewrite Hlen, length_app. simpl. lia.
Qed.


(** Whatever the node objects and the files, the driver returns. *)
Lemma process_xml_file_returns {node : Type} {API : ElementAPI node}
  (f : xml_file node) (lg : log) :
  exists r lg', CrearDataframes.process_xml_file f lg = (Ok r, lg').
Proof.
  unfold CrearDataframes.process_xml_file, try_except.
  match goal with |- context [match ?b lg with _ => _ end] =>
    destruct (b lg) as [[r|e] lg'] end.
  - eauto.
  - destruct e; do 2 eexists; reflexivity.
Qed.

Lemma process_all_games_returns {node : Type} {API : ElementAPI node}
  (files : list (xml_file node)) (lg : log) :
  exists r lg', CrearDataframes.process_all_games files lg = (Ok r, lg').
Proof.
  assert (Hfold : forall fs acc l,
            exists r l', fold_ST CrearDataframes.accumulate fs acc l
                         = (Ok r, l')).
  { induction fs as [|f fs IH]; intros acc l.
    - do 2 eexists. reflexivity.
    - cbn [fold_ST]. unfold bind at 1.
      destruct acc as [[events teams] players].
      unfold CrearDataframes.accumulate at 1. unfold bind at 1.
      destruct (process_xml_file_returns f l) as [[[info ts] ps] [l' ->]].
      destruct (CrearDataframes.truthy info); cbn [ret]; apply IH. }
  destruct files as [|f files].
  - do 2 eexists. reflexivity.
  - unfold CrearDataframes.process_all_games, bind at 1, logger_info, modify.
    unfold bind at 1.
    destruct (Hfold (f :: files) ([], [], [])
                (lg ++ [(INFO, ("Procesando "
                    ++ str_of_nat (List.length (f :: files))
                    ++ " archivos XML...")%string)])%list)
      as [[[events teams] players] [l' ->]].
    do 2 eexists. reflexivity.
Qed.

(* ================================================================= *)
(** ** More on the event extractor *)

Lemma val_eqb_home_not_away (q : pyval) :
  val_eqb q "home" = true -> val_eqb q "away" = false.
Proof.
  destruct q as [s|]; simpl; [|discriminate].
  intros H. apply String.eqb_eq in H. now subst.
Qed.

(** The competitor loop: each side ends with the last competitor that
    carries its qualifier, or stays as it was. *)
Lemma assign_sides_result (competitors : list Element)
  (s : CrearDataframes.sides) :
  rfold CrearDataframes.assign_side competitors s
  = Ok {| CrearDataframes.home_team :=
            match last_with_qualifier "home" competitors with
            | Some c => Element_get c "name"
            | None => CrearDataframes.home_team s
            end;
          CrearDataframes.home_id :=
            match last_with_qualifier "home" competitors with
            | Some c => Element_get c "id"
            | None => CrearDataframes.home_id s
            end;
          CrearDataframes.away_team :=
            match last_with_qualifier "away" competitors with
            | Some c => Element_get c "name"
            | None => CrearDataframes.away_team s
            end;
          CrearDataframes.away_id :=
            match last_with_qualifier "away" competitors with
            | Some c => Element_get c "id"
            | None => CrearDataframes.away_id s
            end |}.
Proof.
  revert s. induction competitors as [|c cs IH]; intros s.
  - destruct s. reflexivity.
  - cbn [rfold]. unfold CrearDataframes.assign_side at 1.
    change (get c "qualifier") with (Ok (Element_get c "qualifier")).
    change (get c "name") with (Ok (Element_get c "name")).
    change (get c "id") with (Ok (Element_get c "id")).
    cbn [rbind last_with_qualifier].
    destruct (val_eqb (Element_get c "qualifier") "home") eqn:Hh.
    + rewrite (val_eqb_home_not_away _ Hh). cbn [rbind]. rewrite IH.
      cbn [CrearDataframes.home_team CrearDataframes.home_id
           CrearDataframes.away_team CrearDataframes.away_id].
      destruct (last_with_qualifier "home" cs),
               (last_with_qualifier "away" cs); reflexivity.
    + cbn [rbind].
      destruct (val_eqb (Element_get c "qualifier") "away") eqn:Ha;
        cbn [rbind]; rewrite IH;
        cbn [CrearDataframes.home_team CrearDataframes.home_id
             CrearDataframes.away_team CrearDataframes.away_id];
        destruct (last_with_qualifier "home" cs),
                 (last_with_qualifier "away" cs); reflexivity.
Qed.

(** The record of a document that has the event, status and context
    nodes. *)
Lemma parse_event_info_record (root se st ctx : Element) (lg : log) :
  Element_find root [Descendant (ns "sport_event")] = Some se ->
  Element_find root [Descendant (ns "sport_event_status")] = Some st ->
  Element_find se [Descendant (ns "sport_event_context")] = Some ctx ->
  CrearDataframes.parse_event_info root lg
  = (Ok (Some
       (let competitors := Element_findall se [Descendant (ns "competitor")] in
        let venue := Element_find se [Descendant (ns "venue")] in
        [("event_id", Element_get se "id");
         ("start_time", Element_get se "start_time");
         ("sport_name",
          attr_of (Element_find ctx [Descendant (ns "sport")]) "name");
         ("category_name",
          attr_of (Element_find ctx [Descendant (ns "category")]) "name");
         ("competition_name",
          attr_of (Element_find ctx [Descendant (ns "competition")]) "name");
         ("competition_id",
          attr_of (Element_find ctx [Descendant (ns "competition")]) "id");
         ("season_name",
          attr_of (Element_find ctx [Descendant (ns "season")]) "name");
         ("season_id",
          attr_of (Element_find ctx [Descendant (ns "season")]) "id");
         ("round_number",
          attr_of (Element_find ctx [Descendant (ns "round")]) "number");
         ("home_team",
          attr_of (last_with_qualifier "home" competitors) "name");
         ("home_team_id",
          attr_of (last_with_qualifier "home" competitors) "id");
         ("away_team",
          attr_of (last_with_qualifier "away" competitors) "name");
         ("away_team_id",
          attr_of (last_with_qualifier "away" competitors) "id");
         ("venue_name", attr_of venue "name");
         ("venue_city", attr_of venue "city_name");
         ("venue_capacity", attr_of venue "capacity");
         ("attendance", attr_of (attendance_of se) "count");
         ("status", Element_get st "status");
         ("match_status", Element_get st "match_status");
         ("home_score", Element_get st "home_score");
         ("away_score", Element_get st "away_score")])), lg).
Proof.
  intros Hse Hst Hctx.
  unfold CrearDataframes.parse_event_info, try_except, lift,
    CrearDataframes.parse_event_info_body, attendance_of.
  simpl. rewrite Hse, Hst. simpl. rewrite Hctx. simpl.
  rewrite assign_sides_result. simpl.
  destruct (Element_find se [Descendant (ns "sport_event_conditions")])
    as [cond|]; simpl;
  try destruct (Element_find cond [Descendant (ns "attendance")]); simpl;
  destruct (Element_find ctx [Descendant (ns "sport")]),
    (Element_find ctx [Descendant (ns "category")]),
    (Element_find ctx [Descendant (ns "competition")]),
    (Element_find ctx [Descendant (ns "season")]),
    (Element_find ctx [Descendant (ns "round")]),
    (Element_find se [Descendant (ns "venue")]); reflexivity.
Qed.

(** X1.  Without the event node or without the status node
    [parse_event_info] returns [None] and logs nothing: the document is
    unusable, not an error. *)
Theorem parse_event_info_absent_nodes :
  forall (root : Element) (lg : log),
    Element_find root [Descendant (ns "sport_event")] = None
    \/ Element_find root [Descendant (ns "sport_event_status")] = None ->
    CrearDataframes.parse_event_info root lg = (Ok None, lg).
Proof.
  intros root lg Hmiss.
  unfold CrearDataframes.parse_event_info, try_except, lift,
    CrearDataframes.parse_event_info_body.
  simpl.
  destruct (Element_find root [Descendant (ns "sport_event")]) as [se|],
           (Element_find root [Descendant (ns "sport_event_status")])
             as [st|]; try reflexivity.
  destruct Hmiss; discriminate.
Qed.

Lemma parse_event_info_absent_nodes_witness :
  (Element_find doc_without_status [Descendant (ns "sport_event")] = None
   \/ Element_find doc_without_status
        [Descendant (ns "sport_event_status")] = None)
  /\ CrearDataframes.parse_event_info doc_without_status [] = (Ok None, []).
Proof.
  assert (H : Element_find doc_without_status [Descendant (ns "sport_event")]
              = None
              \/ Element_find doc_without_status
                   [Descendant (ns "sport_event_status")] = None)
    by (right; reflexivity).
  split; [exact H|].
  exact (parse_event_info_absent_nodes doc_without_status [] H).
Defined.

(** X2.  For a document with event, status and context nodes the record
    has exactly the 21 event fields, in their fixed order; event_id and
    start_time are the attributes id and start_time of the event node, and
    status, match_status, home_score and away_score are the attributes of
    the status node, as raw text or [None]. *)
Theorem event_record_identity_fields :
  forall (root se st ctx : Element) (lg : log),
    Element_find root [Descendant (ns "sport_event")] = Some se ->
    Element_find root [Descendant (ns "sport_event_status")] = Some st ->
    Element_find se [Descendant (ns "sport_event_context")] = Some ctx ->
    exists info,
      CrearDataframes.parse_event_info root lg = (Ok (Some info), lg)
      /\ keys info = event_fields
      /\ dict_get info "event_id" = Some (Element_get se "id")
      /\ dict_get info "start_time" = Some (Element_get se "start_time")
      /\ dict_get info "status" = Some (Element_get st "status")
      /\ dict_get info "match_status" = Some (Element_get st "match_status")
      /\ dict_get info "home_score" = Some (Element_get st "home_score")
      /\ dict_get info "away_score" = Some (Element_get st "away_score").
Proof.
  intros root se st ctx lg Hse Hst Hctx.
  eexists. split; [apply (parse_event_info_record root se st ctx lg);
                   assumption|].
  repeat split.
Qed.

Lemma event_record_identity_fields_witness :
  Element_find (doc "sr:sport_event:1") [Descendant (ns "sport_event")]
  = Some (sample_event "sr:sport_event:1")
  /\ Element_find (doc "sr:sport_event:1")
       [Descendant (ns "sport_event_status")] = Some status_node
  /\ Element_find (sample_event "sr:sport_event:1")
       [Descendant (ns "sport_event_context")] = Some context_full
  /\ exists info,
       CrearDataframes.parse_event_info (doc "sr:sport_event:1") []
       = (Ok (Some info), [])
       /\ keys info = event_fields
       /\ dict_get info "event_id"
          = Some (Element_get (sample_event "sr:sport_event:1") "id")
       /\ dict_get info "start_time"
          = Some (Element_get (sample_event "sr:sport_event:1") "start_time")
       /\ dict_get info "status" = Some (Element_get status_node "status")
       /\ dict_get info "match_status"
          = Some (Element_get status_node "match_status")
       /\ dict_get info "home_score"
          = Some (Element_get status_node "home_score")
       /\ dict_get info "away_score"
          = Some (Element_get status_node "away_score").
Proof.
  split; [reflexivity|]. split; [reflexivity|]. split; [reflexivity|].
  apply (event_record_identity_fields (doc "sr:sport_event:1")
           (sample_event "sr:sport_event:1") status_node context_full []);
    reflexivity.
Defined.

(** X3.  The home fields of the record are the name and id of the last
    competitor below the event node whose qualifier is "home", the away
    fields those of the last one whose qualifier is "away"; a side no
    competitor claims is [None], and competitors with any other qualifier
    are ignored. *)
Theorem event_record_sides :
  forall (root se st ctx : Element) (lg : log),
    Element_find root [Descendant (ns "sport_event")] = Some se ->
    Element_find root [Descendant (ns "sport_event_status")] = Some st ->
    Element_find se [Descendant (ns "sport_event_context")] = Some ctx ->
    exists info,
      CrearDataframes.parse_event_info root lg = (Ok (Some info), lg)
      /\ dict_get info "home_team"
         = Some (attr_of (last_with_qualifier "home"
                            (Element_findall se
                               [Descendant (ns "competitor")])) "name")
      /\ dict_get info "home_team_id"
         = Some (attr_of (last_with_qualifier "home"
                            (Element_findall se
                               [Descendant (ns "competitor")])) "id")
      /\ dict_get info "away_team"
         = Some (attr_of (last_with_qualifier "away"
                            (Element_findall se
                               [Descendant (ns "competitor")])) "name")
      /\ dict_get info "away_team_id"
         = Some (attr_of (last_with_qualifier "away"
                            (Element_findall se
                               [Descendant (ns "competitor")])) "id").
Proof.
  intros root se st ctx lg Hse Hst Hctx.
  eexists. split; [apply (parse_event_info_record root se st ctx lg);
                   assumption|].
  repeat split.
Qed.

Lemma event_record_sides_witness :
  Element_find (doc "sr:sport_event:1") [Descendant (ns "sport_event")]
  = Some (sample_event "sr:sport_event:1")
  /\ Element_find (doc "sr:sport_event:1")
       [Descendant (ns "sport_event_status")] = Some status_node
  /\ Element_find (sample_event "sr:sport_event:1")
       [Descendant (ns "sport_event_context")] = Some context_full
  /\ exists info,
       CrearDataframes.parse_event_info (doc "sr:sport_event:1") []
       = (Ok (Some info), [])
       /\ dict_get info "home_team"
          = Some (attr_of (last_with_qualifier "home"
                             (Element_findall
                                (sample_event "sr:sport_event:1")
                                [Descendant (ns "competitor")])) "name")
       /\ dict_get info "home_team_id"
          = Some (attr_of (last_with_qualifier "home"
                             (Element_findall
                                (sample_event "sr:sport_event:1")
                                [Descendant (ns "competitor")])) "id")
       /\ dict_get info "away_team"
          = Some (attr_of (last_with_qualifier "away"
                             (Element_findall
                                (sample_event "sr:sport_event:1")
                                [Descendant (ns "competitor")])) "name")
       /\ dict_get info "away_team_id"
          = Some (attr_of (last_with_qualifier "away"
                             (Element_findall
                                (sample_event "sr:sport_event:1")
                                [Descendant (ns "competitor")])) "id").
Proof.
  split; [reflexivity|]. split; [reflexivity|]. split; [reflexivity|].
  apply (event_record_sides (doc "sr:sport_event:1")
           (sample_event "sr:sport_event:1") status_node context_full []);
    reflexivity.
Defined.

(** X4.  Each optional node below the context node, the venue node and
    the attendance node (below the conditions node) gives its attributes to
    the record when it is there and [None] when it is missing. *)
Theorem event_record_optional_nodes :
  forall (root se st ctx : Element) (lg : log),
    Element_find root [Descendant (ns "sport_event")] = Some se ->
    Element_find root [Descendant (ns "sport_event_status")] = Some st ->
    Element_find se [Descendant (ns "sport_event_context")] = Some ctx ->
    exists info,
      CrearDataframes.parse_event_info root lg = (Ok (Some info), lg)
      /\ dict_get info "sport_name"
         = Some (attr_of (Element_find ctx [Descendant (ns "sport")]) "name")
      /\ dict_get info "category_name"
         = Some (attr_of (Element_find ctx [Descendant (ns "category")])
                   "name")
      /\ dict_get info "competition_name"
         = Some (attr_of (Element_find ctx [Descendant (ns "competition")])
                   "name")
      /\ dict_get info "competition_id"
         = Some (attr_of (Element_find ctx [Descendant (ns "competition")])
                   "id")
      /\ dict_get info "season_name"
         = Some (attr_of (Element_find ctx [Descendant (ns "season")]) "name")
      /\ dict_get info "season_id"
         = Some (attr_of (Element_find ctx [Descendant (ns "season")]) "id")
      /\ dict_get info "round_number"
         = Some (attr_of (Element_find ctx [Descendant (ns "round")])
                   "number")
      /\ dict_get info "venue_name"
         = Some (attr_of (Element_find se [Descendant (ns "venue")]) "name")
      /\ dict_get info "venue_city"
         = Some (attr_of (Element_find se [Descendant (ns "venue")])
                   "city_name")
      /\ dict_get info "venue_capacity"
         = Some (attr_of (Element_find se [Descendant (ns "venue")])
                   "capacity")
      /\ dict_get info "attendance"
         = Some (attr_of (attendance_of se) "count").
Proof.
  intros root se st ctx lg Hse Hst Hctx.
  eexists. split; [apply (parse_event_info_record root se st ctx lg);
                   assumption|].
  repeat split.
Qed.

Lemma event_record_optional_nodes_witness :
  Element_find doc_bare_context [Descendant (ns "sport_event")]
  = Some bare_event
  /\ Element_find doc_bare_context [Descendant (ns "sport_event_status")]
     = Some status_node
  /\ Element_find bare_event [Descendant (ns "sport_event_context")]
     = Some context_bare
  /\ exists info,
       CrearDataframes.parse_event_info doc_bare_context []
       = (Ok (Some info), [])
       /\ dict_get info "sport_name"
          = Some (attr_of (Element_find context_bare
                             [Descendant (ns "sport")]) "name")
       /\ dict_get info "category_name"
          = Some (attr_of (Element_find context_bare
                             [Descendant (ns "category")]) "name")
       /\ dict_get info "competition_name"
          = Some (attr_of (Element_find context_bare
                             [Descendant (ns "competition")]) "name")
       /\ dict_get info "competition_id"
          = Some (attr_of (Element_find context_bare
                             [Descendant (ns "competition")]) "id")
       /\ dict_get info "season_name"
          = Some (attr_of (Element_find context_bare
                             [Descendant (ns "season")]) "name")
       /\ dict_get info "season_id"
          = Some (attr_of (Element_find context_bare
                             [Descendant (ns "season")]) "id")
       /\ dict_get info "round_number"
          = Some (attr_of (Element_find context_bare
                             [Descendant (ns "round")]) "number")
       /\ dict_get info "venue_name"
          = Some (attr_of (Element_find bare_event
                             [Descendant (ns "venue")]) "name")
       /\ dict_get info "venue_city"
          = Some (attr_of (Element_find bare_event
                             [Descendant (ns "venue")]) "city_name")
       /\ dict_get info "venue_capacity"
          = Some (attr_of (Element_find bare_event
                             [Descendant (ns "venue")]) "capacity")
       /\ dict_get info "attendance"
          = Some (attr_of (attendance_of bare_event) "count").
Proof.
  split; [reflexivity|]. split; [reflexivity|]. split; [reflexivity|].
  apply (event_record_optional_nodes doc_bare_context bare_event
           status_node context_bare []); reflexivity.
Defined.

(* ================================================================= *)
(** ** More on the statistics extractors *)

(** What the passthrough leaves in a record: for a key of the bag the
    value of the bag, for any other key the value the record had. *)
Lemma copy_attributes_get (items : list (string * string)) (stats : pydict)
  (k : string) :
  NoDup (keys items) ->
  dict_get (copy_attributes stats items) k
  = match dict_get items k with
    | Some v => Some (Some v)
    | None => dict_get stats k
    end.
Proof.
  intros Hnd. destruct (dict_get items k) as [v|] eqn:E.
  - now apply copy_attributes_bag.
  - apply copy_attributes_other. now apply dict_get_None.
Qed.

(** The passthrough keeps the keys of the record where they are and
    appends the new keys of the bag in the order of the bag. *)
Lemma copy_attributes_layout (items : list (string * string))
  (stats : pydict) :
  NoDup (keys items) ->
  keys (copy_attributes stats items)
  = (keys stats
       ++ filter (fun k => negb (existsb (String.eqb k) (keys stats)))
            (keys items))%list.
Proof.
  revert stats. induction items as [|[k v] items IH]; intros stats Hnd.
  - simpl. now rewrite app_nil_r.
  - inversion Hnd as [|? ? Hnotin Hnd']; subst.
    rewrite copy_attributes_cons, (IH _ Hnd'). cbn [keys map fst filter].
    fold (keys items). fold (keys stats).
    destruct (existsb (String.eqb k) (keys stats)) eqn:E; cbn [negb].
    + apply existsb_eqb_In in E. rewrite keys_dict_set_in by assumption.
      reflexivity.
    + apply existsb_eqb_not_In in E.
      rewrite keys_dict_set_new by assumption.
      rewrite <- app_assoc. cbn [app]. do 2 f_equal.
      apply filter_ext_in. intros x Hx. f_equal.
      rewrite existsb_app. cbn [existsb].
      rewrite orb_false_r.
      destruct (String.eqb x k) eqn:Exk; [|now rewrite orb_false_r].
      apply String.eqb_eq in Exk. subst. contradiction.
Qed.

Lemma NoDup_keys_bag (n : Element) : NoDup (keys (bag n)).
Proof.
  unfold bag. destruct (Element_find n _).
  - apply NoDup_keys_attrib.
  - constructor.
Qed.

(** X5.  On every document the team extractor of [src/crear_dataframes.py]
    logs nothing and returns one record per competitor of the totals block,
    in document order; the keys of a record are the four fixed fields, in
    their order, followed by the keys of the competitor's statistics bag
    that are not fixed fields, in the order of the bag. *)
Theorem team_records_layout :
  forall (root : Element) (event_id : pyval) (lg : log),
    exists records,
      CrearDataframes.parse_team_statistics root event_id lg
      = (Ok records, lg)
      /\ List.length records = List.length (competitors_of root)
      /\ Forall2 (fun comp r =>
                    keys r = (team_fixed_fields
                                ++ new_keys team_fixed_fields (bag comp))%list)
           (competitors_of root) records.
Proof.
  intros root event_id lg.
  destruct (main_teams_on_Element root event_id lg) as [records [Hrun HF]].
  exists records. split; [assumption|].
  split; [symmetry; apply (Forall2_length HF)|].
  eapply Forall2_impl; [|exact HF]. intros comp r Hr. cbv beta in Hr.
  rewrite main_team_record_Element in Hr. injection Hr as <-.
  rewrite copy_attributes_layout by apply NoDup_keys_bag. reflexivity.
Qed.

(** X6.  In a team record of [src/crear_dataframes.py] every key of the
    competitor's statistics bag holds the value of the bag, and every other
    key holds the fixed value: the event_id that was passed in and the
    attributes id, name and qualifier of the competitor ([None] for a
    missing attribute). *)
Theorem team_record_values :
  forall (root : Element) (event_id : pyval) (lg : log),
    exists records,
      CrearDataframes.parse_team_statistics root event_id lg
      = (Ok records, lg)
      /\ Forall2 (fun comp r =>
                    forall k,
                      dict_get r k
                      = bag_over (bag comp)
                          [("event_id", event_id);
                           ("team_id", Element_get comp "id");
                           ("team_name", Element_get comp "name");
                           ("team_qualifier", Element_get comp "qualifier")]
                          k)
           (competitors_of root) records.
Proof.
  intros root event_id lg.
  destruct (main_teams_on_Element root event_id lg) as [records [Hrun HF]].
  exists records. split; [assumption|].
  eapply Forall2_impl; [|exact HF]. intros comp r Hr k. cbv beta in Hr.
  rewrite main_team_record_Element in Hr. injection Hr as <-.
  apply copy_attributes_get, NoDup_keys_bag.
Qed.

Lemma Forall2_map_pair {A B C} (R : A * B -> C -> Prop) (a : A)
  (bs : list B) (cs : list C) :
  Forall2 (fun b c => R (a, b) c) bs cs -> Forall2 R (map (pair a) bs) cs.
Proof. induction 1; simpl; constructor; auto. Qed.

Lemma players_loop_pairs (event_id : pyval) (comps : list Element)
  (acc : list pydict) :
  exists records,
    for_each comps (CrearDataframes.competitor_players event_id) acc
    = (Ok tt, (acc ++ records)%list)
    /\ Forall2 (fun cp r =>
                  CrearDataframes.player_record event_id
                    (Element_get (fst cp) "id") (Element_get (fst cp) "name")
                    (Element_get (fst cp) "qualifier") (snd cp) = Ok r)
         (flat_map (fun comp => map (pair comp) (players_of comp)) comps)
         records.
Proof.
  revert acc. induction comps as [|c comps IH]; intros acc.
  - exists []. simpl. unfold ret. rewrite app_nil_r.
    split; [reflexivity | constructor].
  - destruct (competitor_players_Element event_id c acc) as [rs1 [H1 F1]].
    destruct (IH (acc ++ rs1)%list) as [rs2 [H2 F2]].
    exists (rs1 ++ rs2)%list. split.
    + simpl. unfold bind at 1. rewrite H1, H2. now rewrite app_assoc.
    + cbn [flat_map]. apply Forall2_app; [|assumption].
      now apply (Forall2_map_pair
                   (fun cp r =>
                      CrearDataframes.player_record event_id
                        (Element_get (fst cp) "id")
                        (Element_get (fst cp) "name")
                        (Element_get (fst cp) "qualifier") (snd cp) = Ok r)).
Qed.

(** X7.  On every document the player extractor logs nothing and returns
    one record per player, competitor by competitor and player by player in
    document order, so a competitor without players contributes none.  In a
    record every key of the player's statistics bag holds the value of the
    bag and every other key the fixed value: the event_id, the attributes
    id, name and qualifier of the player's competitor and the attributes
    id, name and starter of the player. *)
Theorem player_records_follow_players :
  forall (root : Element) (event_id : pyval) (lg : log),
    exists records,
      CrearDataframes.parse_player_statistics root event_id lg
      = (Ok records, lg)
      /\ List.length records = List.length (competitor_player_pairs root)
      /\ Forall2 (fun cp r =>
                    forall k,
                      dict_get r k
                      = bag_over (bag (snd cp))
                          [("event_id", event_id);
                           ("team_id", Element_get (fst cp) "id");
                           ("team_name", Element_get (fst cp) "name");
                           ("team_qualifier",
                            Element_get (fst cp) "qualifier");
                           ("player_id", Element_get (snd cp) "id");
                           ("player_name", Element_get (snd cp) "name");
                           ("starter", Element_get (snd cp) "starter")]
                          k)
           (competitor_player_pairs root) records.
Proof.
  intros root event_id lg.
  unfold CrearDataframes.parse_player_statistics,
    CrearDataframes.parse_player_statistics_body.
  change (findall root totals_competitors) with (Ok (competitors_of root)).
  unfold bind at 1. unfold lift at 1.
  destruct (players_loop_pairs event_id (competitors_of root) [])
    as [records [Hrun HF]].
  rewrite Hrun. exists records. split; [reflexivity|].
  split; [symmetry; apply (Forall2_length HF)|].
  eapply Forall2_impl; [|exact HF]. intros [comp player] r Hr k.
  cbn [fst snd] in *.
  rewrite player_record_Element in Hr. injection Hr as <-.
  apply copy_attributes_get, NoDup_keys_bag.
Qed.

(** The player extractor of [src/ETL/crear_dataframes.py] and the one of
    [src/crear_dataframes.py] are the same function. *)
Lemma player_extractors_agree :
  forall (node : Type) (API : ElementAPI node)
         (root : node) (event_id : pyval) (lg : log),
    ETL.parse_player_statistics root event_id lg
    = CrearDataframes.parse_player_statistics root event_id lg.
Proof. reflexivity. Qed.

(** X8.  On every document each record of the ETL team extractor agrees
    with the matching record of the other team extractor on every field the
    latter has: it only adds fields. *)
Theorem etl_team_records_extend_main :
  forall (root : Element) (event_id : pyval) (lg : log),
    exists main_records etl_records,
      CrearDataframes.parse_team_statistics root event_id lg
      = (Ok main_records, lg)
      /\ ETL.parse_team_statistics root event_id lg = (Ok etl_records, lg)
      /\ Forall2 (fun r_main r_etl =>
                    forall k v, dict_get r_main k = Some v ->
                                dict_get r_etl k = Some v)
           main_records etl_records.
Proof.
  intros root event_id lg.
  destruct (main_teams_on_Element root event_id lg) as [rs1 [H1 F1]].
  destruct (etl_teams_on_Element root event_id lg) as [rs2 [H2 F2]].
  exists rs1, rs2. split; [assumption|]. split; [assumption|].
  refine (Forall2_join _ _ _ _ _ _ _ F1 F2).
  intros comp r1 r2 Hr1 Hr2 k v.
  rewrite main_team_record_Element in Hr1. injection Hr1 as <-.
  rewrite etl_team_record_Element in Hr2. injection Hr2 as <-.
  rewrite !copy_attributes_get by apply NoDup_keys_bag.
  destruct (dict_get (bag comp) k); [auto|].
  cbn [dict_get].
  repeat match goal with
         | |- context [String.eqb ?a k] => destruct (String.eqb a k)
         end; auto; discriminate.
Qed.

(* ================================================================= *)
(** ** More on the batch drivers *)

(** The records of the extractors on a document do not depend on the log
    they start from. *)
Lemma main_teams_value (root : Element) (event_id : pyval) :
  exists records,
    forall lg,
      CrearDataframes.parse_team_statistics root event_id lg
      = (Ok records, lg).
Proof.
  destruct (completed_total (CrearDataframes.team_record event_id)
              (competitors_of root)) as [Ho _].
  { intros x. rewrite main_team_record_Element. eauto. }
  eexists. intros lg. rewrite main_team_walk.
  change (findall root totals_competitors) with (Ok (competitors_of root)).
  cbn [rbind]. unfold walk_result. rewrite Ho. reflexivity.
Qed.

Lemma etl_teams_value (root : Element) (event_id : pyval) :
  exists records,
    forall lg,
      ETL.parse_team_statistics root event_id lg = (Ok records, lg).
Proof.
  destruct (completed_total
              (ETL.team_record event_id
                 (status_attr root "status")
                 (status_attr root "match_status")
                 (status_attr root "home_score")
                 (status_attr root "away_score"))
              (competitors_of root)) as [Ho _].
  { intros x. rewrite etl_team_record_Element. eauto. }
  eexists. intros lg. rewrite etl_team_walk.
  change (find root [Descendant (ns "sport_event_status")])
    with (Ok (Element_find root [Descendant (ns "sport_event_status")])).
  cbn [rbind]. rewrite !etl_status_fields. cbn [rbind].
  change (findall root totals_competitors) with (Ok (competitors_of root)).
  cbn [rbind]. unfold walk_result. rewrite Ho. reflexivity.
Qed.

Lemma players_value (root : Element) (event_id : pyval) :
  exists records,
    forall lg,
      CrearDataframes.parse_player_statistics root event_id lg
      = (Ok records, lg).
Proof.
  destruct (players_loop_pairs event_id (competitors_of root) [])
    as [records [Hrun _]].
  exists records. intros lg.
  unfold CrearDataframes.parse_player_statistics,
    CrearDataframes.parse_player_statistics_body.
  change (findall root totals_competitors) with (Ok (competitors_of root)).
  unfold bind at 1. unfold lift at 1. rewrite Hrun. reflexivity.
Qed.

(** X9.  For a file that parses to a document with event, status and
    context nodes, [process_xml_file] logs nothing and returns the event
    record of [parse_event_info] together with the team and player records
    the two extractors return for the id attribute of the event node. *)
Theorem process_xml_file_composes :
  forall (name : string) (root se st ctx : Element) (lg : log),
    Element_find root [Descendant (ns "sport_event")] = Some se ->
    Element_find root [Descendant (ns "sport_event_status")] = Some st ->
    Element_find se [Descendant (ns "sport_event_context")] = Some ctx ->
    exists info team_stats player_stats,
      CrearDataframes.process_xml_file
        {| file_name := name; contents := Ok root |} lg
      = (Ok (Some info, team_stats, player_stats), lg)
      /\ CrearDataframes.parse_event_info root lg = (Ok (Some info), lg)
      /\ CrearDataframes.parse_team_statistics root (Element_get se "id") lg
         = (Ok team_stats, lg)
      /\ CrearDataframes.parse_player_statistics root (Element_get se "id") lg
         = (Ok player_stats, lg).
Proof.
  intros name root se st ctx lg Hse Hst Hctx.
  pose proof (parse_event_info_record root se st ctx lg Hse Hst Hctx) as Hinfo.
  destruct (main_teams_value root (Element_get se "id")) as [ts Hts].
  destruct (players_value root (Element_get se "id")) as [ps Hps].
  eexists. exists ts, ps.
  split; [|split; [exact Hinfo | split; [apply Hts | apply Hps]]].
  unfold CrearDataframes.process_xml_file, try_except, bind, lift, ET.parse.
  cbn [contents]. rewrite Hinfo. cbn [dict_getitem dict_get String.eqb].
  cbn. rewrite Hts, Hps. reflexivity.
Qed.

Lemma process_xml_file_composes_witness :
  Element_find (doc "sr:sport_event:1") [Descendant (ns "sport_event")]
  = Some (sample_event "sr:sport_event:1")
  /\ Element_find (doc "sr:sport_event:1")
       [Descendant (ns "sport_event_status")] = Some status_node
  /\ Element_find (sample_event "sr:sport_event:1")
       [Descendant (ns "sport_event_context")] = Some context_full
  /\ exists info team_stats player_stats,
       CrearDataframes.process_xml_file
         {| file_name := "1.xml"; contents := Ok (doc "sr:sport_event:1") |} []
       = (Ok (Some info, team_stats, player_stats), [])
       /\ CrearDataframes.parse_event_info (doc "sr:sport_event:1") []
          = (Ok (Some info), [])
       /\ CrearDataframes.parse_team_statistics (doc "sr:sport_event:1")
            (Element_get (sample_event "sr:sport_event:1") "id") []
          = (Ok team_stats, [])
       /\ CrearDataframes.parse_player_statistics (doc "sr:sport_event:1")
            (Element_get (sample_event "sr:sport_event:1") "id") []
          = (Ok player_stats, []).
Proof.
  split; [reflexivity|]. split; [reflexivity|]. split; [reflexivity|].
  apply (process_xml_file_composes "1.xml" (doc "sr:sport_event:1")
           (sample_event "sr:sport_event:1") status_node context_full []);
    reflexivity.
Defined.

Lemma parse_event_info_without_event (root : Element) (lg : log) :
  Element_find root [Descendant (ns "sport_event")] = None ->
  CrearDataframes.parse_event_info root lg = (Ok None, lg).
Proof.
  intros Hse.
  unfold CrearDataframes.parse_event_info, try_except, lift,
    CrearDataframes.parse_event_info_body.
  simpl. rewrite Hse.
  destruct (Element_find root [Descendant (ns "sport_event_status")]);
    reflexivity.
Qed.

Lemma parse_event_info_without_status (root : Element) (lg : log) :
  Element_find root [Descendant (ns "sport_event_status")] = None ->
  CrearDataframes.parse_event_info root lg = (Ok None, lg).
Proof.
  intros Hst.
  unfold CrearDataframes.parse_event_info, try_except, lift,
    CrearDataframes.parse_event_info_body.
  simpl. rewrite Hst.
  destruct (Element_find root [Descendant (ns "sport_event")]);
    reflexivity.
Qed.

Lemma parse_event_info_unusable (root : Element) (lg : log) :
  has_event_nodes root = false ->
  exists lg', CrearDataframes.parse_event_info root lg = (Ok None, lg').
Proof.
  unfold has_event_nodes. intros Hno.
  destruct (Element_find root [Descendant (ns "sport_event")]) as [se|] eqn:Hse.
  - destruct (Element_find root [Descendant (ns "sport_event_status")])
      as [st|] eqn:Hst.
    + destruct (Element_find se [Descendant (ns "sport_event_context")])
        as [ctx|] eqn:Hctx; [discriminate|].
      eexists. now apply (parse_event_info_without_context root se st).
    + exists lg. now apply parse_event_info_without_status.
  - exists lg. now apply parse_event_info_without_event.
Qed.

Lemma process_xml_file_not_usable (f : xml_file Element) (lg : log) :
  usable f = false ->
  exists lg', CrearDataframes.process_xml_file f lg = (Ok (None, [], []), lg').
Proof.
  unfold usable. destruct f as [name [root|e]]; cbn [contents]; intros Hno.
  - destruct (parse_event_info_unusable root lg Hno) as [lg' Hrun].
    exists lg'.
    unfold CrearDataframes.process_xml_file, try_except, bind, lift, ET.parse.
    cbn [contents]. rewrite Hrun. reflexivity.
  - destruct e; eexists; reflexivity.
Qed.

(** X10.  A file whose document lacks the event node, the status node or
    the context node gives [process_xml_file] nothing at all: no event
    record and no team or player records either, even when its totals block
    has competitors; no exception leaves the call. *)
Theorem process_xml_file_drops_unusable_document :
  forall (name : string) (root : Element) (lg : log),
    has_event_nodes root = false ->
    exists lg',
      CrearDataframes.process_xml_file
        {| file_name := name; contents := Ok root |} lg
      = (Ok (None, [], []), lg').
Proof.
  intros name root lg Hno.
  apply process_xml_file_not_usable. exact Hno.
Qed.

Lemma process_xml_file_drops_unusable_document_witness :
  has_event_nodes doc_without_status = false
  /\ competitors_of doc_without_status = [home_totals; away_totals]
  /\ exists lg',
       CrearDataframes.process_xml_file
         {| file_name := "11.xml"; contents := Ok doc_without_status |} []
       = (Ok (None, [], []), lg').
Proof.
  split; [reflexivity|]. split; [reflexivity|].
  apply (process_xml_file_drops_unusable_document "11.xml"
           doc_without_status []).
  reflexivity.
Defined.

(** The records of the two statistics extractors on a document, field by
    field. *)
Lemma teams_pinned (root : Element) (event_id : pyval) :
  exists records,
    (forall lg,
       CrearDataframes.parse_team_statistics root event_id lg
       = (Ok records, lg))
    /\ Forall2 team_record_of (map (pair event_id) (competitors_of root))
         records.
Proof.
  destruct (main_teams_value root event_id) as [ts Hts].
  destruct (main_teams_on_Element root event_id []) as [ts' [Hrun HF]].
  rewrite Hts in Hrun. injection Hrun as <-.
  exists ts. split; [exact Hts|].
  apply Forall2_map_pair.
  eapply Forall2_impl; [|exact HF]. intros comp r Hr k. cbv beta in Hr.
  cbn [fst snd].
  rewrite main_team_record_Element in Hr. injection Hr as <-.
  apply copy_attributes_get, NoDup_keys_bag.
Qed.

Lemma players_pinned (root : Element) (event_id : pyval) :
  exists records,
    (forall lg,
       CrearDataframes.parse_player_statistics root event_id lg
       = (Ok records, lg))
    /\ Forall2 player_record_of
         (map (pair event_id) (competitor_player_pairs root)) records.
Proof.
  destruct (players_loop_pairs event_id (competitors_of root) [])
    as [records [Hrun HF]].
  exists records. split.
  - intros lg.
    unfold CrearDataframes.parse_player_statistics,
      CrearDataframes.parse_player_statistics_body.
    change (findall root totals_competitors) with (Ok (competitors_of root)).
    unfold bind at 1. unfold lift at 1. rewrite Hrun. reflexivity.
  - apply Forall2_map_pair. unfold competitor_player_pairs.
    eapply Forall2_impl; [|exact HF]. intros [comp player] r Hr k.
    cbn [fst snd] in *.
    rewrite player_record_Element in Hr. injection Hr as <-.
    apply copy_attributes_get, NoDup_keys_bag.
Qed.

(** What [process_xml_file] returns for a usable file: the event record of
    the file, and the team and player records of its document under the
    event id of the file.  Nothing is logged. *)
Lemma process_xml_file_records (f : xml_file Element) :
  usable f = true ->
  exists info team_stats player_stats,
    (forall lg,
       CrearDataframes.process_xml_file f lg
       = (Ok (Some info, team_stats, player_stats), lg))
    /\ file_event f = Some info
    /\ info <> []
    /\ dict_get info "event_id" = Some (event_id_of f)
    /\ Forall2 team_record_of (file_competitors f) team_stats
    /\ Forall2 player_record_of (file_players f) player_stats.
Proof.
  unfold usable, file_event, file_competitors, file_players, event_id_of.
  destruct f as [name [root|e]]; cbn [contents]; [|discriminate].
  unfold has_event_nodes.
  destruct (Element_find root [Descendant (ns "sport_event")]) as [se|] eqn:Hse;
    [|discriminate].
  destruct (Element_find root [Descendant (ns "sport_event_status")])
    as [st|] eqn:Hst; [|discriminate].
  destruct (Element_find se [Descendant (ns "sport_event_context")])
    as [ctx|] eqn:Hctx; [|discriminate].
  intros _. cbn [attr_of].
  destruct (teams_pinned root (Element_get se "id")) as [ts [Hts Fts]].
  destruct (players_pinned root (Element_get se "id")) as [ps [Hps Fps]].
  exists (event_record_of se st ctx), ts, ps.
  split; [|split; [reflexivity|]; split; [discriminate|];
           split; [reflexivity|]; split; assumption].
  intros lg.
  unfold CrearDataframes.process_xml_file, try_except, bind, lift, ET.parse.
  cbn [contents].
  rewrite (parse_event_info_record root se st ctx lg Hse Hst Hctx).
  cbn [dict_getitem dict_get String.eqb]. cbn. rewrite Hts, Hps.
  reflexivity.
Qed.

Lemma process_xml_file_usable_id (f : xml_file Element) (lg : log) :
  usable f = true ->
  exists info team_stats player_stats,
    CrearDataframes.process_xml_file f lg
    = (Ok (Some info, team_stats, player_stats), lg)
    /\ info <> []
    /\ dict_get info "event_id" = Some (event_id_of f).
Proof.
  intros Hus.
  destruct (process_xml_file_records f Hus)
    as [info [ts [ps [Hrun [_ [Hne [Hid _]]]]]]].
  exists info, ts, ps. split; [apply Hrun | split; assumption].
Qed.

Lemma accumulate_corpus (files : list (xml_file Element))
  (events teams players : list pydict) (lg : log) :
  exists events' teams' players' lg',
    fold_ST CrearDataframes.accumulate files (events, teams, players) lg
    = (Ok ((events ++ events')%list, teams', players'), lg')
    /\ map (fun info => dict_get info "event_id") events'
       = map (fun f => Some (event_id_of f)) (filter usable files).
Proof.
  revert events teams players lg.
  induction files as [|f files IH]; intros events teams players lg.
  - exists [], teams, players, lg. rewrite app_nil_r.
    split; reflexivity.
  - cbn [fold_ST filter]. unfold bind at 1.
    unfold CrearDataframes.accumulate at 1. unfold bind at 1.
    destruct (usable f) eqn:Hus.
    + destruct (process_xml_file_usable_id f lg Hus)
        as [info [ts [ps [Hrun [Hne Hid]]]]].
      rewrite Hrun. destruct info as [|kv info]; [congruence|].
      cbn [CrearDataframes.truthy ret].
      destruct (IH (events ++ [kv :: info])%list (teams ++ ts)%list
                  (players ++ ps)%list lg)
        as [ev [tm [pl [lg' [Hfold Hmap]]]]].
      exists ((kv :: info) :: ev), tm, pl, lg'. split.
      * rewrite <- app_assoc in Hfold. exact Hfold.
      * cbn [map]. now rewrite Hid, Hmap.
    + destruct (process_xml_file_not_usable f lg Hus) as [lg1 Hrun].
      rewrite Hrun. cbn [CrearDataframes.truthy ret].
      apply IH.
Qed.

(** X11.  Over any corpus of files the driver of [src/crear_dataframes.py]
    returns exactly one EventRecord per usable file (one that parses to a
    document with event, status and context nodes), in the order of the
    files: the event ids of the records are the ids of the event nodes of
    those files.  Every other file is skipped. *)
Theorem process_all_games_one_event_per_usable_file :
  forall (files : list (xml_file Element)) (lg : log),
    exists events teams players lg',
      CrearDataframes.process_all_games files lg
      = (Ok (events, teams, players), lg')
      /\ map (fun info => dict_get info "event_id") events
         = map (fun f => Some (event_id_of f)) (filter usable files)
      /\ List.length events = List.length (filter usable files).
Proof.
  intros files lg.
  assert (G : exists events teams players lg',
            CrearDataframes.process_all_games files lg
            = (Ok (events, teams, players), lg')
            /\ map (fun info => dict_get info "event_id") events
               = map (fun f => Some (event_id_of f)) (filter usable files)).
  { destruct files as [|f files].
    - do 4 eexists. split; reflexivity.
    - unfold CrearDataframes.process_all_games, bind, logger_info, modify.
      match goal with
      | |- context [fold_ST _ _ _ ?l] =>
          destruct (accumulate_corpus (f :: files) [] [] [] l)
            as [ev [tm [pl [lg' [Hfold Hmap]]]]]
      end.
      rewrite Hfold. do 4 eexists. split; [reflexivity | exact Hmap]. }
  destruct G as [ev [tm [pl [lg' [Hrun Hmap]]]]].
  exists ev, tm, pl, lg'. split; [exact Hrun|]. split; [exact Hmap|].
  apply (f_equal (@List.length _)) in Hmap.
  now rewrite !length_map in Hmap.
Qed.




(** The event ids of the four records of the sample corpus. *)
Example corpus5_event_ids :
  map (fun f => option_map (fun info => dict_get info "event_id")
                  (file_event f))
    [good_file "1.xml" "sr:sport_event:1";
     good_file "2.xml" "sr:sport_event:2";
     good_file "4.xml" "sr:sport_event:4";
     good_file "5.xml" "sr:sport_event:5"]
  = [Some (Some (Some "sr:sport_event:1"));
     Some (Some (Some "sr:sport_event:2"));
     Some (Some (Some "sr:sport_event:4"));
     Some (Some (Some "sr:sport_event:5"))].
Proof. vm_compute. reflexivity. Qed.

Lemma etl_process_xml_file_returns {node : Type} {API : ElementAPI node}
  (f : xml_file node) (lg : log) :
  exists r lg', ETL.process_xml_file f lg = (Ok r, lg').
Proof.
  unfold ETL.process_xml_file, try_except.
  match goal with |- context [match ?b lg with _ => _ end] =>
    destruct (b lg) as [[r|e] lg'] end.
  - eauto.
  - destruct e; do 2 eexists; reflexivity.
Qed.

Lemma etl_process_all_games_returns {node : Type} {API : ElementAPI node}
  (files : list (xml_file node)) (lg : log) :
  exists r lg', ETL.process_all_games files lg = (Ok r, lg').
Proof.
  assert (Hfold : forall fs acc l,
            exists r l', fold_ST ETL.accumulate fs acc l = (Ok r, l')).
  { induction fs as [|f fs IH]; intros acc l.
    - do 2 eexists. reflexivity.
    - cbn [fold_ST]. unfold bind at 1.
      destruct acc as [teams players].
      unfold ETL.accumulate at 1. unfold bind at 1.
      destruct (etl_process_xml_file_returns f l) as [[ts ps] [l' ->]].
      cbn [ret]. apply IH. }
  destruct files as [|f files].
  - do 2 eexists. reflexivity.
  - unfold ETL.process_all_games, bind at 1, logger_info, modify.
    unfold bind at 1.
    match goal with
    | |- context [fold_ST _ _ _ ?l] =>
        destruct (Hfold (f :: files) ([], []) l) as [[teams players] [l' ->]]
    end.
    do 2 eexists. reflexivity.
Qed.

(** X12.  Whatever the files hold and whatever the node objects do, the
    batch drivers of both scripts return normally: no exception raised
    while a file is processed reaches their caller. *)
Theorem batch_drivers_always_return :
  forall (node : Type) (API : ElementAPI node)
         (files : list (xml_file node)) (lg : log),
    (exists r lg', CrearDataframes.process_all_games files lg = (Ok r, lg'))
    /\ (exists r lg', ETL.process_all_games files lg = (Ok r, lg')).
Proof.
  intros node API files lg. split.
  - apply process_all_games_returns.
  - apply etl_process_all_games_returns.
Qed.

(** X13.  The driver of [src/ETL/crear_dataframes.py] needs the event node
    only: for a file whose document has one, with or without status and
    context nodes, [process_xml_file] logs nothing and returns the team and
    player records the extractors give for the id attribute of that
    node. *)
Theorem etl_process_xml_file_with_event_node :
  forall (name : string) (root se : Element) (lg : log),
    Element_find root [Descendant (ns "sport_event")] = Some se ->
    exists team_stats player_stats,
      ETL.process_xml_file {| file_name := name; contents := Ok root |} lg
      = (Ok (team_stats, player_stats), lg)
      /\ ETL.parse_team_statistics root (Element_get se "id") lg
         = (Ok team_stats, lg)
      /\ ETL.parse_player_statistics root (Element_get se "id") lg
         = (Ok player_stats, lg).
Proof.
  intros name root se lg Hse.
  destruct (etl_teams_value root (Element_get se "id")) as [ts Hts].
  destruct (players_value root (Element_get se "id")) as [ps Hps].
  exists ts, ps. split; [|split; [apply Hts | apply Hps]].
  unfold ETL.process_xml_file, try_except, bind, lift, ET.parse.
  cbn [contents].
  change (find root [Descendant (ns "sport_event")])
    with (Ok (Element_find root [Descendant (ns "sport_event")])).
  rewrite Hse.
  change (get se "id") with (Ok (Element_get se "id")).
  cbv beta iota. rewrite Hts.
  change (ETL.parse_player_statistics root (Element_get se "id") lg)
    with (CrearDataframes.parse_player_statistics root
            (Element_get se "id") lg).
  rewrite Hps. reflexivity.
Qed.

Lemma etl_process_xml_file_with_event_node_witness :
  Element_find doc_without_context [Descendant (ns "sport_event")]
  = Some (E "sport_event"
            [("id", "sr:sport_event:7");
             ("start_time", "2023-08-12T19:00:00+00:00")]
            [event_competitors])
  /\ exists team_stats player_stats,
       ETL.process_xml_file
         {| file_name := "7.xml"; contents := Ok doc_without_context |} []
       = (Ok (team_stats, player_stats), [])
       /\ ETL.parse_team_statistics doc_without_context
            (Element_get
               (E "sport_event"
                  [("id", "sr:sport_event:7");
                   ("start_time", "2023-08-12T19:00:00+00:00")]
                  [event_competitors]) "id") []
          = (Ok team_stats, [])
       /\ ETL.parse_player_statistics doc_without_context
            (Element_get
               (E "sport_event"
                  [("id", "sr:sport_event:7");
                   ("start_time", "2023-08-12T19:00:00+00:00")]
                  [event_competitors]) "id") []
          = (Ok player_stats, []).
Proof.
  split; [reflexivity|].
  apply (etl_process_xml_file_with_event_node "7.xml" doc_without_context
           (E "sport_event"
              [("id", "sr:sport_event:7");
               ("start_time", "2023-08-12T19:00:00+00:00")]
              [event_competitors]) []).
  reflexivity.
Defined.

(** X14.  The ETL [process_xml_file] returns two empty lists for a file
    whose document has no event node, after a warning that names the file,
    and for a file of malformed markup, after an error line that names the
    file and carries the parser's message. *)
Theorem etl_process_xml_file_skips :
  forall (name msg : string) (root : Element) (lg : log),
    Element_find root [Descendant (ns "sport_event")] = None ->
    ETL.process_xml_file {| file_name := name; contents := Ok root |} lg
    = (Ok ([], []),
       (lg ++ [(WARNING, ("No se encontró sport_event en " ++ name)%string)])
         %list)
    /\ ETL.process_xml_file
         {| file_name := name; contents := @Raise Element (ParseError msg) |}
         lg
       = (Ok ([], []),
          (lg ++ [(ERROR,
                   ("Error parseando XML " ++ name ++ ": " ++ msg)%string)])
            %list).
Proof.
  intros name msg root lg Hno. split; [|reflexivity].
  unfold ETL.process_xml_file, try_except, bind, lift, ET.parse.
  cbn [contents].
  change (find root [Descendant (ns "sport_event")])
    with (Ok (Element_find root [Descendant (ns "sport_event")])).
  rewrite Hno. reflexivity.
Qed.

Lemma etl_process_xml_file_skips_witness :
  Element_find doc_without_event [Descendant (ns "sport_event")] = None
  /\ ETL.process_xml_file
       {| file_name := "12.xml"; contents := Ok doc_without_event |} []
     = (Ok ([], []),
        [(WARNING, "No se encontró sport_event en 12.xml")])
  /\ ETL.process_xml_file
       {| file_name := "12.xml";
          contents := @Raise Element (ParseError "no element found") |} []
     = (Ok ([], []),
        [(ERROR, "Error parseando XML 12.xml: no element found")]).
Proof.
  split; [reflexivity|].
  apply (etl_process_xml_file_skips "12.xml" "no element found"
           doc_without_event []).
  reflexivity.
Defined.

Lemma etl_process_xml_file_value (f : xml_file Element) :
  exists r, forall lg, exists lg', ETL.process_xml_file f lg = (Ok r, lg').
Proof.
  destruct f as [name [root|e]].
  - destruct (Element_find root [Descendant (ns "sport_event")]) as [se|]
      eqn:Hse.
    + destruct (etl_teams_value root (Element_get se "id")) as [ts Hts].
      destruct (players_value root (Element_get se "id")) as [ps Hps].
      exists (ts, ps). intros lg. exists lg.
      unfold ETL.process_xml_file, try_except, bind, lift, ET.parse.
      cbn [contents].
      change (find root [Descendant (ns "sport_event")])
        with (Ok (Element_find root [Descendant (ns "sport_event")])).
      rewrite Hse.
      change (get se "id") with (Ok (Element_get se "id")).
      cbv beta iota. rewrite Hts.
      change (ETL.parse_player_statistics root (Element_get se "id") lg)
        with (CrearDataframes.parse_player_statistics root
                (Element_get se "id") lg).
      rewrite Hps. reflexivity.
    + exists ([], []). intros lg. eexists.
      unfold ETL.process_xml_file, try_except, bind, lift, ET.parse.
      cbn [contents].
      change (find root [Descendant (ns "sport_event")])
        with (Ok (Element_find root [Descendant (ns "sport_event")])).
      rewrite Hse. reflexivity.
  - exists ([], []). intros lg. destruct e; eexists; reflexivity.
Qed.

Lemma etl_accumulate_corpus (files : list (xml_file Element)) :
  exists per_file,
    Forall2 (fun f r =>
               forall lg, exists lg', ETL.process_xml_file f lg = (Ok r, lg'))
      files per_file
    /\ forall teams players lg,
         exists lg',
           fold_ST ETL.accumulate files (teams, players) lg
           = (Ok ((teams ++ flat_map fst per_file)%list,
                  (players ++ flat_map snd per_file)%list), lg').
Proof.
  induction files as [|f files [rs [HF Hfold]]].
  - exists []. split; [constructor|]. intros teams players lg.
    exists lg. simpl. now rewrite !app_nil_r.
  - destruct (etl_process_xml_file_value f) as [[ts ps] Hr].
    exists ((ts, ps) :: rs). split; [constructor; assumption|].
    intros teams players lg.
    destruct (Hr lg) as [lg1 Hrun].
    destruct (Hfold (teams ++ ts)%list (players ++ ps)%list lg1)
      as [lg' Hrest].
    exists lg'. cbn [fold_ST]. unfold bind at 1.
    unfold ETL.accumulate at 1. unfold bind at 1. rewrite Hrun.
    cbn [ret flat_map fst snd]. rewrite !app_assoc. exact Hrest.
Qed.

(** X15.  The driver of [src/ETL/crear_dataframes.py] returns, for any
    corpus of files, the team records of the files one after the other in
    the order of the files, and likewise the player records: the two lists
    are the concatenations of what [process_xml_file] returns per file. *)
Theorem etl_process_all_games_concatenates :
  forall (files : list (xml_file Element)) (lg : log),
    exists per_file lg',
      Forall2 (fun f r =>
                 forall l, exists l', ETL.process_xml_file f l = (Ok r, l'))
        files per_file
      /\ ETL.process_all_games files lg
         = (Ok (flat_map fst per_file, flat_map snd per_file), lg').
Proof.
  intros files lg.
  destruct (etl_accumulate_corpus files) as [rs [HF Hfold]].
  exists rs. destruct files as [|f files].
  - inversion HF; subst. eexists. split; [constructor | reflexivity].
  - unfold ETL.process_all_games, bind, logger_info, modify.
    match goal with
    | |- context [fold_ST _ _ _ ?l] =>
        destruct (Hfold [] [] l) as [lg' Hrun]
    end.
    cbn [app] in Hrun. rewrite Hrun.
    eexists. split; [exact HF | reflexivity].
Qed.

(* ================================================================= *)
(** ** More on the table builders *)

Section TableShape.
Context {D : Dtypes}.

Lemma table_of_DataFrame_of (records : list pydict) :
  table_of records (DataFrame_of records).
Proof.
  split; [reflexivity|]. split; [apply columns_DataFrame_of|]. split.
  - intros c. rewrite columns_DataFrame_of, In_union_keys.
    split; intros [r [Hr Hc]]; exists r; (split; [assumption|]);
      now apply has_key_In.
  - intros c s Hs. unfold getitem, dict_getitem in Hs.
    destruct (dict_get (data (DataFrame_of records)) c) as [s'|] eqn:E;
      [|discriminate].
    injection Hs as ->.
    rewrite column_DataFrame_of in E.
    + injection E as <-. apply length_map.
    + rewrite <- columns_DataFrame_of. eapply dict_get_Some_In; eauto.
Qed.

(** A frame with the same rows and columns whose cells are column-wise
    images of the old ones is still the table of the records. *)
Lemma table_of_same_shape (records : list pydict) (df df' : DataFrame) :
  table_of records df ->
  nrows df' = nrows df ->
  columns df' = columns df ->
  (forall c s', dict_get (data df') c = Some s' ->
     exists s, dict_get (data df) c = Some s
               /\ List.length s' = List.length s) ->
  table_of records df'.
Proof.
  intros [Hn [Hc [Hk Hl]]] Hn' Hc' Hcells.
  split; [congruence|]. split; [congruence|]. split.
  - intros c. rewrite Hc'. apply Hk.
  - intros c s' Hs'. unfold getitem, dict_getitem in Hs'.
    destruct (dict_get (data df') c) as [s0|] eqn:E; [|discriminate].
    injection Hs' as ->. destruct (Hcells c s' E) as [s [Hs Hlen]].
    rewrite Hlen. apply (Hl c). unfold getitem, dict_getitem. now rewrite Hs.
Qed.

Lemma table_of_setitem (records : list pydict) (df : DataFrame)
  (col : string) (s0 s : Series) :
  table_of records df ->
  dict_get (data df) col = Some s0 ->
  List.length s = List.length s0 ->
  table_of records (setitem df col s).
Proof.
  intros Ht Hs0 Hlen.
  apply (table_of_same_shape records df); auto.
  - apply columns_setitem. eapply dict_get_Some_In; eauto.
  - intros c s' Hs'. cbn [setitem data] in Hs'.
    destruct (string_dec col c) as [->|Hne].
    + rewrite dict_get_set_same in Hs'. injection Hs' as <-. eauto.
    + rewrite dict_get_set_other in Hs' by assumption. eauto.
Qed.

Lemma numeric_table_shape (records : list pydict)
  (non_numeric : list string) :
  exists df,
    numeric_columns (DataFrame_of records) non_numeric = Ok df
    /\ table_of records df
    /\ numeric_outside non_numeric records df
    /\ (forall c, In c non_numeric -> In c (union_keys records) ->
          dict_get (data df) c = Some (map (fun r => raw_cell r c) records)).
Proof.
  destruct (numeric_columns_spec (DataFrame_of records) non_numeric)
    as [df [H1 [H2 [H3 [H4 H5]]]]].
  destruct (numeric_table records non_numeric) as [df' [R [_ [_ [Hnum Hk]]]]].
  assert (df' = df) by congruence. subst df'.
  exists df. split; [assumption|]. split; [|split; assumption].
  apply (table_of_same_shape records (DataFrame_of records)); auto.
  - apply table_of_DataFrame_of.
  - intros c s' Hs'.
    assert (Hin : In c (columns (DataFrame_of records))).
    { rewrite <- H3. eapply dict_get_Some_In; eauto. }
    destruct (in_dec string_dec c non_numeric) as [Ha|Hn].
    + rewrite (H5 c Ha) in Hs'. eauto.
    + rewrite (H4 c Hin Hn) in Hs'.
      destruct (dict_get (data (DataFrame_of records)) c) as [s|];
        [|discriminate].
      injection Hs' as <-. exists s. split; [reflexivity|].
      apply length_map.
Qed.

Lemma raw_inside_of (non_numeric : list string) (records : list pydict)
  (df : DataFrame) :
  (forall c, In c non_numeric -> In c (union_keys records) ->
     dict_get (data df) c = Some (map (fun r => raw_cell r c) records)) ->
  raw_inside non_numeric records df.
Proof.
  intros Hk c Hc _ Hin. unfold getitem, dict_getitem.
  now rewrite (Hk c Hc Hin).
Qed.

Lemma raw_inside_setitem_starter (non_numeric : list string)
  (records : list pydict) (df : DataFrame) (s : Series) :
  raw_inside non_numeric records df ->
  raw_inside non_numeric records (setitem df "starter" s).
Proof.
  intros Hr c Hc Hne Hin. unfold getitem, dict_getitem.
  cbn [setitem data]. rewrite dict_get_set_other by congruence.
  now apply Hr.
Qed.

Lemma etl_teams_table_shape (teams : list pydict) (lg : log) :
  exists df lg',
    ETL.create_team_statistics_dataframe teams lg = (Ok df, lg')
    /\ (teams <> [] -> table_of teams df)
    /\ raw_inside ETL.team_non_numeric teams df.
Proof.
  destruct teams as [|r teams].
  - exists empty_frame. eexists. split; [reflexivity|].
    split; [congruence|]. intros c _ _ [].
  - destruct (numeric_table_shape (r :: teams) ETL.team_non_numeric)
      as [df [Hrun [Ht [_ Hk]]]].
    unfold ETL.create_team_statistics_dataframe, bind, lift, logger_info,
      modify. rewrite Hrun.
    do 2 eexists. split; [reflexivity|].
    split; [intros _; exact Ht | now apply raw_inside_of].
Qed.

Lemma main_teams_table_shape (teams : list pydict) (lg : log) :
  exists df lg',
    CrearDataframes.teams_table teams lg = (Ok df, lg')
    /\ table_of teams df
    /\ raw_inside CrearDataframes.team_non_numeric teams df.
Proof.
  destruct (numeric_table_shape teams CrearDataframes.team_non_numeric)
    as [df [Hrun [Ht [_ Hk]]]].
  unfold CrearDataframes.teams_table, bind, lift. rewrite Hrun.
  do 2 eexists. split; [reflexivity|].
  split; [exact Ht | now apply raw_inside_of].
Qed.

Lemma main_players_table_shape (players : list pydict) (lg : log) :
  In "starter" (union_keys players) ->
  exists df lg',
    CrearDataframes.players_table players lg = (Ok df, lg')
    /\ table_of players df
    /\ raw_inside CrearDataframes.player_non_numeric players df.
Proof.
  intros Hst.
  destruct (numeric_table_shape players CrearDataframes.player_non_numeric)
    as [df [Hrun [Ht [_ Hk]]]].
  assert (Hall : In "starter" CrearDataframes.player_non_numeric)
    by (unfold CrearDataframes.player_non_numeric; simpl; tauto).
  pose proof (Hk "starter" Hall Hst) as Hs.
  unfold CrearDataframes.players_table, bind, lift. rewrite Hrun.
  cbn [rbind]. unfold CrearDataframes.starter_column, getitem, dict_getitem.
  rewrite Hs. cbn [rbind].
  do 2 eexists. split; [reflexivity|]. split.
  - eapply table_of_setitem; eauto. unfold eq_str. now rewrite !length_map.
  - apply raw_inside_setitem_starter. now apply raw_inside_of.
Qed.

Lemma main_players_table_no_starter (players : list pydict) (lg : log) :
  ~ In "starter" (union_keys players) ->
  CrearDataframes.players_table players lg = (Raise (KeyError "starter"), lg).
Proof.
  intros Hno.
  destruct (numeric_table_shape players CrearDataframes.player_non_numeric)
    as [df [Hrun [[_ [Hc _]] _]]].
  unfold CrearDataframes.players_table, bind, lift. rewrite Hrun.
  cbn [rbind]. unfold CrearDataframes.starter_column, getitem, dict_getitem.
  assert (Hnone : dict_get (data df) "starter" = None).
  { apply dict_get_None. fold (columns df). now rewrite Hc. }
  rewrite Hnone. reflexivity.
Qed.

Lemma etl_players_table_shape (players : list pydict) (lg : log) :
  exists df lg',
    ETL.create_player_statistics_dataframe players lg = (Ok df, lg')
    /\ (players <> [] -> table_of players df)
    /\ raw_inside ETL.player_non_numeric players df.
Proof.
  destruct players as [|r players].
  - exists empty_frame. eexists. split; [reflexivity|].
    split; [congruence|]. intros c _ _ [].
  - destruct (numeric_table_shape (r :: players) ETL.player_non_numeric)
      as [df [Hrun [Ht [_ Hk]]]].
    assert (Hall : In "starter" ETL.player_non_numeric)
      by (unfold ETL.player_non_numeric; simpl; tauto).
    unfold ETL.create_player_statistics_dataframe, bind, lift, logger_info,
      modify. rewrite Hrun. cbn [rbind].
    unfold ETL.starter_column.
    destruct (existsb (String.eqb "starter") (columns df)) eqn:E.
    + apply existsb_eqb_In in E.
      assert (Hst : In "starter" (union_keys (r :: players)))
        by (destruct Ht as [_ [Hc _]]; now rewrite <- Hc).
      pose proof (Hk "starter" Hall Hst) as Hs.
      unfold getitem, dict_getitem. rewrite Hs. cbn [rbind].
      do 2 eexists. split; [reflexivity|]. split.
      * intros _. eapply table_of_setitem; eauto.
        unfold eq_str. now rewrite !length_map.
      * apply raw_inside_setitem_starter. now apply raw_inside_of.
    + do 2 eexists. split; [reflexivity|].
      split; [intros _; exact Ht | now apply raw_inside_of].
Qed.

End TableShape.

Section MoreTables.
Context {D : Dtypes}.

(** The shape of the team table and of the player table of
    [create_dataframes], for any event records that convert. *)
Lemma create_dataframes_statistics_shape (events teams players : list pydict)
  (lg : log) :
  events_convert events ->
  teams <> [] ->
  In "starter" (union_keys players) ->
  exists dataframes df_teams df_players lg',
    CrearDataframes.create_dataframes events teams players lg
    = (Ok dataframes, lg')
    /\ dict_get dataframes "team_statistics" = Some df_teams
    /\ dict_get dataframes "player_statistics" = Some df_players
    /\ table_of teams df_teams
    /\ raw_inside CrearDataframes.team_non_numeric teams df_teams
    /\ table_of players df_players
    /\ raw_inside CrearDataframes.player_non_numeric players df_players.
Proof.
  intros Hconv Hteams Hst.
  assert (Hpl : players <> []) by (intros ->; destruct Hst).
  destruct (create_dataframes_blocks events teams players lg Hconv
              (or_intror Hst))
    as [dfs [lg' [Hrun [_ [_ [Ht Hp]]]]]].
  destruct (Ht Hteams) as [dt [l1 [l1' [R1 G1]]]].
  destruct (Hp Hpl) as [dp [l2 [l2' [R2 G2]]]].
  destruct (main_teams_table_shape teams l1) as [dt' [l1'' [R1' [T1 W1]]]].
  destruct (main_players_table_shape players l2 Hst)
    as [dp' [l2'' [R2' [T2 W2]]]].
  assert (dt' = dt) by congruence. assert (dp' = dp) by congruence.
  subst dt' dp'.
  exists dfs, dt, dp, lg'. repeat split; auto; apply T1 || apply T2.
Qed.

(** Player records without a starter column end [create_dataframes] with
    a KeyError, after the tables of the events and of the teams were
    built. *)
Lemma create_dataframes_no_starter (events teams players : list pydict)
  (lg : log) :
  events_convert events ->
  players <> [] ->
  ~ In "starter" (union_keys players) ->
  exists lg',
    CrearDataframes.create_dataframes events teams players lg
    = (Raise (KeyError "starter"), lg').
Proof.
  intros Hconv Hpl Hno.
  unfold CrearDataframes.create_dataframes, bind, logger_info, modify, ret.
  destruct events as [|ev events].
  2: match goal with
     | |- context [CrearDataframes.events_table ?es ?l] =>
         destruct (events_block es l ltac:(discriminate) Hconv)
           as [de [l0 [R0 _]]];
         rewrite R0
     end.
  all: destruct teams as [|t teams].
  all: try match goal with
           | |- context [CrearDataframes.teams_table ?ts ?l] =>
               destruct (main_teams_table ts l) as [dt [l1 [R1 _]]];
               rewrite R1
           end.
  all: destruct players as [|p players]; [congruence|].
  all: rewrite (main_players_table_no_starter _ _ Hno).
  all: eexists; reflexivity.
Qed.

End MoreTables.

(** X16.  The team and player tables of both scripts are rectangular and
    cover all records: one row per record, one column per key that occurs
    in any record (not only in the first one), in first-seen order, and
    every column has exactly as many cells as there are records.  For
    [create_dataframes] this holds whatever event records come with the
    team and player records, as long as they convert. *)
Theorem tables_cover_all_records :
  forall (D : Dtypes) (events teams players : list pydict) (lg : log),
    events_convert events ->
    teams <> [] ->
    existsb (fun r => has_key r "starter") players = true ->
    (exists dataframes df_teams df_players lg',
       CrearDataframes.create_dataframes events teams players lg
       = (Ok dataframes, lg')
       /\ dict_get dataframes "team_statistics" = Some df_teams
       /\ dict_get dataframes "player_statistics" = Some df_players
       /\ table_of teams df_teams
       /\ table_of players df_players)
    /\ (exists df lg',
          ETL.create_team_statistics_dataframe teams lg = (Ok df, lg')
          /\ table_of teams df)
    /\ (exists df lg',
          ETL.create_player_statistics_dataframe players lg = (Ok df, lg')
          /\ table_of players df).
Proof.
  intros D events teams players lg Hconv Hteams Hst.
  assert (Hpl : players <> []) by (intros ->; discriminate).
  apply some_record_has_key in Hst.
  destruct (create_dataframes_statistics_shape events teams players lg
              Hconv Hteams Hst)
    as [dfs [dt [dp [l1 [R1 [G1 [G2 [T1 [_ [T2 _]]]]]]]]]].
  destruct (etl_teams_table_shape teams lg) as [d2 [l2 [R2 [T3 _]]]].
  destruct (etl_players_table_shape players lg) as [d4 [l4 [R4 [T4 _]]]].
  split; [exists dfs, dt, dp, l1; auto|].
  split; [exists d2, l2; auto | exists d4, l4; auto].
Qed.

Lemma tables_cover_all_records_witness :
  events_convert (D := sample_dtypes) sample_events
  /\ [team_row "sr:competitor:2817" "home" "55";
     [("event_id", Some "sr:sport_event:1"); ("shots_total", Some "9")]] <> []
  /\ existsb (fun r => has_key r "starter")
       [player_row "sr:player:1" (Some "true") "1";
          [("event_id", Some "sr:sport_event:1"); ("minutes", Some "90")]]
     = true
  /\ (exists dataframes df_teams df_players lg',
        CrearDataframes.create_dataframes (D := sample_dtypes) sample_events
          [team_row "sr:competitor:2817" "home" "55";
             [("event_id", Some "sr:sport_event:1"); ("shots_total", Some "9")]]
          [player_row "sr:player:1" (Some "true") "1";
             [("event_id", Some "sr:sport_event:1"); ("minutes", Some "90")]]
          []
        = (Ok dataframes, lg')
        /\ dict_get dataframes "team_statistics" = Some df_teams
        /\ dict_get dataframes "player_statistics" = Some df_players
        /\ table_of
             [team_row "sr:competitor:2817" "home" "55";
                [("event_id", Some "sr:sport_event:1"); ("shots_total", Some "9")]] df_teams
        /\ table_of
             [player_row "sr:player:1" (Some "true") "1";
                [("event_id", Some "sr:sport_event:1"); ("minutes", Some "90")]] df_players)
  /\ (exists df lg',
        ETL.create_team_statistics_dataframe (D := sample_dtypes)
          [team_row "sr:competitor:2817" "home" "55";
             [("event_id", Some "sr:sport_event:1"); ("shots_total", Some "9")]] [] = (Ok df, lg')
        /\ table_of
             [team_row "sr:competitor:2817" "home" "55";
                [("event_id", Some "sr:sport_event:1"); ("shots_total", Some "9")]] df)
  /\ (exists df lg',
        ETL.create_player_statistics_dataframe (D := sample_dtypes)
          [player_row "sr:player:1" (Some "true") "1";
             [("event_id", Some "sr:sport_event:1"); ("minutes", Some "90")]]
          [] = (Ok df, lg')
        /\ table_of
             [player_row "sr:player:1" (Some "true") "1";
                [("event_id", Some "sr:sport_event:1"); ("minutes", Some "90")]] df).
Proof.
  assert (H1 : events_convert (D := sample_dtypes) sample_events)
    by (split; [repeat constructor | reflexivity]).
  split; [exact H1|]. split; [discriminate|]. split; [reflexivity|].
  apply (tables_cover_all_records sample_dtypes sample_events
           [team_row "sr:competitor:2817" "home" "55";
              [("event_id", Some "sr:sport_event:1"); ("shots_total", Some "9")]]
           [player_row "sr:player:1" (Some "true") "1";
              [("event_id", Some "sr:sport_event:1"); ("minutes", Some "90")]]
           [] H1);
    [discriminate | reflexivity].
Defined.

(** X17.  In the team and player tables of both scripts the allowlisted
    columns other than starter (identifiers, names, qualifiers, and in the
    ETL team table event_status and match_status) are not converted: row i
    holds the raw text of record i, null where the record has none.  For
    [create_dataframes] this holds whatever event records come with the
    team and player records, as long as they convert. *)
Theorem allowlisted_columns_keep_raw_text :
  forall (D : Dtypes) (events teams players : list pydict) (lg : log),
    events_convert events ->
    teams <> [] ->
    existsb (fun r => has_key r "starter") players = true ->
    (exists dataframes df_teams df_players lg',
       CrearDataframes.create_dataframes events teams players lg
       = (Ok dataframes, lg')
       /\ dict_get dataframes "team_statistics" = Some df_teams
       /\ dict_get dataframes "player_statistics" = Some df_players
       /\ raw_inside CrearDataframes.team_non_numeric teams df_teams
       /\ raw_inside CrearDataframes.player_non_numeric players df_players)
    /\ (exists df lg',
          ETL.create_team_statistics_dataframe teams lg = (Ok df, lg')
          /\ raw_inside ETL.team_non_numeric teams df)
    /\ (exists df lg',
          ETL.create_player_statistics_dataframe players lg = (Ok df, lg')
          /\ raw_inside ETL.player_non_numeric players df).
Proof.
  intros D events teams players lg Hconv Hteams Hst.
  apply some_record_has_key in Hst.
  destruct (create_dataframes_statistics_shape events teams players lg
              Hconv Hteams Hst)
    as [dfs [dt [dp [l1 [R1 [G1 [G2 [_ [W1 [_ W2]]]]]]]]]].
  destruct (etl_teams_table_shape teams lg) as [d2 [l2 [R2 [_ W3]]]].
  destruct (etl_players_table_shape players lg) as [d4 [l4 [R4 [_ W4]]]].
  split; [exists dfs, dt, dp, l1; auto|].
  split; [exists d2, l2; auto | exists d4, l4; auto].
Qed.

Lemma allowlisted_columns_keep_raw_text_witness :
  events_convert (D := sample_dtypes) sample_events
  /\ [team_row "sr:competitor:2817" "home" "55";
     team_row "007" "away" "45"] <> []
  /\ existsb (fun r => has_key r "starter")
       [player_row "0042" (Some "true") "1"] = true
  /\ (exists dataframes df_teams df_players lg',
        CrearDataframes.create_dataframes (D := sample_dtypes) sample_events
          [team_row "sr:competitor:2817" "home" "55";
             team_row "007" "away" "45"]
          [player_row "0042" (Some "true") "1"] []
        = (Ok dataframes, lg')
        /\ dict_get dataframes "team_statistics" = Some df_teams
        /\ dict_get dataframes "player_statistics" = Some df_players
        /\ raw_inside CrearDataframes.team_non_numeric
             [team_row "sr:competitor:2817" "home" "55";
                team_row "007" "away" "45"] df_teams
        /\ raw_inside CrearDataframes.player_non_numeric
             [player_row "0042" (Some "true") "1"] df_players)
  /\ (exists df lg',
        ETL.create_team_statistics_dataframe (D := sample_dtypes)
          [team_row "sr:competitor:2817" "home" "55";
             team_row "007" "away" "45"] [] = (Ok df, lg')
        /\ raw_inside ETL.team_non_numeric
             [team_row "sr:competitor:2817" "home" "55";
                team_row "007" "away" "45"] df)
  /\ (exists df lg',
        ETL.create_player_statistics_dataframe (D := sample_dtypes)
          [player_row "0042" (Some "true") "1"] [] = (Ok df, lg')
        /\ raw_inside ETL.player_non_numeric
             [player_row "0042" (Some "true") "1"] df).
Proof.
  assert (H1 : events_convert (D := sample_dtypes) sample_events)
    by (split; [repeat constructor | reflexivity]).
  split; [exact H1|]. split; [discriminate|]. split; [reflexivity|].
  apply (allowlisted_columns_keep_raw_text sample_dtypes sample_events
           [team_row "sr:competitor:2817" "home" "55";
              team_row "007" "away" "45"]
           [player_row "0042" (Some "true") "1"] [] H1);
    [discriminate | reflexivity].
Defined.

(** X18.  For event records whose start_time column converts, and
    whatever team and player records come with them (the player records,
    if any, having a starter key), the events table of [create_dataframes]
    has one row per record.  Its start_time column holds what the reading
    that [to_datetime] infers for the column makes of each text, null for a
    missing value; the columns home_score, away_score, attendance,
    venue_capacity and round_number hold the numeric coercion of the raw
    values (null when the text is not a number or missing); every other
    column keeps the raw text. *)
Theorem events_table_columns :
  forall (D : Dtypes) (events teams players : list pydict) (lg : log),
    events <> [] ->
    events_convert events ->
    players = []
    \/ existsb (fun r => has_key r "starter") players = true ->
    exists dataframes df lg',
      CrearDataframes.create_dataframes events teams players lg
      = (Ok dataframes, lg')
      /\ dict_get dataframes "events" = Some df
      /\ nrows df = List.length events
      /\ columns df = union_keys events
      /\ getitem df "start_time" = Ok (map (start_time_cell events) events)
      /\ (forall c, In c event_numeric_fields ->
            getitem df c = Ok (map (numeric_cell events c) events))
      /\ (forall c, In c event_fields ->
            ~ In c event_numeric_fields -> c <> "start_time" ->
            getitem df c = Ok (map (fun r => raw_cell r c) events)).
Proof.
  intros D events teams players lg Hne Hconv Hpl.
  assert (Hpl' : players = [] \/ In "starter" (union_keys players)).
  { destruct Hpl as [->|Hst]; [now left|].
    right. now apply some_record_has_key. }
  destruct (create_dataframes_blocks events teams players lg Hconv Hpl')
    as [dfs [lg' [Hrun [_ [He _]]]]].
  destruct (He Hne) as [de [l0 [l0' [R0 G0]]]].
  destruct (events_block events l0 Hne Hconv)
    as [de' [l0'' [R0' [Hn [Hc Hcols]]]]].
  assert (de' = de) by congruence. subst de'.
  exists dfs, de, lg'. split; [exact Hrun|]. split; [exact G0|].
  split; [exact Hn|]. split; [exact Hc|]. split; [|split].
  - unfold getitem, dict_getitem. rewrite Hcols by (simpl; tauto).
    reflexivity.
  - intros c Hin. unfold getitem, dict_getitem.
    rewrite Hcols.
    + apply existsb_eqb_In in Hin. rewrite Hin.
      destruct (String.eqb c "start_time") eqn:E; [|reflexivity].
      apply String.eqb_eq in E. subst c. discriminate Hin.
    + unfold event_numeric_fields, event_fields in *. simpl in *.
      intuition auto.
  - intros c Hin Hnot Hst. unfold getitem, dict_getitem.
    rewrite (Hcols c Hin).
    apply String.eqb_neq in Hst. rewrite Hst.
    apply existsb_eqb_not_In in Hnot. now rewrite Hnot.
Qed.

Lemma events_table_columns_witness :
  [event_record "sr:sport_event:1" (Some "2023-08-12T19:00:00+00:00");
     event_record "sr:sport_event:2" None] <> []
  /\ events_convert (D := sample_dtypes)
       [event_record "sr:sport_event:1" (Some "2023-08-12T19:00:00+00:00");
          event_record "sr:sport_event:2" None]
  /\ ([player_row "0042" (Some "true") "1"] = []
      \/ existsb (fun r => has_key r "starter")
           [player_row "0042" (Some "true") "1"] = true)
  /\ exists dataframes df lg',
       CrearDataframes.create_dataframes (D := sample_dtypes)
         [event_record "sr:sport_event:1" (Some "2023-08-12T19:00:00+00:00");
            event_record "sr:sport_event:2" None]
         [team_row "sr:competitor:2817" "home" "55";
            team_row "007" "away" "45"]
         [player_row "0042" (Some "true") "1"] []
       = (Ok dataframes, lg')
       /\ dict_get dataframes "events" = Some df
       /\ nrows df
          = List.length
              [event_record "sr:sport_event:1" (Some "2023-08-12T19:00:00+00:00");
                 event_record "sr:sport_event:2" None]
       /\ columns df
          = union_keys
              [event_record "sr:sport_event:1" (Some "2023-08-12T19:00:00+00:00");
                 event_record "sr:sport_event:2" None]
       /\ getitem df "start_time"
          = Ok (map (start_time_cell
                       [event_record "sr:sport_event:1" (Some "2023-08-12T19:00:00+00:00");
                          event_record "sr:sport_event:2" None])
                  [event_record "sr:sport_event:1" (Some "2023-08-12T19:00:00+00:00");
                     event_record "sr:sport_event:2" None])
       /\ (forall c, In c event_numeric_fields ->
             getitem df c
             = Ok (map (numeric_cell
                          [event_record "sr:sport_event:1" (Some "2023-08-12T19:00:00+00:00");
                             event_record "sr:sport_event:2" None] c)
                     [event_record "sr:sport_event:1" (Some "2023-08-12T19:00:00+00:00");
                        event_record "sr:sport_event:2" None]))
       /\ (forall c, In c event_fields ->
             ~ In c event_numeric_fields -> c <> "start_time" ->
             getitem df c
             = Ok (map (fun r => raw_cell r c)
                     [event_record "sr:sport_event:1" (Some "2023-08-12T19:00:00+00:00");
                        event_record "sr:sport_event:2" None])).
Proof.
  assert (H1 : [event_record "sr:sport_event:1" (Some "2023-08-12T19:00:00+00:00");
                  event_record "sr:sport_event:2" None] <> [])
    by discriminate.
  assert (H2 : events_convert (D := sample_dtypes)
                 [event_record "sr:sport_event:1" (Some "2023-08-12T19:00:00+00:00");
                    event_record "sr:sport_event:2" None])
    by (split; [repeat constructor | reflexivity]).
  assert (H3 : [player_row "0042" (Some "true") "1"] = []
               \/ existsb (fun r => has_key r "starter")
                    [player_row "0042" (Some "true") "1"] = true)
    by (right; reflexivity).
  split; [exact H1|]. split; [exact H2|]. split; [exact H3|].
  exact (events_table_columns sample_dtypes _
           [team_row "sr:competitor:2817" "home" "55";
              team_row "007" "away" "45"] _ [] H1 H2 H3).
Defined.

(** The start_time column of the two sample records: the kickoff, and
    null for the record without one. *)
Example events_table_start_time_sample :
  map (start_time_cell (D := sample_dtypes)
         [event_record "sr:sport_event:1" (Some "2023-08-12T19:00:00+00:00");
            event_record "sr:sport_event:2" None])
    [event_record "sr:sport_event:1" (Some "2023-08-12T19:00:00+00:00");
       event_record "sr:sport_event:2" None]
  = [@Time sample_dtypes 1691866800000000000%Z; Null].
Proof. reflexivity. Qed.

(** X19.  When there are player records and none of them has a starter
    key, [create_dataframes] raises KeyError for starter and returns no
    table at all, not even the tables of the events and teams it had
    built, while the ETL builder, which tests for the column first, returns
    the table without a starter column. *)
Theorem starter_column_missing :
  forall (D : Dtypes) (events teams players : list pydict) (lg : log),
    events_convert events ->
    players <> [] ->
    existsb (fun r => has_key r "starter") players = false ->
    (exists lg',
       CrearDataframes.create_dataframes events teams players lg
       = (Raise (KeyError "starter"), lg'))
    /\ exists df lg',
         ETL.create_player_statistics_dataframe players lg = (Ok df, lg')
         /\ table_of players df
         /\ ~ In "starter" (columns df).
Proof.
  intros D events teams players lg Hconv Hne Hno.
  assert (Hst : ~ In "starter" (union_keys players)).
  { intros Hin. apply In_union_keys in Hin. destruct Hin as [r [Hr Hk]].
    apply has_key_In in Hk.
    assert (Hex : existsb (fun r => has_key r "starter") players = true)
      by (apply existsb_exists; eauto).
    congruence. }
  split.
  - now apply create_dataframes_no_starter.
  - destruct (etl_players_table_shape players lg) as [df [lg' [R [T _]]]].
    exists df, lg'. split; [exact R|]. split; [now apply T|].
    destruct (T Hne) as [_ [Hc _]]. now rewrite Hc.
Qed.

Lemma starter_column_missing_witness :
  events_convert (D := sample_dtypes) sample_events
  /\ [[("event_id", Some "sr:sport_event:1");
      ("player_id", Some "sr:player:7");
      ("goals_scored", Some "2")]] <> []
  /\ existsb (fun r => has_key r "starter")
       [[("event_id", Some "sr:sport_event:1");
           ("player_id", Some "sr:player:7");
           ("goals_scored", Some "2")]] = false
  /\ (exists lg',
        CrearDataframes.create_dataframes (D := sample_dtypes) sample_events
          [team_row "sr:competitor:2817" "home" "55";
             team_row "007" "away" "45"]
          [[("event_id", Some "sr:sport_event:1");
              ("player_id", Some "sr:player:7");
              ("goals_scored", Some "2")]] []
        = (Raise (KeyError "starter"), lg'))
  /\ exists df lg',
       ETL.create_player_statistics_dataframe (D := sample_dtypes)
         [[("event_id", Some "sr:sport_event:1");
             ("player_id", Some "sr:player:7");
             ("goals_scored", Some "2")]] [] = (Ok df, lg')
       /\ table_of
            [[("event_id", Some "sr:sport_event:1");
                ("player_id", Some "sr:player:7");
                ("goals_scored", Some "2")]] df
       /\ ~ In "starter" (columns df).
Proof.
  assert (H1 : events_convert (D := sample_dtypes) sample_events)
    by (split; [repeat constructor | reflexivity]).
  split; [exact H1|]. split; [discriminate|]. split; [reflexivity|].
  apply (starter_column_missing sample_dtypes sample_events
           [team_row "sr:competitor:2817" "home" "55";
              team_row "007" "away" "45"]
           [[("event_id", Some "sr:sport_event:1");
               ("player_id", Some "sr:player:7");
               ("goals_scored", Some "2")]] [] H1);
    [discriminate | reflexivity].
Defined.

(* ================================================================= *)
(** ** The downloader: retries *)

Import Extraccion.

Lemma repeat_snoc {A} (x : A) (n : nat) :
  (repeat x n ++ [x])%list = repeat x (S n).
Proof.
  induction n as [|n IH]; simpl; [reflexivity|]. now rewrite IH.
Qed.

(** The turns of the retry loop when the first [k] requests fail and the
    next one succeeds, with turns to spare. *)
Lemma download_attempts_succeed (url text : string) (max_retries : Z) :
  forall (k a n : nat) (w : world),
    k < n ->
    (Z.of_nat (a + n) <= max_retries)%Z ->
    (forall i, i < k ->
       exists msg,
         network w (List.length (requested w) + i) url = Failure msg) ->
    network w (List.length (requested w) + k) url = Response text ->
    exists w',
      download_attempts url max_retries (seq a n) w = (Returned text, w')
      /\ network w' = network w
      /\ requested w' = (requested w ++ repeat url (k + 1))%list
      /\ slept w' = (slept w ++ repeat 2 k)%list
      /\ written w' = written w
      /\ errors_of (logged w') = errors_of (logged w)
      /\ List.length (logged w') = List.length (logged w) + k.
Proof.
  induction k as [|k IH]; intros a n w Hk Hn Hfail Hok.
  - destruct n as [|n]; [lia|]. cbn [seq download_attempts].
    unfold requests_get. rewrite Nat.add_0_r in Hok. rewrite Hok.
    eexists. split; [reflexivity|]. cbn [network requested slept written
                                         logged repeat Nat.add].
    rewrite app_nil_r. repeat split; auto.
  - destruct n as [|n]; [lia|]. cbn [seq download_attempts].
    unfold requests_get.
    destruct (Hfail 0 ltac:(lia)) as [msg Hmsg].
    rewrite Nat.add_0_r in Hmsg. rewrite Hmsg.
    assert (Hlt : (Z.of_nat a <? max_retries - 1)%Z = true)
      by (apply Z.ltb_lt; lia).
    rewrite Hlt. unfold nbind at 1, log_line at 1. unfold nbind at 1, sleep at 1.
    cbn [network requested slept written logged].
    match goal with
    | |- context [download_attempts _ _ _ ?w1] =>
        destruct (IH (S a) n w1) as [w' [Hrun [Hnet [Hreq [Hsl [Hwr [He Hl]]]]]]]
    end.
    + lia.
    + lia.
    + cbn [network requested]. intros i Hi.
      destruct (Hfail (S i) ltac:(lia)) as [m Hm]. exists m.
      rewrite length_app. cbn [List.length].
      now replace (List.length (requested w) + 1 + i)
        with (List.length (requested w) + S i) by lia.
    + cbn [network requested]. rewrite length_app. cbn [List.length].
      now replace (List.length (requested w) + 1 + k)
        with (List.length (requested w) + S k) by lia.
    + exists w'. split; [exact Hrun|].
      cbn [network requested slept written logged] in *.
      split; [assumption|].
      split; [rewrite Hreq, <- app_assoc; reflexivity|].
      split; [rewrite Hsl, <- app_assoc; reflexivity|].
      split; [assumption|].
      split.
      * rewrite He, errors_of_app. cbn. now rewrite app_nil_r.
      * rewrite Hl, length_app. cbn [List.length]. lia.
Qed.

(** X20.  [download_xml] returns the text of the first response that
    succeeds: when the first k requests fail and the next one succeeds,
    with k below [max_retries], it makes exactly k+1 requests, all for the
    given url, sleeps 2 seconds after each failure, logs one line per failure
    and no error, and writes no file. *)
Theorem download_xml_retries_then_succeeds :
  forall (url text : string) (max_retries : Z) (k : nat) (w : world),
    (Z.of_nat k < max_retries)%Z ->
    (forall i, i < k ->
       exists msg,
         network w (List.length (requested w) + i) url = Failure msg) ->
    network w (List.length (requested w) + k) url = Response text ->
    exists w',
      download_xml url max_retries w = (Returned text, w')
      /\ network w' = network w
      /\ requested w' = (requested w ++ repeat url (k + 1))%list
      /\ slept w' = (slept w ++ repeat 2 k)%list
      /\ written w' = written w
      /\ errors_of (logged w') = errors_of (logged w)
      /\ List.length (logged w') = List.length (logged w) + k.
Proof.
  intros url text max_retries k w Hk Hfail Hok.
  unfold download_xml.
  apply download_attempts_succeed; auto; lia.
Qed.

Lemma download_xml_retries_then_succeeds_witness :
  (Z.of_nat 2 < 3)%Z
  /\ (forall i, i < 2 ->
        exists msg,
          network flaky_world (List.length (requested flaky_world) + i)
            "https://example.org/a.xml" = Failure msg)
  /\ network flaky_world (List.length (requested flaky_world) + 2)
       "https://example.org/a.xml" = Response "<summary/>"
  /\ exists w',
       download_xml "https://example.org/a.xml" 3 flaky_world
       = (Returned "<summary/>", w')
       /\ network w' = network flaky_world
       /\ requested w'
          = (requested flaky_world
               ++ repeat "https://example.org/a.xml" (2 + 1))%list
       /\ slept w' = (slept flaky_world ++ repeat 2 2)%list
       /\ written w' = written flaky_world
       /\ errors_of (logged w') = errors_of (logged flaky_world)
       /\ List.length (logged w') = List.length (logged flaky_world) + 2.
Proof.
  assert (H1 : (Z.of_nat 2 < 3)%Z) by reflexivity.
  assert (H2 : forall i, i < 2 ->
            exists msg,
              network flaky_world (List.length (requested flaky_world) + i)
                "https://example.org/a.xml" = Failure msg).
  { intros i Hi. destruct i as [|[|i]]; [eexists; reflexivity ..|lia]. }
  assert (H3 : network flaky_world (List.length (requested flaky_world) + 2)
                 "https://example.org/a.xml" = Response "<summary/>")
    by reflexivity.
  split; [exact H1|]. split; [exact H2|]. split; [exact H3|].
  exact (download_xml_retries_then_succeeds "https://example.org/a.xml"
           "<summary/>" 3 2 flaky_world H1 H2 H3).
Defined.

(** How the retry loop can end, from any world, when it has turns left. *)
Lemma download_attempts_outcome (url : string) (max_retries : Z) :
  forall (n a : nat) (w : world),
    Z.of_nat (a + n) = max_retries ->
    0 < n ->
    exists (k : nat) (w' : world),
      k < n
      /\ network w' = network w
      /\ requested w' = (requested w ++ repeat url (k + 1))%list
      /\ slept w' = (slept w ++ repeat 2 k)%list
      /\ written w' = written w
      /\ (forall i, i < k ->
            exists msg,
              network w (List.length (requested w) + i) url = Failure msg)
      /\ ((exists text,
             download_attempts url max_retries (seq a n) w
             = (Returned text, w')
             /\ network w (List.length (requested w) + k) url = Response text
             /\ errors_of (logged w') = errors_of (logged w))
          \/ (exists msg,
                download_attempts url max_retries (seq a n) w
                = (Raised (RequestException msg), w')
                /\ S k = n
                /\ network w (List.length (requested w) + k) url
                   = Failure msg
                /\ errors_of (logged w')
                   = (errors_of (logged w)
                      ++ [("Error descargando " ++ url ++ ": " ++ msg)
                            %string])%list)).
Proof.
  induction n as [|n IH]; intros a w Ha Hn; [lia|].
  cbn [seq download_attempts]. unfold requests_get.
  destruct (network w (List.length (requested w)) url) as [text|msg] eqn:Hnet.
  - exists 0.
    exists {| network := network w;
              requested := (requested w ++ [url])%list;
              slept := slept w; written := written w;
              logged := logged w |}.
    cbn [network requested slept written logged repeat Nat.add].
    rewrite app_nil_r, Nat.add_0_r.
    split; [lia|]. do 4 (split; [reflexivity|]).
    split; [intros i Hi; lia|].
    left. exists text. repeat split; auto.
  - destruct n as [|n].
    + assert (Hlt : (Z.of_nat a <? max_retries - 1)%Z = false)
        by (apply Z.ltb_ge; lia).
      rewrite Hlt. exists 0.
      exists {| network := network w;
                requested := (requested w ++ [url])%list;
                slept := slept w; written := written w;
                logged := (logged w
                           ++ [(ERROR, ("Error descargando " ++ url ++ ": "
                                        ++ msg)%string)])%list |}.
      unfold nbind, log_line, throw.
      cbn [network requested slept written logged repeat Nat.add].
      rewrite app_nil_r, Nat.add_0_r.
      split; [lia|]. do 4 (split; [reflexivity|]).
      split; [intros i Hi; lia|].
      right. exists msg. split; [reflexivity|]. split; [reflexivity|].
      split; [assumption|].
      rewrite errors_of_app. reflexivity.
    + assert (Hlt : (Z.of_nat a <? max_retries - 1)%Z = true)
        by (apply Z.ltb_lt; lia).
      rewrite Hlt. unfold nbind at 1, log_line at 1.
      unfold nbind at 1, sleep at 1.
      cbn [network requested slept written logged].
      match goal with
      | |- context [download_attempts _ _ _ ?w1] =>
          destruct (IH (S a) w1 ltac:(lia) ltac:(lia))
            as [k [w' [Hk [Hn' [Hreq [Hsl [Hwr [Hfail Hend]]]]]]]]
      end.
      cbn [network requested slept written logged] in *.
      rewrite length_app in Hfail, Hend. cbn [List.length] in Hfail, Hend.
      exists (S k), w'. split; [lia|]. split; [assumption|].
      split; [rewrite Hreq, <- app_assoc; reflexivity|].
      split; [rewrite Hsl, <- app_assoc; reflexivity|].
      split; [assumption|].
      split.
      { intros i Hi. destruct i as [|i].
        - exists msg. now rewrite Nat.add_0_r.
        - destruct (Hfail i ltac:(lia)) as [m Hm]. exists m.
          now replace (List.length (requested w) + S i)
            with (List.length (requested w) + 1 + i) by lia. }
      replace (List.length (requested w) + S k)
        with (List.length (requested w) + 1 + k) by lia.
      destruct Hend as [[text [Hrun [Hres He]]]|[m [Hrun [Hlast [Hres He]]]]].
      * left. exists text. split; [exact Hrun|]. split; [exact Hres|].
        rewrite He, errors_of_app. cbn. now rewrite app_nil_r.
      * right. exists m. split; [exact Hrun|]. split; [lia|].
        split; [exact Hres|].
        rewrite He, errors_of_app. cbn. now rewrite app_nil_r.
Qed.

(** X21.  When every one of the [max_retries] requests fails,
    [download_xml] raises the [RequestException] of the last one, after
    exactly [max_retries] requests for the url, a 2 second sleep after each
    failure but the last, and one error line naming the url and the last
    failure.  No file is written. *)
Theorem download_xml_exhausts_retries :
  forall (url : string) (max_retries : Z) (w : world),
    (1 <= max_retries)%Z ->
    (forall i, i < Z.to_nat max_retries ->
       exists msg,
         network w (List.length (requested w) + i) url = Failure msg) ->
    exists (msg : string) (w' : world),
      download_xml url max_retries w = (Raised (RequestException msg), w')
      /\ network w (List.length (requested w) + (Z.to_nat max_retries - 1))
           url = Failure msg
      /\ network w' = network w
      /\ requested w'
         = (requested w ++ repeat url (Z.to_nat max_retries))%list
      /\ slept w' = (slept w ++ repeat 2 (Z.to_nat max_retries - 1))%list
      /\ written w' = written w
      /\ errors_of (logged w')
         = (errors_of (logged w)
            ++ [("Error descargando " ++ url ++ ": " ++ msg)%string])%list.
Proof.
  intros url max_retries w Hmr Hfail. unfold download_xml.
  destruct (download_attempts_outcome url max_retries
              (Z.to_nat max_retries) 0 w ltac:(lia) ltac:(lia))
    as [k [w' [Hk [Hnet [Hreq [Hsl [Hwr [_ Hend]]]]]]]].
  destruct Hend as [[text [_ [Hres _]]]|[msg [Hrun [Hlast [Hres He]]]]].
  - destruct (Hfail k Hk) as [m Hm]. congruence.
  - exists msg, w'.
    replace (Z.to_nat max_retries - 1) with k by lia.
    replace (Z.to_nat max_retries) with (k + 1) at 2 by lia.
    repeat (split; [assumption|]). assumption.
Qed.

Lemma download_xml_exhausts_retries_witness :
  (1 <= 3)%Z
  /\ (forall i, i < Z.to_nat 3 ->
        exists msg,
          network dead_world (List.length (requested dead_world) + i)
            "https://example.org/a.xml" = Failure msg)
  /\ exists (msg : string) (w' : world),
       download_xml "https://example.org/a.xml" 3 dead_world
       = (Raised (RequestException msg), w')
       /\ network dead_world
            (List.length (requested dead_world) + (Z.to_nat 3 - 1))
            "https://example.org/a.xml" = Failure msg
       /\ network w' = network dead_world
       /\ requested w'
          = (requested dead_world
             ++ repeat "https://example.org/a.xml" (Z.to_nat 3))%list
       /\ slept w' = (slept dead_world ++ repeat 2 (Z.to_nat 3 - 1))%list
       /\ written w' = written dead_world
       /\ errors_of (logged w')
          = (errors_of (logged dead_world)
             ++ [("Error descargando " ++ "https://example.org/a.xml" ++ ": "
                  ++ msg)%string])%list.
Proof.
  assert (H1 : (1 <= 3)%Z) by lia.
  assert (H2 : forall i, i < Z.to_nat 3 ->
            exists msg,
              network dead_world (List.length (requested dead_world) + i)
                "https://example.org/a.xml" = Failure msg).
  { intros i _. eexists. reflexivity. }
  split; [exact H1|]. split; [exact H2|].
  exact (download_xml_exhausts_retries "https://example.org/a.xml" 3
           dead_world H1 H2).
Defined.

(** X22.  However the network behaves, [download_xml] makes at most
    [max_retries] requests, all for the given url, sleeps 2 seconds between
    consecutive requests and writes no file.  It ends in one of three ways:
    with the empty text and no request at all when [max_retries] is not
    positive; with the text of the last request, which succeeded; or with
    the [RequestException] of the last request, which was request number
    [max_retries].  It raises nothing else. *)
Theorem download_xml_outcome :
  forall (url : string) (max_retries : Z) (w : world),
    exists (k : nat) (w' : world),
      (Z.of_nat k <= Z.max 0 max_retries)%Z
      /\ network w' = network w
      /\ requested w' = (requested w ++ repeat url k)%list
      /\ slept w' = (slept w ++ repeat 2 (k - 1))%list
      /\ written w' = written w
      /\ ((download_xml url max_retries w = (Returned "", w')
           /\ k = 0 /\ (max_retries <= 0)%Z /\ w' = w)
          \/ (exists text,
                download_xml url max_retries w = (Returned text, w')
                /\ 0 < k
                /\ network w (List.length (requested w) + (k - 1)) url
                   = Response text
                /\ errors_of (logged w') = errors_of (logged w))
          \/ (exists msg,
                download_xml url max_retries w
                = (Raised (RequestException msg), w')
                /\ 0 < k
                /\ Z.of_nat k = max_retries
                /\ network w (List.length (requested w) + (k - 1)) url
                   = Failure msg
                /\ errors_of (logged w')
                   = (errors_of (logged w)
                      ++ [("Error descargando " ++ url ++ ": " ++ msg)
                            %string])%list)).
Proof.
  intros url max_retries w. unfold download_xml.
  destruct (Z_le_gt_dec max_retries 0) as [Hle|Hgt].
  - exists 0, w. replace (Z.to_nat max_retries) with 0 by lia.
    cbn [seq download_attempts repeat Nat.sub]. rewrite !app_nil_r.
    split; [lia|]. do 4 (split; [reflexivity|]).
    left. repeat split; auto.
  - destruct (download_attempts_outcome url max_retries
                (Z.to_nat max_retries) 0 w ltac:(lia) ltac:(lia))
      as [k [w' [Hk [Hnet [Hreq [Hsl [Hwr [_ Hend]]]]]]]].
    exists (k + 1), w'. replace (k + 1 - 1) with k by lia.
    split; [lia|]. do 4 (split; [assumption|]).
    right.
    destruct Hend as [[text [Hrun [Hres He]]]|[msg [Hrun [Hlast [Hres He]]]]].
    + left. exists text. repeat split; auto. lia.
    + right. exists msg. repeat split; auto; lia.
Qed.

(** ** The downloader: reading the schedule *)

Lemma home_is_not_away (v : pyval) :
  val_eqb v "home" = true -> val_eqb v "away" = false.
Proof.
  destruct v as [s|]; cbn [val_eqb]; [|discriminate].
  intros H. apply String.eqb_eq in H. subst s. reflexivity.
Qed.

(** The competitor loop keeps, for each side, the name of the last
    competitor with that qualifier. *)
Lemma name_side_fold (competitors : list Element) :
  forall home_team away_team : pyval,
    fold_left name_side competitors (home_team, away_team)
    = (match last_with_qualifier "home" competitors with
       | Some c => Element_get c "name"
       | None => home_team
       end,
       match last_with_qualifier "away" competitors with
       | Some c => Element_get c "name"
       | None => away_team
       end).
Proof.
  induction competitors as [|c cs IH]; intros h a; [reflexivity|].
  cbn [fold_left last_with_qualifier]. unfold name_side at 2.
  cbn [fst snd].
  destruct (val_eqb (Element_get c "qualifier") "home") eqn:Hh.
  - rewrite (home_is_not_away _ Hh), IH.
    destruct (last_with_qualifier "home" cs),
             (last_with_qualifier "away" cs); reflexivity.
  - destruct (val_eqb (Element_get c "qualifier") "away") eqn:Ha;
      rewrite IH;
      destruct (last_with_qualifier "home" cs),
               (last_with_qualifier "away" cs); reflexivity.
Qed.

Lemma schedule_event_step (events : list pydict) (schedule : Element) :
  schedule_event events schedule
  = (events
     ++ map schedule_record
          match Element_find schedule [Descendant (ns "sport_event")] with
          | Some sport_event => [sport_event]
          | None => []
          end)%list.
Proof.
  unfold schedule_event.
  destruct (Element_find schedule [Descendant (ns "sport_event")])
    as [sport_event|]; cbn [map]; [|now rewrite app_nil_r].
  rewrite name_side_fold. reflexivity.
Qed.

Lemma schedule_event_fold (schedules : list Element) :
  forall events : list pydict,
    fold_left schedule_event schedules events
    = (events
       ++ map schedule_record
            (flat_map
               (fun schedule =>
                  match Element_find schedule
                          [Descendant (ns "sport_event")] with
                  | Some sport_event => [sport_event]
                  | None => []
                  end) schedules))%list.
Proof.
  induction schedules as [|s rest IH]; intros events;
    cbn [fold_left flat_map map]; [now rewrite app_nil_r|].
  rewrite IH, schedule_event_step, map_app, app_assoc. reflexivity.
Qed.

Lemma parse_events_from_schedule_parsed
  (fromstring : string -> Element + string) (xml_content : string)
  (root : Element) (w : world) :
  fromstring xml_content = inl root ->
  parse_events_from_schedule fromstring xml_content w
  = (Returned (map schedule_record (scheduled_events root)),
     snd (log_line INFO
            ("Encontrados "
             ++ str_of_nat (List.length (scheduled_events root))
             ++ " eventos en el schedule.") w)).
Proof.
  intros Hroot. unfold parse_events_from_schedule. rewrite Hroot.
  rewrite schedule_event_fold. cbn [app].
  fold (scheduled_events root). rewrite length_map. reflexivity.
Qed.

(** X23.  On a text that parses, [parse_events_from_schedule] returns one
    record per schedule node that has an event node below it, in document
    order, each with exactly the keys id, home and away: the id attribute of
    the first such event node, and for each side the name of the last
    competitor below it with that qualifier, or the text Unknown when no
    competitor has it.  It logs one info line with the count and changes
    nothing else. *)
Theorem parse_events_from_schedule_records :
  forall (fromstring : string -> Element + string) (xml_content : string)
         (root : Element) (w : world),
    fromstring xml_content = inl root ->
    exists w',
      parse_events_from_schedule fromstring xml_content w
      = (Returned (map schedule_record (scheduled_events root)), w')
      /\ logged w'
         = (logged w
            ++ [(INFO,
                 ("Encontrados "
                  ++ str_of_nat (List.length (scheduled_events root))
                  ++ " eventos en el schedule.")%string)])%list
      /\ network w' = network w
      /\ requested w' = requested w
      /\ slept w' = slept w
      /\ written w' = written w.
Proof.
  intros fromstring xml_content root w Hroot.
  rewrite (parse_events_from_schedule_parsed _ _ _ w Hroot).
  eexists. split; [reflexivity|]. repeat split.
Qed.

Lemma parse_events_from_schedule_records_witness :
  sample_fromstring "<schedule/>" = inl schedule_doc
  /\ exists w',
       parse_events_from_schedule sample_fromstring "<schedule/>"
         online_world
       = (Returned (map schedule_record (scheduled_events schedule_doc)), w')
       /\ logged w'
          = (logged online_world
             ++ [(INFO,
                  ("Encontrados "
                   ++ str_of_nat
                        (List.length (scheduled_events schedule_doc))
                   ++ " eventos en el schedule.")%string)])%list
       /\ network w' = network online_world
       /\ requested w' = requested online_world
       /\ slept w' = slept online_world
       /\ written w' = written online_world.
Proof.
  assert (H : sample_fromstring "<schedule/>" = inl schedule_doc)
    by reflexivity.
  split; [exact H|].
  exact (parse_events_from_schedule_records sample_fromstring "<schedule/>"
           schedule_doc online_world H).
Defined.

(** The records of the sample schedule. *)
Example schedule_doc_records :
  map schedule_record (scheduled_events schedule_doc)
  = [[("id", Some "sr:sport_event:1"); ("home", Some "Alpha");
      ("away", Some "Beta")];
     [("id", Some "sr:sport_event:2"); ("home", Some "Unknown");
      ("away", Some "Unknown")]].
Proof. vm_compute. reflexivity. Qed.

(** ** The downloader: saving a summary *)

(** [download_event_summary] in terms of the download it makes. *)
Lemma download_event_summary_run (event_id home_team away_team : pyval)
  (w : world) :
  download_event_summary event_id home_team away_team w
  = match download_xml (summary_url (py_str event_id)) 3
            (snd (log_line INFO
                    ("Descargando juego " ++ py_str event_id ++ ": "
                     ++ py_str home_team ++ " vs " ++ py_str away_team) w))
    with
    | (Returned xml_content, w2) =>
        match event_id with
        | None =>
            (Raised (Other (AttributeError
               "'NoneType' object has no attribute 'replace'")), w2)
        | Some id =>
            (Returned true,
             snd (log_line INFO ("✓ Guardado: " ++ replace_colons id ++ ".xml")
                    (snd (write_file
                            (in_games_folder (replace_colons id ++ ".xml"))
                            xml_content w2))))
        end
    | (Raised (RequestException e), w2) =>
        (Returned false,
         snd (log_line ERROR
                ("✗ Error descargando " ++ py_str event_id ++ ": " ++ e) w2))
    | (Raised (Other e), w2) => (Raised (Other e), w2)
    end.
Proof.
  unfold download_event_summary, summary_url.
  unfold nbind at 1. unfold log_line at 1. cbn [snd].
  unfold nbind at 1. unfold log_line at 3. cbn [snd].
  destruct (download_xml _ 3 _) as [[text|[e|e]] w2].
  - destruct event_id as [id|]; reflexivity.
  - reflexivity.
  - reflexivity.
Qed.

Lemma free_of_head (c a : ascii) (s : string) :
  free_of c (String a s) = true -> a <> c.
Proof.
  cbn [free_of]. intros H Heq. subst a. rewrite Ascii.eqb_refl in H.
  discriminate.
Qed.

(** A file name that does not start with a slash lands in the games
    folder. *)
Lemma in_games_folder_relative (filename : string) :
  match filename with
  | String c _ => c <> "/"%char
  | EmptyString => True
  end ->
  in_games_folder filename = ("ETL/games/" ++ filename)%string.
Proof.
  destruct filename as [|c rest]; [reflexivity|]. intros Hc.
  destruct c as [[] [] [] [] [] [] [] []];
    try reflexivity; exfalso; apply Hc; reflexivity.
Qed.

Lemma replace_colons_free_of_colon (s : string) :
  free_of ":" (replace_colons s) = true.
Proof.
  induction s as [|c rest IH]; [reflexivity|].
  cbn [replace_colons free_of]. rewrite IH, andb_true_r.
  destruct (Ascii.eqb c ":") eqn:E; [reflexivity|]. now rewrite E.
Qed.

Lemma games_path (id : string) :
  free_of "/" id = true ->
  in_games_folder (replace_colons id ++ ".xml")
  = ("ETL/games/" ++ replace_colons id ++ ".xml")%string.
Proof.
  intros Hfree. apply in_games_folder_relative.
  destruct id as [|c rest]; [cbn; discriminate|].
  cbn [replace_colons String.append].
  apply free_of_head in Hfree.
  destruct (Ascii.eqb c ":"); [discriminate|assumption].
Qed.

(** The world fields that a log line leaves alone. *)
Lemma log_line_frame (l : level) (msg : string) (w : world) :
  network (snd (log_line l msg w)) = network w
  /\ requested (snd (log_line l msg w)) = requested w
  /\ slept (snd (log_line l msg w)) = slept w
  /\ written (snd (log_line l msg w)) = written w
  /\ logged (snd (log_line l msg w)) = (logged w ++ [(l, msg)])%list.
Proof. repeat split. Qed.

(** X24.  When the request for an event's summary succeeds within the three
    attempts and the id has no slash, [download_event_summary] returns
    [True] and writes exactly one file (the write being taken to succeed):
    the response text, at ETL/games/<id>.xml with every colon of the id
    replaced by an underscore, so the file name has no colon.  It logs no
    error. *)
Theorem download_event_summary_saves :
  forall (id : string) (home_team away_team : pyval) (text : string)
         (k : nat) (w : world),
    free_of "/" id = true ->
    k < 3 ->
    (forall i, i < k ->
       exists msg,
         network w (List.length (requested w) + i) (summary_url id)
         = Failure msg) ->
    network w (List.length (requested w) + k) (summary_url id)
    = Response text ->
    exists w',
      download_event_summary (Some id) home_team away_team w
      = (Returned true, w')
      /\ written w'
         = (written w
            ++ [(("ETL/games/" ++ replace_colons id ++ ".xml")%string,
                 text)])%list
      /\ free_of ":" (replace_colons id) = true
      /\ requested w' = (requested w ++ repeat (summary_url id) (k + 1))%list
      /\ slept w' = (slept w ++ repeat 2 k)%list
      /\ errors_of (logged w') = errors_of (logged w)
      /\ network w' = network w.
Proof.
  intros id home_team away_team text k w Hfree Hk Hfail Hok.
  rewrite download_event_summary_run. cbn [py_str].
  match goal with
  | |- context [download_xml _ 3 ?w1] =>
      destruct (download_attempts_succeed (summary_url id) text 3 k 0 3 w1
                  Hk ltac:(lia) Hfail Hok)
        as [w2 [Hrun [Hnet [Hreq [Hsl [Hwr [He _]]]]]]]
  end.
  unfold download_xml. change (Z.to_nat 3) with 3. rewrite Hrun.
  eexists. split; [reflexivity|].
  rewrite games_path by assumption.
  cbn [snd log_line write_file network requested slept written logged]
    in *.
  split; [now rewrite Hwr|].
  split; [apply replace_colons_free_of_colon|].
  split; [assumption|]. split; [assumption|].
  split; [|assumption].
  rewrite errors_of_app, He, errors_of_app. cbn. now rewrite !app_nil_r.
Qed.

Lemma download_event_summary_saves_witness :
  free_of "/" "sr:sport_event:1" = true
  /\ 2 < 3
  /\ (forall i, i < 2 ->
        exists msg,
          network flaky_world (List.length (requested flaky_world) + i)
            (summary_url "sr:sport_event:1") = Failure msg)
  /\ network flaky_world (List.length (requested flaky_world) + 2)
       (summary_url "sr:sport_event:1") = Response "<summary/>"
  /\ exists w',
       download_event_summary (Some "sr:sport_event:1") (Some "Alpha")
         (Some "Beta") flaky_world
       = (Returned true, w')
       /\ written w'
          = (written flaky_world
             ++ [(("ETL/games/" ++ replace_colons "sr:sport_event:1"
                   ++ ".xml")%string, "<summary/>")])%list
       /\ free_of ":" (replace_colons "sr:sport_event:1") = true
       /\ requested w'
          = (requested flaky_world
             ++ repeat (summary_url "sr:sport_event:1") (2 + 1))%list
       /\ slept w' = (slept flaky_world ++ repeat 2 2)%list
       /\ errors_of (logged w') = errors_of (logged flaky_world)
       /\ network w' = network flaky_world.
Proof.
  assert (H1 : free_of "/" "sr:sport_event:1" = true) by reflexivity.
  assert (H2 : 2 < 3) by lia.
  assert (H3 : forall i, i < 2 ->
            exists msg,
              network flaky_world (List.length (requested flaky_world) + i)
                (summary_url "sr:sport_event:1") = Failure msg).
  { intros i Hi. destruct i as [|[|i]]; [eexists; reflexivity ..|lia]. }
  assert (H4 : network flaky_world (List.length (requested flaky_world) + 2)
                 (summary_url "sr:sport_event:1") = Response "<summary/>")
    by reflexivity.
  split; [exact H1|]. split; [exact H2|]. split; [exact H3|].
  split; [exact H4|].
  exact (download_event_summary_saves "sr:sport_event:1" (Some "Alpha")
           (Some "Beta") "<summary/>" 2 flaky_world H1 H2 H3 H4).
Defined.

(** The file name of the sample event. *)
Example replace_colons_sample :
  replace_colons "sr:sport_event:1" = "sr_sport_event_1".
Proof. reflexivity. Qed.

(** X25.  When the three requests for an event's summary all fail,
    [download_event_summary] does not raise: it returns [False], writes no
    file and logs two errors, the one of [download_xml] naming the url and
    its own naming the event, both with the message of the third failure.
    This holds whether or not the event has an id. *)
Theorem download_event_summary_gives_up :
  forall (event_id home_team away_team : pyval) (w : world),
    (forall i, i < 3 ->
       exists msg,
         network w (List.length (requested w) + i)
           (summary_url (py_str event_id)) = Failure msg) ->
    exists (msg : string) (w' : world),
      download_event_summary event_id home_team away_team w
      = (Returned false, w')
      /\ network w (List.length (requested w) + 2)
           (summary_url (py_str event_id)) = Failure msg
      /\ written w' = written w
      /\ requested w'
         = (requested w ++ repeat (summary_url (py_str event_id)) 3)%list
      /\ slept w' = (slept w ++ [2; 2])%list
      /\ errors_of (logged w')
         = (errors_of (logged w)
            ++ [("Error descargando " ++ summary_url (py_str event_id)
                 ++ ": " ++ msg)%string;
                ("✗ Error descargando " ++ py_str event_id ++ ": " ++ msg)
                  %string])%list
      /\ network w' = network w.
Proof.
  intros event_id home_team away_team w Hfail.
  rewrite download_event_summary_run.
  match goal with
  | |- context [download_xml ?url 3 ?w1] =>
      destruct (download_attempts_outcome url 3 3 0 w1 eq_refl ltac:(lia))
        as [k [w2 [Hk [Hnet [Hreq [Hsl [Hwr [_ Hend]]]]]]]]
  end.
  unfold download_xml. change (Z.to_nat 3) with 3.
  cbn [snd log_line network requested slept written logged] in *.
  destruct Hend as [[text [_ [Hres _]]]|[msg [Hrun [Hlast [Hres He]]]]].
  - destruct (Hfail k Hk) as [m Hm]. congruence.
  - assert (k = 2) by lia. subst k. rewrite Hrun.
    exists msg. eexists. split; [reflexivity|].
    cbn [snd log_line network requested slept written logged].
    split; [assumption|]. split; [assumption|]. split; [assumption|].
    split; [assumption|]. split; [|assumption].
    rewrite errors_of_app, He, errors_of_app. cbn.
    rewrite !app_nil_r, <- app_assoc. reflexivity.
Qed.

Lemma download_event_summary_gives_up_witness :
  (forall i, i < 3 ->
     exists msg,
       network dead_world (List.length (requested dead_world) + i)
         (summary_url (py_str (Some "sr:sport_event:1"))) = Failure msg)
  /\ exists (msg : string) (w' : world),
       download_event_summary (Some "sr:sport_event:1") (Some "Alpha")
         (Some "Beta") dead_world
       = (Returned false, w')
       /\ network dead_world (List.length (requested dead_world) + 2)
            (summary_url (py_str (Some "sr:sport_event:1"))) = Failure msg
       /\ written w' = written dead_world
       /\ requested w'
          = (requested dead_world
             ++ repeat (summary_url (py_str (Some "sr:sport_event:1"))) 3)
              %list
       /\ slept w' = (slept dead_world ++ [2; 2])%list
       /\ errors_of (logged w')
          = (errors_of (logged dead_world)
             ++ [("Error descargando "
                  ++ summary_url (py_str (Some "sr:sport_event:1"))
                  ++ ": " ++ msg)%string;
                 ("✗ Error descargando " ++ py_str (Some "sr:sport_event:1")
                  ++ ": " ++ msg)%string])%list
       /\ network w' = network dead_world.
Proof.
  assert (H : forall i, i < 3 ->
            exists msg,
              network dead_world (List.length (requested dead_world) + i)
                (summary_url (py_str (Some "sr:sport_event:1")))
              = Failure msg).
  { intros i _. eexists. reflexivity. }
  split; [exact H|].
  exact (download_event_summary_gives_up (Some "sr:sport_event:1")
           (Some "Alpha") (Some "Beta") dead_world H).
Defined.

(** X26.  For an event without an id, [download_event_summary] still asks
    for the summary, at the url built from the text None; when that request
    is answered, the call raises an [AttributeError] instead of returning,
    and no file is written. *)
Theorem download_event_summary_without_id :
  forall (home_team away_team : pyval) (text : string) (k : nat)
         (w : world),
    k < 3 ->
    (forall i, i < k ->
       exists msg,
         network w (List.length (requested w) + i) (summary_url "None")
         = Failure msg) ->
    network w (List.length (requested w) + k) (summary_url "None")
    = Response text ->
    exists w',
      download_event_summary None home_team away_team w
      = (Raised (Other (AttributeError
           "'NoneType' object has no attribute 'replace'")), w')
      /\ written w' = written w
      /\ requested w'
         = (requested w ++ repeat (summary_url "None") (k + 1))%list
      /\ network w' = network w.
Proof.
  intros home_team away_team text k w Hk Hfail Hok.
  rewrite download_event_summary_run. cbn [py_str].
  match goal with
  | |- context [download_xml _ 3 ?w1] =>
      destruct (download_attempts_succeed (summary_url "None") text 3 k 0 3
                  w1 Hk ltac:(lia) Hfail Hok)
        as [w2 [Hrun [Hnet [Hreq [Hsl [Hwr [He _]]]]]]]
  end.
  unfold download_xml. change (Z.to_nat 3) with 3. rewrite Hrun.
  exists w2. split; [reflexivity|].
  cbn [snd log_line network requested slept written logged] in *.
  repeat split; assumption.
Qed.

Lemma download_event_summary_without_id_witness :
  0 < 3
  /\ (forall i, i < 0 ->
        exists msg,
          network online_world (List.length (requested online_world) + i)
            (summary_url "None") = Failure msg)
  /\ network online_world (List.length (requested online_world) + 0)
       (summary_url "None") = Response "<schedule/>"
  /\ exists w',
       download_event_summary None (Some "Alpha") (Some "Beta") online_world
       = (Raised (Other (AttributeError
            "'NoneType' object has no attribute 'replace'")), w')
       /\ written w' = written online_world
       /\ requested w'
          = (requested online_world
             ++ repeat (summary_url "None") (0 + 1))%list
       /\ network w' = network online_world.
Proof.
  assert (H1 : 0 < 3) by lia.
  assert (H2 : forall i, i < 0 ->
            exists msg,
              network online_world
                (List.length (requested online_world) + i)
                (summary_url "None") = Failure msg).
  { intros i Hi. lia. }
  assert (H3 : network online_world
                 (List.length (requested online_world) + 0)
                 (summary_url "None") = Response "<schedule/>")
    by reflexivity.
  split; [exact H1|]. split; [exact H2|]. split; [exact H3|].
  exact (download_event_summary_without_id (Some "Alpha") (Some "Beta")
           "<schedule/>" 0 online_world H1 H2 H3).
Defined.

(** How one summary download can end, from any world. *)
Lemma download_event_summary_outcome (event_id home_team away_team : pyval)
  (w : world) :
  exists w',
    network w' = network w
    /\ ((exists id,
           event_id = Some id
           /\ download_event_summary event_id home_team away_team w
              = (Returned true, w')
           /\ List.length (written w') = List.length (written w) + 1)
        \/ (download_event_summary event_id home_team away_team w
            = (Returned false, w')
            /\ written w' = written w)
        \/ (event_id = None
            /\ download_event_summary event_id home_team away_team w
               = (Raised (Other (AttributeError
                    "'NoneType' object has no attribute 'replace'")), w')
            /\ written w' = written w)).
Proof.
  rewrite download_event_summary_run.
  match goal with
  | |- context [download_xml ?url 3 ?w1] =>
      destruct (download_attempts_outcome url 3 3 0 w1 eq_refl ltac:(lia))
        as [k [w2 [Hk [Hnet [Hreq [Hsl [Hwr [_ Hend]]]]]]]]
  end.
  unfold download_xml. change (Z.to_nat 3) with 3.
  cbn [snd log_line network requested slept written logged] in *.
  destruct Hend as [[text [Hrun _]]|[msg [Hrun _]]]; rewrite Hrun.
  - destruct event_id as [id|].
    + eexists. split; [|left; exists id; split; [reflexivity|];
                         split; [reflexivity|]].
      * cbn [snd log_line write_file network]. assumption.
      * cbn [snd log_line write_file written]. rewrite length_app, Hwr.
        reflexivity.
    + exists w2. split; [assumption|]. right. right. auto.
  - eexists. split; [|right; left; split; [reflexivity|]].
    + cbn [snd log_line network]. assumption.
    + cbn [snd log_line written]. assumption.
Qed.

(** ** The downloader: a season *)

(** One turn of the download loop on a record of the schedule. *)
Lemma download_events_cons (total idx : nat) (id home away : pyval)
  (rest : list pydict) (successful_downloads : nat) (w : world) :
  download_events total idx
    ([("id", id); ("home", home); ("away", away)] :: rest)
    successful_downloads w
  = match download_event_summary id home away
            (snd (log_line INFO
                    ("[" ++ str_of_nat idx ++ "/" ++ str_of_nat total
                     ++ "] Procesando evento...") w)) with
    | (Returned ok, w2) =>
        download_events total (idx + 1) rest
          (if ok then successful_downloads + 1 else successful_downloads)
          (if (idx <? total)%nat then snd (sleep SLEEP_SECONDS w2) else w2)
    | (Raised e, w2) => (Raised e, w2)
    end.
Proof.
  cbn [download_events]. unfold nbind at 1. unfold log_line at 1.
  cbn [snd]. unfold event_field.
  change (dict_get [("id", id); ("home", home); ("away", away)] "id")
    with (Some id).
  change (dict_get [("id", id); ("home", home); ("away", away)] "home")
    with (Some home).
  change (dict_get [("id", id); ("home", home); ("away", away)] "away")
    with (Some away).
  unfold nbind at 1, nret at 1. unfold nbind at 1, nret at 1.
  unfold nbind at 1, nret at 1. unfold nbind at 1.
  unfold log_line at 1. cbn [snd].
  destruct (download_event_summary id home away _) as [[ok|e] w2];
    [|reflexivity].
  unfold nbind at 1.
  destruct (idx <? total)%nat; reflexivity.
Qed.

Lemma sleep_frame (seconds : nat) (w : world) :
  network (snd (sleep seconds w)) = network w
  /\ requested (snd (sleep seconds w)) = requested w
  /\ slept (snd (sleep seconds w)) = (slept w ++ [seconds])%list
  /\ written (snd (sleep seconds w)) = written w
  /\ logged (snd (sleep seconds w)) = logged w.
Proof. repeat split. Qed.

(** How the download loop can end, from any world: with a count that grew
    by the number of files written, or with the [AttributeError] of a record
    without an id. *)
Lemma download_events_outcome (total : nat) (nodes : list Element) :
  forall (idx successful_downloads : nat) (w : world),
    exists w',
      network w' = network w
      /\ ((exists n,
             download_events total idx (map schedule_record nodes)
               successful_downloads w
             = (Returned n, w')
             /\ successful_downloads <= n
             /\ n <= successful_downloads + List.length nodes
             /\ List.length (written w')
                = List.length (written w) + (n - successful_downloads))
          \/ (download_events total idx (map schedule_record nodes)
                successful_downloads w
              = (Raised (Other (AttributeError
                   "'NoneType' object has no attribute 'replace'")), w')
              /\ Exists (fun node => Element_get node "id" = None) nodes)).
Proof.
  induction nodes as [|node rest IH]; intros idx n0 w.
  - exists w. split; [reflexivity|]. left. exists n0.
    cbn [map download_events List.length]. unfold nret.
    repeat split; lia.
  - cbn [map].
    change (schedule_record node)
      with [("id", Element_get node "id"); ("home", side_name "home" node);
            ("away", side_name "away" node)].
    rewrite download_events_cons.
    match goal with
    | |- context [download_event_summary ?i ?h ?a ?w1] =>
        destruct (download_event_summary_outcome i h a w1)
          as [w2 [Hnet [[id [Hid [Hrun Hwr]]]|[[Hrun Hwr]|[Hid [Hrun Hwr]]]]]]
    end.
    + rewrite Hrun.
      match goal with
      | |- context [download_events total (idx + 1) _ ?n1 ?w3] =>
          destruct (IH (idx + 1) n1 w3)
            as [w' [Hnet' [[n [Hrun' [Hle [Hub Hwr']]]]|[Hrun' Hex]]]]
      end.
      * exists w'. split.
        { rewrite Hnet'. destruct (idx <? total)%nat; exact Hnet. }
        left. exists n. split; [exact Hrun'|].
        cbn [List.length]. split; [lia|]. split; [lia|].
        rewrite Hwr'.
        replace (List.length
                   (written (if (idx <? total)%nat
                             then snd (sleep SLEEP_SECONDS w2) else w2)))
          with (List.length (written w2))
          by (destruct (idx <? total)%nat; reflexivity).
        rewrite Hwr. cbn [snd log_line written]. lia.
      * exists w'. split.
        { rewrite Hnet'. destruct (idx <? total)%nat; exact Hnet. }
        right. split; [exact Hrun'|]. now apply Exists_cons_tl.
    + rewrite Hrun.
      match goal with
      | |- context [download_events total (idx + 1) _ ?n1 ?w3] =>
          destruct (IH (idx + 1) n1 w3)
            as [w' [Hnet' [[n [Hrun' [Hle [Hub Hwr']]]]|[Hrun' Hex]]]]
      end.
      * exists w'. split.
        { rewrite Hnet'. destruct (idx <? total)%nat; exact Hnet. }
        left. exists n. split; [exact Hrun'|].
        cbn [List.length]. split; [lia|]. split; [lia|].
        rewrite Hwr'.
        replace (List.length
                   (written (if (idx <? total)%nat
                             then snd (sleep SLEEP_SECONDS w2) else w2)))
          with (List.length (written w2))
          by (destruct (idx <? total)%nat; reflexivity).
        rewrite Hwr. cbn [snd log_line written]. lia.
      * exists w'. split.
        { rewrite Hnet'. destruct (idx <? total)%nat; exact Hnet. }
        right. split; [exact Hrun'|]. now apply Exists_cons_tl.
    + rewrite Hrun. exists w2. split; [exact Hnet|]. right.
      split; [reflexivity|]. apply Exists_cons_hd. exact Hid.
Qed.

(** [process_season] in terms of the schedule download, the parse and the
    download loop. *)
Lemma process_season_run (fromstring : string -> Element + string)
  (season_id : string) (w : world) :
  process_season fromstring season_id w
  = match download_xml (schedules_url season_id) 3
            (season_opened season_id w) with
    | (Raised (RequestException _), w1) =>
        (Returned 0,
         snd (log_line ERROR
                ("No se pudo obtener el schedule de " ++ season_id
                 ++ ". Saltando temporada.") w1))
    | (Raised (Other e), w1) => (Raised (Other e), w1)
    | (Returned schedules_xml, w1) =>
        match fromstring schedules_xml with
        | inr e =>
            (Returned 0,
             snd (log_line WARNING
                    ("No se encontraron eventos para " ++ season_id ++ ".")
                    (snd (log_line ERROR ("Error parseando XML: " ++ e)
                            w1))))
        | inl root =>
            match scheduled_events root with
            | [] =>
                (Returned 0,
                 snd (log_line WARNING
                        ("No se encontraron eventos para " ++ season_id
                         ++ ".")
                        (snd (log_line INFO
                                ("Encontrados " ++ str_of_nat 0
                                 ++ " eventos en el schedule.") w1))))
            | _ :: _ =>
                match download_events
                        (List.length (scheduled_events root)) 1
                        (map schedule_record (scheduled_events root)) 0
                        (snd (log_line INFO
                                ("Encontrados "
                                 ++ str_of_nat
                                      (List.length (scheduled_events root))
                                 ++ " eventos en el schedule.") w1)) with
                | (Returned n, w3) =>
                    (Returned n,
                     snd (log_line INFO
                            (String "010"
                               ("Temporada " ++ season_id ++ ": "
                                ++ str_of_nat n ++ "/"
                                ++ str_of_nat
                                     (List.length (scheduled_events root))
                                ++ " eventos descargados."
                                ++ String "010" "")) w3))
                | (Raised e, w3) => (Raised e, w3)
                end
            end
        end
    end.
Proof.
  unfold process_season, season_opened, get_season_schedules, schedules_url.
  cbv beta iota delta [nbind log_line nret snd network requested slept
                       written logged].
  destruct (download_xml _ 3 _) as [[xml|[e|e]] w1]; try reflexivity.
  destruct (fromstring xml) as [root|e] eqn:Hf.
  - rewrite (parse_events_from_schedule_parsed fromstring xml root w1 Hf).
    destruct (scheduled_events root) as [|node nodes]; [reflexivity|].
    cbn [map List.length]. rewrite length_map.
    cbv beta iota delta [log_line snd].
    destruct (download_events _ 1 _ 0 _) as [[n|e] w3]; reflexivity.
  - unfold parse_events_from_schedule. rewrite Hf. reflexivity.
Qed.

(** X27.  When the three requests for a season's schedule all fail,
    [process_season] does not raise: it returns 0 after exactly those three
    requests, writes no file, and logs two errors, the one of [download_xml]
    and its own notice that the season is skipped. *)
Theorem process_season_schedule_unavailable :
  forall (fromstring : string -> Element + string) (season_id : string)
         (w : world),
    (forall i, i < 3 ->
       exists msg,
         network w (List.length (requested w) + i) (schedules_url season_id)
         = Failure msg) ->
    exists (msg : string) (w' : world),
      process_season fromstring season_id w = (Returned 0, w')
      /\ network w (List.length (requested w) + 2) (schedules_url season_id)
         = Failure msg
      /\ written w' = written w
      /\ requested w'
         = (requested w ++ repeat (schedules_url season_id) 3)%list
      /\ slept w' = (slept w ++ [2; 2])%list
      /\ errors_of (logged w')
         = (errors_of (logged w)
            ++ [("Error descargando " ++ schedules_url season_id ++ ": "
                 ++ msg)%string;
                ("No se pudo obtener el schedule de " ++ season_id
                 ++ ". Saltando temporada.")%string])%list.
Proof.
  intros fromstring season_id w Hfail. rewrite process_season_run.
  destruct (download_attempts_outcome (schedules_url season_id) 3 3 0
              (season_opened season_id w) eq_refl ltac:(lia))
    as [k [w1 [Hk [Hnet [Hreq [Hsl [Hwr [_ Hend]]]]]]]].
  unfold download_xml. change (Z.to_nat 3) with 3.
  change (network (season_opened season_id w)) with (network w) in *.
  change (requested (season_opened season_id w)) with (requested w) in *.
  change (slept (season_opened season_id w)) with (slept w) in *.
  change (written (season_opened season_id w)) with (written w) in *.
  destruct Hend as [[text [_ [Hres _]]]|[msg [Hrun [Hlast [Hres He]]]]].
  - destruct (Hfail k Hk) as [m Hm]. congruence.
  - assert (k = 2) by lia. subst k. rewrite Hrun.
    exists msg. eexists. split; [reflexivity|].
    cbn [snd log_line network requested slept written logged].
    split; [assumption|]. split; [assumption|]. split; [assumption|].
    split; [assumption|].
    rewrite errors_of_app, He. unfold season_opened, nbind, log_line.
    cbn [snd logged]. rewrite !errors_of_app. cbn.
    rewrite !app_nil_r, <- app_assoc. reflexivity.
Qed.

Lemma process_season_schedule_unavailable_witness :
  (forall i, i < 3 ->
     exists msg,
       network dead_world (List.length (requested dead_world) + i)
         (schedules_url "sr:season:118691") = Failure msg)
  /\ exists (msg : string) (w' : world),
       process_season sample_fromstring "sr:season:118691" dead_world
       = (Returned 0, w')
       /\ network dead_world (List.length (requested dead_world) + 2)
            (schedules_url "sr:season:118691") = Failure msg
       /\ written w' = written dead_world
       /\ requested w'
          = (requested dead_world
             ++ repeat (schedules_url "sr:season:118691") 3)%list
       /\ slept w' = (slept dead_world ++ [2; 2])%list
       /\ errors_of (logged w')
          = (errors_of (logged dead_world)
             ++ [("Error descargando " ++ schedules_url "sr:season:118691"
                  ++ ": " ++ msg)%string;
                 ("No se pudo obtener el schedule de " ++ "sr:season:118691"
                  ++ ". Saltando temporada.")%string])%list.
Proof.
  assert (H : forall i, i < 3 ->
            exists msg,
              network dead_world (List.length (requested dead_world) + i)
                (schedules_url "sr:season:118691") = Failure msg).
  { intros i _. eexists. reflexivity. }
  split; [exact H|].
  exact (process_season_schedule_unavailable sample_fromstring
           "sr:season:118691" dead_world H).
Defined.

(** X28.  When the schedule is downloaded but its text does not parse, or
    parses to a document with no schedule node that has an event,
    [process_season] returns 0: it makes no request beyond those for the
    schedule, never sleeps between downloads, writes no file, and its last
    log line is the warning that no events were found. *)
Theorem process_season_without_events :
  forall (fromstring : string -> Element + string) (season_id text : string)
         (k : nat) (w : world),
    k < 3 ->
    (forall i, i < k ->
       exists msg,
         network w (List.length (requested w) + i) (schedules_url season_id)
         = Failure msg) ->
    network w (List.length (requested w) + k) (schedules_url season_id)
    = Response text ->
    (exists e, fromstring text = inr e)
    \/ (exists root, fromstring text = inl root
                     /\ scheduled_events root = []) ->
    exists (w' : world) (lines : log),
      process_season fromstring season_id w = (Returned 0, w')
      /\ written w' = written w
      /\ requested w'
         = (requested w ++ repeat (schedules_url season_id) (k + 1))%list
      /\ slept w' = (slept w ++ repeat 2 k)%list
      /\ logged w'
         = (lines
            ++ [(WARNING,
                 ("No se encontraron eventos para " ++ season_id ++ ".")
                   %string)])%list.
Proof.
  intros fromstring season_id text k w Hk Hfail Hok Hnone.
  rewrite process_season_run.
  destruct (download_attempts_succeed (schedules_url season_id) text 3 k 0 3
              (season_opened season_id w) Hk ltac:(lia) Hfail Hok)
    as [w1 [Hrun [Hnet [Hreq [Hsl [Hwr _]]]]]].
  unfold download_xml. change (Z.to_nat 3) with 3. rewrite Hrun.
  change (requested (season_opened season_id w)) with (requested w) in *.
  change (slept (season_opened season_id w)) with (slept w) in *.
  change (written (season_opened season_id w)) with (written w) in *.
  destruct Hnone as [[e He]|[root [Hroot Hnil]]].
  - rewrite He. eexists. eexists. split; [reflexivity|].
    cbn [snd log_line network requested slept written logged].
    repeat (split; [assumption|]). reflexivity.
  - rewrite Hroot, Hnil. eexists. eexists. split; [reflexivity|].
    cbn [snd log_line network requested slept written logged].
    repeat (split; [assumption|]). reflexivity.
Qed.

Lemma process_season_without_events_witness :
  2 < 3
  /\ (forall i, i < 2 ->
        exists msg,
          network flaky_world (List.length (requested flaky_world) + i)
            (schedules_url "sr:season:118691") = Failure msg)
  /\ network flaky_world (List.length (requested flaky_world) + 2)
       (schedules_url "sr:season:118691") = Response "<summary/>"
  /\ ((exists e, sample_fromstring "<summary/>" = inr e)
      \/ (exists root, sample_fromstring "<summary/>" = inl root
                       /\ scheduled_events root = []))
  /\ exists (w' : world) (lines : log),
       process_season sample_fromstring "sr:season:118691" flaky_world
       = (Returned 0, w')
       /\ written w' = written flaky_world
       /\ requested w'
          = (requested flaky_world
             ++ repeat (schedules_url "sr:season:118691") (2 + 1))%list
       /\ slept w' = (slept flaky_world ++ repeat 2 2)%list
       /\ logged w'
          = (lines
             ++ [(WARNING,
                  ("No se encontraron eventos para " ++ "sr:season:118691"
                   ++ ".")%string)])%list.
Proof.
  assert (H1 : 2 < 3) by lia.
  assert (H2 : forall i, i < 2 ->
            exists msg,
              network flaky_world
                (List.length (requested flaky_world) + i)
                (schedules_url "sr:season:118691") = Failure msg).
  { intros i Hi. destruct i as [|[|i]]; [eexists; reflexivity ..|lia]. }
  assert (H3 : network flaky_world
                 (List.length (requested flaky_world) + 2)
                 (schedules_url "sr:season:118691") = Response "<summary/>")
    by reflexivity.
  assert (H4 : (exists e, sample_fromstring "<summary/>" = inr e)
               \/ (exists root, sample_fromstring "<summary/>" = inl root
                                /\ scheduled_events root = [])).
  { left. eexists. reflexivity. }
  split; [exact H1|]. split; [exact H2|]. split; [exact H3|].
  split; [exact H4|].
  exact (process_season_without_events sample_fromstring "sr:season:118691"
           "<summary/>" 2 flaky_world H1 H2 H3 H4).
Defined.

(** X29.  However the network and the parser behave, and taking the file
    writes to succeed, [process_season] ends in one of two ways.  Either it
    returns a count, and then exactly that many files were written; or it
    raises the [AttributeError] of an event without an id, which can only
    happen when the schedule that one of the three requests downloaded
    parses to a document with an event node that has no id attribute.  A
    [RequestException] never leaves it. *)
Theorem process_season_outcome :
  forall (fromstring : string -> Element + string) (season_id : string)
         (w : world),
    exists w',
      network w' = network w
      /\ ((exists n,
             process_season fromstring season_id w = (Returned n, w')
             /\ List.length (written w') = List.length (written w) + n)
          \/ (process_season fromstring season_id w
              = (Raised (Other (AttributeError
                   "'NoneType' object has no attribute 'replace'")), w')
              /\ exists text root k,
                   k < 3
                   /\ network w (List.length (requested w) + k)
                        (schedules_url season_id) = Response text
                   /\ fromstring text = inl root
                   /\ Exists (fun node => Element_get node "id" = None)
                        (scheduled_events root))).
Proof.
  intros fromstring season_id w. rewrite process_season_run.
  destruct (download_attempts_outcome (schedules_url season_id) 3 3 0
              (season_opened season_id w) eq_refl ltac:(lia))
    as [k [w1 [Hk [Hnet [Hreq [Hsl [Hwr [_ Hend]]]]]]]].
  unfold download_xml. change (Z.to_nat 3) with 3.
  change (network (season_opened season_id w)) with (network w) in *.
  change (requested (season_opened season_id w)) with (requested w) in *.
  change (written (season_opened season_id w)) with (written w) in *.
  destruct Hend as [[text [Hrun [Hres _]]]|[msg [Hrun _]]]; rewrite Hrun.
  - destruct (fromstring text) as [root|e] eqn:Hf.
    + destruct (scheduled_events root) as [|node nodes] eqn:Hnodes.
      * eexists. split; [|left; exists 0; split; [reflexivity|]].
        { cbn [snd log_line network]. assumption. }
        cbn [snd log_line written]. rewrite Hwr. lia.
      * match goal with
        | |- context [download_events ?t 1 _ 0 ?w2] =>
            destruct (download_events_outcome t (node :: nodes) 1 0 w2)
              as [w3 [Hnet3 [[n [Hrun3 [_ [_ Hwr3]]]]|[Hrun3 Hex]]]]
        end.
        -- rewrite Hrun3. eexists.
           split; [|left; exists n; split; [reflexivity|]].
           { cbn [snd log_line network] in *. congruence. }
           cbn [snd log_line written] in *. rewrite Hwr3, Hwr. lia.
        -- rewrite Hrun3. exists w3.
           split; [cbn [snd log_line network] in *; congruence|].
           right. split; [reflexivity|]. exists text, root, k.
           split; [assumption|]. split; [assumption|].
           split; [assumption|]. rewrite Hnodes. assumption.
    + eexists. split; [|left; exists 0; split; [reflexivity|]].
      { cbn [snd log_line network]. assumption. }
      cbn [snd log_line written]. rewrite Hwr. lia.
  - eexists. split; [|left; exists 0; split; [reflexivity|]].
    { cbn [snd log_line network]. assumption. }
    cbn [snd log_line written]. rewrite Hwr. lia.
Qed.

(** ** The downloader: a season that is fully answered *)

(** One summary download when the first request is answered. *)
Lemma download_event_summary_answered (body : string -> string)
  (node : Element) (home_team away_team : pyval) (w : world) :
  plain_id node ->
  (forall m url, network w m url = Response (body url)) ->
  exists w',
    download_event_summary (Element_get node "id") home_team away_team w
    = (Returned true, w')
    /\ network w' = network w
    /\ written w' = (written w ++ [summary_file body node])%list
    /\ requested w'
       = (requested w
          ++ [summary_url (py_str (Element_get node "id"))])%list
    /\ slept w' = slept w
    /\ errors_of (logged w') = errors_of (logged w).
Proof.
  intros [id [Hid Hfree]] Hnet. unfold summary_file. rewrite Hid.
  cbn [py_str]. rewrite download_event_summary_run. cbn [py_str].
  match goal with
  | |- context [download_xml _ 3 ?w1] =>
      destruct (download_attempts_succeed (summary_url id)
                  (body (summary_url id)) 3 0 0 3 w1 ltac:(lia) ltac:(lia))
        as [w2 [Hrun [Hnet2 [Hreq [Hsl [Hwr [He _]]]]]]]
  end.
  - intros i Hi. lia.
  - apply Hnet.
  - unfold download_xml. change (Z.to_nat 3) with 3. rewrite Hrun.
    eexists. split; [reflexivity|].
    rewrite games_path by assumption.
    cbn [snd log_line write_file network requested slept written logged
         repeat Nat.add] in *.
    rewrite app_nil_r in Hsl.
    split; [assumption|]. split; [now rewrite Hwr|].
    split; [assumption|]. split; [assumption|].
    rewrite errors_of_app, He, errors_of_app. cbn. now rewrite !app_nil_r.
Qed.

Lemma sleeps_between (idx total len : nat) :
  ((if (idx <? total)%nat then [SLEEP_SECONDS] else [])
   ++ repeat SLEEP_SECONDS (Nat.min len (total - (idx + 1))))%list
  = repeat SLEEP_SECONDS (Nat.min (S len) (total - idx)).
Proof.
  destruct (idx <? total)%nat eqn:E.
  - apply Nat.ltb_lt in E.
    replace (total - idx) with (S (total - (idx + 1))) by lia.
    reflexivity.
  - apply Nat.ltb_ge in E.
    replace (total - idx) with 0 by lia.
    replace (total - (idx + 1)) with 0 by lia.
    now rewrite !Nat.min_0_r.
Qed.

(** The download loop when every request is answered and every event has a
    plain id. *)
Lemma download_events_answered (body : string -> string) (total : nat)
  (nodes : list Element) :
  Forall plain_id nodes ->
  forall (idx successful_downloads : nat) (w : world),
    (forall m url, network w m url = Response (body url)) ->
    exists w',
      download_events total idx (map schedule_record nodes)
        successful_downloads w
      = (Returned (successful_downloads + List.length nodes), w')
      /\ network w' = network w
      /\ written w' = (written w ++ map (summary_file body) nodes)%list
      /\ requested w'
         = (requested w
            ++ map (fun node => summary_url (py_str (Element_get node "id")))
                 nodes)%list
      /\ slept w'
         = (slept w
            ++ repeat SLEEP_SECONDS
                 (Nat.min (List.length nodes) (total - idx)))%list
      /\ errors_of (logged w') = errors_of (logged w).
Proof.
  induction 1 as [|node rest Hnode Hrest IH]; intros idx n0 w Hnet.
  - exists w. cbn [map download_events List.length repeat Nat.min].
    unfold nret. rewrite !app_nil_r, Nat.add_0_r. repeat split.
  - cbn [map].
    change (schedule_record node)
      with [("id", Element_get node "id"); ("home", side_name "home" node);
            ("away", side_name "away" node)].
    rewrite download_events_cons.
    match goal with
    | |- context [download_event_summary ?i ?h ?a ?w1] =>
        destruct (download_event_summary_answered body node h a w1 Hnode
                    Hnet)
          as [w2 [Hrun [Hnet2 [Hwr [Hreq [Hsl He]]]]]]
    end.
    rewrite Hrun.
    match goal with
    | |- context [download_events total (idx + 1) _ ?n1 ?w3] =>
        destruct (IH (idx + 1) n1 w3)
          as [w' [Hrun' [Hnet' [Hwr' [Hreq' [Hsl' He']]]]]]
    end.
    { intros m url. destruct (idx <? total)%nat;
        cbn [snd sleep network]; rewrite Hnet2; apply Hnet. }
    exists w'. split.
    { rewrite Hrun'. cbn [List.length]. f_equal. f_equal. lia. }
    cbn [snd log_line network requested slept written logged] in *.
    split.
    { rewrite Hnet'. destruct (idx <? total)%nat; exact Hnet2. }
    split.
    { rewrite Hwr'.
      replace (written (if (idx <? total)%nat
                        then snd (sleep SLEEP_SECONDS w2) else w2))
        with (written w2) by (destruct (idx <? total)%nat; reflexivity).
      rewrite Hwr, <- app_assoc. reflexivity. }
    split.
    { rewrite Hreq'.
      replace (requested (if (idx <? total)%nat
                          then snd (sleep SLEEP_SECONDS w2) else w2))
        with (requested w2) by (destruct (idx <? total)%nat; reflexivity).
      rewrite Hreq, <- app_assoc. reflexivity. }
    split.
    { rewrite Hsl'. cbn [List.length].
      rewrite <- sleeps_between, app_assoc. f_equal.
      destruct (idx <? total)%nat; cbn [snd sleep slept]; rewrite Hsl;
        [reflexivity|now rewrite app_nil_r]. }
    rewrite He'.
    replace (logged (if (idx <? total)%nat
                     then snd (sleep SLEEP_SECONDS w2) else w2))
      with (logged w2) by (destruct (idx <? total)%nat; reflexivity).
    rewrite He, errors_of_app. cbn. now rewrite app_nil_r.
Qed.

(** X30.  When every request is answered, the schedule parses and every
    event of the schedule has an id without a slash, [process_season]
    returns the number of events of the schedule (the file writes being
    taken to succeed).  It requests the schedule and then each event's
    summary once, in schedule order; it writes one file per event, named
    after the id, holding the answer to that event's request; it sleeps one
    second between consecutive events and not after the last; and it logs no
    error. *)
Theorem process_season_all_answered :
  forall (fromstring : string -> Element + string)
         (body : string -> string) (season_id : string) (root : Element)
         (w : world),
    (forall m url, network w m url = Response (body url)) ->
    fromstring (body (schedules_url season_id)) = inl root ->
    Forall plain_id (scheduled_events root) ->
    exists w',
      process_season fromstring season_id w
      = (Returned (List.length (scheduled_events root)), w')
      /\ written w'
         = (written w ++ map (summary_file body) (scheduled_events root))%list
      /\ requested w'
         = (requested w
            ++ schedules_url season_id
               :: map (fun node =>
                         summary_url (py_str (Element_get node "id")))
                    (scheduled_events root))%list
      /\ slept w'
         = (slept w
            ++ repeat 1 (List.length (scheduled_events root) - 1))%list
      /\ errors_of (logged w') = errors_of (logged w).
Proof.
  intros fromstring body season_id root w Hnet Hroot Hids.
  rewrite process_season_run.
  destruct (download_attempts_succeed (schedules_url season_id)
              (body (schedules_url season_id)) 3 0 0 3
              (season_opened season_id w) ltac:(lia) ltac:(lia))
    as [w1 [Hrun [Hnet1 [Hreq [Hsl [Hwr [He _]]]]]]].
  { intros i Hi. lia. }
  { apply Hnet. }
  unfold download_xml. change (Z.to_nat 3) with 3. rewrite Hrun, Hroot.
  change (network (season_opened season_id w)) with (network w) in *.
  change (requested (season_opened season_id w)) with (requested w) in *.
  change (slept (season_opened season_id w)) with (slept w) in *.
  change (written (season_opened season_id w)) with (written w) in *.
  assert (Hlog : errors_of (logged w1) = errors_of (logged w)).
  { rewrite He. unfold season_opened, nbind, log_line. cbn [snd logged].
    rewrite !errors_of_app. cbn. now rewrite !app_nil_r. }
  cbn [repeat Nat.add] in Hreq, Hsl. rewrite app_nil_r in Hsl.
  destruct (scheduled_events root) as [|node nodes] eqn:Hnodes.
  - eexists. split; [reflexivity|].
    cbn [snd log_line network requested slept written logged map
         List.length Nat.sub repeat].
    rewrite !app_nil_r.
    split; [assumption|]. split; [assumption|]. split; [assumption|].
    rewrite !errors_of_app, Hlog. cbn. now rewrite !app_nil_r.
  - match goal with
    | |- context [download_events ?t 1 _ 0 ?w2] =>
        destruct (download_events_answered body t (node :: nodes) Hids 1 0
                    w2)
          as [w3 [Hrun3 [Hnet3 [Hwr3 [Hreq3 [Hsl3 He3]]]]]]
    end.
    { intros m url. cbn [snd log_line network]. rewrite Hnet1. apply Hnet. }
    rewrite Hrun3. eexists. split; [reflexivity|].
    cbn [snd log_line network requested slept written logged] in *.
    split; [now rewrite Hwr3, Hwr|].
    split; [rewrite Hreq3, Hreq, <- app_assoc; reflexivity|].
    split.
    { rewrite Hsl3, Hsl. f_equal. f_equal.
      cbn [List.length]. lia. }
    rewrite errors_of_app, He3, errors_of_app, Hlog. cbn.
    now rewrite !app_nil_r.
Qed.

Lemma process_season_all_answered_witness :
  (forall m url,
     network online_world m url = Response ((fun _ => "<schedule/>") url))
  /\ sample_fromstring
       ((fun _ => "<schedule/>") (schedules_url "sr:season:118691"))
     = inl schedule_doc
  /\ Forall plain_id (scheduled_events schedule_doc)
  /\ exists w',
       process_season sample_fromstring "sr:season:118691" online_world
       = (Returned (List.length (scheduled_events schedule_doc)), w')
       /\ written w'
          = (written online_world
             ++ map (summary_file (fun _ => "<schedule/>"))
                  (scheduled_events schedule_doc))%list
       /\ requested w'
          = (requested online_world
             ++ schedules_url "sr:season:118691"
                :: map (fun node =>
                          summary_url (py_str (Element_get node "id")))
                     (scheduled_events schedule_doc))%list
       /\ slept w'
          = (slept online_world
             ++ repeat 1 (List.length (scheduled_events schedule_doc) - 1))
              %list
       /\ errors_of (logged w') = errors_of (logged online_world).
Proof.
  assert (H1 : forall m url,
            network online_world m url
            = Response ((fun _ => "<schedule/>") url))
    by (intros m url; reflexivity).
  assert (H2 : sample_fromstring
                 ((fun _ => "<schedule/>")
                    (schedules_url "sr:season:118691"))
               = inl schedule_doc) by reflexivity.
  assert (H3 : Forall plain_id (scheduled_events schedule_doc)).
  { change (scheduled_events schedule_doc)
      with [Elem (ns "sport_event") [("id", "sr:sport_event:1")]
              [Elem (ns "competitors") []
                 [schedule_competitor "home" "Alpha";
                  schedule_competitor "away" "Beta"]];
            Elem (ns "sport_event") [("id", "sr:sport_event:2")] []].
    repeat constructor; eexists; split; reflexivity. }
  split; [exact H1|]. split; [exact H2|]. split; [exact H3|].
  exact (process_season_all_answered sample_fromstring
           (fun _ => "<schedule/>") "sr:season:118691" schedule_doc
           online_world H1 H2 H3).
Defined.

(** The files of the sample season. *)
Example sample_season_files :
  map (summary_file (fun _ => "<schedule/>"))
    (scheduled_events schedule_doc)
  = [("ETL/games/sr_sport_event_1.xml", "<schedule/>");
     ("ETL/games/sr_sport_event_2.xml", "<schedule/>")].
Proof. vm_compute. reflexivity. Qed.
